(** * HackerNews API test framework: transport client, validators, domain
    client, configuration manager and schema checker.

    A shallow embedding of the TypeScript sources
    - [src/core/http/HttpClient.ts]           (module [HttpClient])
    - [src/core/http/ResponseValidator.ts]    (module [ResponseValidator])
    - [src/core/utils/ErrorHandler.ts]        (module [ErrorHandler])
    - [src/core/config/ConfigManager.ts]      (module [ConfigManager])
    - [src/core/base/BaseAPI.ts] and
      [src/api/clients/HackerNewsClient.ts]   (module [HackerNewsClient])
    - the item, story, comment and job schemas and
      [src/api/schemas/user.schema.ts]        (modules [Ajv], [Schemas])
    - [src/core/utils/Logger.ts]              (module [Logger])
    - [src/core/utils/SchemaValidator.ts]     (module [SchemaValidator])
    - [tests/data/factories/UserFactory.ts]   (module [UserFactory])
    followed by the properties proved about them. *)

From Stdlib Require Import ZArith List String Ascii Bool Lia.
From Stdlib Require Import DecimalString.
Import ListNotations.

Set Warnings "-register-all".

Local Open Scope string_scope.
Local Open Scope Z_scope.

(** ** JavaScript data *)

Module JS.

(** Decoded payloads and the other values the validators inspect.  Numbers
    are the integers the service deals in (identifiers, timestamps, scores,
    limits); no property below depends on a fractional value. *)
Inductive value : Type :=
| JUndefined
| JNull
| JBool (b : bool)
| JNum (n : Z)
| JStr (s : string)
| JArr (items : list value)
| JObj (fields : list (string * value)).

(** Own-property lookup in an object literal; an object is its list of
    (key, value) entries in insertion order. *)
Fixpoint lookup {A : Type} (k : string) (l : list (string * A)) : option A :=
  match l with
  | [] => None
  | (k', v) :: rest => if String.eqb k k' then Some v else lookup k rest
  end.

Definition keys {A : Type} (l : list (string * A)) : list string := map fst l.

(** [obj\[k\] = v] on an object literal, and the object spread
    [{ ...a, k: v }]: an existing key keeps its position, a new key is
    appended. *)
Fixpoint set_prop {A : Type} (k : string) (v : A) (l : list (string * A))
  : list (string * A) :=
  match l with
  | [] => [(k, v)]
  | (k', v') :: rest =>
      if String.eqb k k' then (k, v) :: rest else (k', v') :: set_prop k v rest
  end.

Definition spread {A : Type} (a b : list (string * A)) : list (string * A) :=
  fold_left (fun acc kv => set_prop (fst kv) (snd kv) acc) b a.

(** [typeof v] *)
Definition typeof (v : value) : string :=
  match v with
  | JUndefined => "undefined"
  | JNull => "object"
  | JBool _ => "boolean"
  | JNum _ => "number"
  | JStr _ => "string"
  | JArr _ => "object"
  | JObj _ => "object"
  end.

Definition isArray (v : value) : bool :=
  match v with JArr _ => true | _ => false end.

(** [v === undefined || v === null] *)
Definition nullish (v : value) : bool :=
  match v with JUndefined | JNull => true | _ => false end.

(** Truthiness of the values that occur in [a || b] and [if (a)]. *)
Definition truthy (v : value) : bool :=
  match v with
  | JUndefined | JNull => false
  | JBool b => b
  | JNum n => negb (n =? 0)
  | JStr s => negb (String.eqb s "")
  | JArr _ | JObj _ => true
  end.

(** Number to string, as in a template literal; exact for integers of
    magnitude below 10^21, above which JavaScript switches to exponent
    notation. *)
Definition number_to_string (n : Z) : string :=
  NilZero.string_of_int (Z.to_int n).

(** [s.startsWith(p)] and [s.endsWith(p)] *)
Definition startsWith (s p : string) : bool := String.prefix p s.

Definition endsWith (s p : string) : bool :=
  let n := String.length s in
  let m := String.length p in
  (m <=? n)%nat && String.eqb (String.substring (n - m) m s) p.

(** [s.includes(p)] *)
Fixpoint includes (s p : string) : bool :=
  String.prefix p s ||
  match s with
  | EmptyString => false
  | String _ rest => includes rest p
  end.

(** [s.slice(0, -1)] *)
Definition drop_last (s : string) : string :=
  String.substring 0 (String.length s - 1) s.

(** [s.split(c)] for a one-character separator: always at least one piece. *)
Fixpoint split (c : ascii) (s : string) : list string :=
  match s with
  | EmptyString => [EmptyString]
  | String a rest =>
      if Ascii.eqb a c then EmptyString :: split c rest
      else match split c rest with
           | [] => [String a EmptyString]
           | piece :: pieces => String a piece :: pieces
           end
  end.

(** [l.join(sep)] on a list of strings *)
Definition join (sep : string) (l : list string) : string := String.concat sep l.

(** [arr.slice(start, end)] (ECMAScript 23.1.3.28) for integer arguments:
    a negative bound counts from the end, bounds are clamped to the
    length, and an empty range yields the empty array. *)
Definition relative_index (len i : Z) : Z :=
  if i <? 0 then Z.max (len + i) 0 else Z.min i len.

Definition slice {A : Type} (l : list A) (start stop : Z) : list A :=
  let len := Z.of_nat (List.length l) in
  let k := relative_index len start in
  let final := relative_index len stop in
  let count := Z.max (final - k) 0 in
  firstn (Z.to_nat count) (skipn (Z.to_nat k) l).

(** A canonical array index: the decimal numeral of a natural number,
    without leading zeros. *)
Definition index_of_string (s : string) : option nat :=
  match s with
  | EmptyString => None
  | String c rest =>
      if Ascii.eqb c "0" && negb (String.eqb rest "") then None
      else option_map Nat.of_uint (NilZero.uint_of_string s)
  end.

(** [v\[prop\]] on a non-nullish value, restricted to own data properties:
    the entries of an object, the elements and [length] of an array, the
    characters and [length] of a string.  Members inherited from the
    built-in prototypes are functions, which payloads never contain; the
    validators below are parametric in the property read, so their
    theorems do not depend on this choice. *)
Definition get_prop (v : value) (prop : string) : value :=
  match v with
  | JObj fields =>
      match lookup prop fields with Some x => x | None => JUndefined end
  | JArr items =>
      if String.eqb prop "length" then JNum (Z.of_nat (List.length items))
      else match index_of_string prop with
           | Some i => nth i items JUndefined
           | None => JUndefined
           end
  | JStr s =>
      if String.eqb prop "length" then JNum (Z.of_nat (String.length s))
      else match index_of_string prop with
           | Some i =>
               match String.get i s with
               | Some c => JStr (String c EmptyString)
               | None => JUndefined
               end
           | None => JUndefined
           end
  | _ => JUndefined
  end.

(** Strict structural equality of decoded values. *)
Fixpoint value_eqb (a b : value) {struct a} : bool :=
  match a, b with
  | JUndefined, JUndefined => true
  | JNull, JNull => true
  | JBool x, JBool y => Bool.eqb x y
  | JNum x, JNum y => x =? y
  | JStr x, JStr y => String.eqb x y
  | JArr xs, JArr ys =>
      (fix go (l : list value) (r : list value) {struct l} : bool :=
         match l, r with
         | [], [] => true
         | x :: l', y :: r' => value_eqb x y && go l' r'
         | _, _ => false
         end) xs ys
  | JObj xs, JObj ys =>
      (fix go (l : list (string * value)) (r : list (string * value))
           {struct l} : bool :=
         match l, r with
         | [], [] => true
         | (k, x) :: l', (k', y) :: r' =>
             String.eqb k k' && value_eqb x y && go l' r'
         | _, _ => false
         end) xs ys
  | _, _ => false
  end.

(** [String(v)], the conversion a template literal applies. *)
Fixpoint to_string (v : value) : string :=
  match v with
  | JUndefined => "undefined"
  | JNull => "null"
  | JBool true => "true"
  | JBool false => "false"
  | JNum n => number_to_string n
  | JStr s => s
  | JArr items =>
      join "," (map (fun x => if nullish x then "" else to_string x) items)
  | JObj _ => "[object Object]"
  end.

End JS.

Import JS.

(** ** Errors, log lines and the effects of a call *)

(** [LogLevel] of [Logger.ts]. *)
Inductive LogLevel : Type := DEBUG | INFO | WARN | ERROR.

(** What a call does besides returning: the lines handed to the logger
    (recorded whatever the active log level, which only filters what the
    console shows; the data argument of a line is not recorded), the
    [fetch] invocations and the back-off delays. *)
Inductive event : Type :=
| Log (level : LogLevel) (message : string)
| Fetch (method url : string) (attempt : Z)
| Delay (ms : Z).

(** Values thrown by the framework.  [APIError], [ValidationError] and
    [ConfigurationError] are the classes of [ErrorHandler.ts]; [OtherError]
    is any other exception object (the [TypeError] of a failed [fetch], an
    [AbortError], the [SyntaxError] of a malformed body), with its [name],
    [message] and, when it has one, its [response] property as
    (status, data); [ThrownUndefined] is [throw undefined]. *)
Inductive js_error : Type :=
| APIError (statusCode : Z) (message endpoint : string)
           (responseBody : option value)
| ValidationError (message : string) (field : option string)
                  (validationDetails : value)
| ConfigurationError (message : string)
| OtherError (name message : string) (response : option (Z * value))
| ThrownUndefined.

Definition error_name (e : js_error) : string :=
  match e with
  | APIError _ _ _ _ => "APIError"
  | ValidationError _ _ _ => "ValidationError"
  | ConfigurationError _ => "ConfigurationError"
  | OtherError name _ _ => name
  | ThrownUndefined => ""
  end.

Definition error_message (e : js_error) : string :=
  match e with
  | APIError _ m _ _ => m
  | ValidationError m _ _ => m
  | ConfigurationError m => m
  | OtherError _ m _ => m
  | ThrownUndefined => ""
  end.

(** A computation either returns or throws. *)
Inductive result (A : Type) : Type :=
| Ok (a : A)
| Throw (e : js_error).
Arguments Ok {A} a.
Arguments Throw {A} e.

(** Synchronous code that may throw. *)
Definition bindR {A B : Type} (m : result A) (f : A -> result B) : result B :=
  match m with
  | Ok a => f a
  | Throw e => Throw e
  end.

(** Code that may throw and leaves a trace of events. *)
Definition M (A : Type) : Type := (result A * list event)%type.

Definition ret {A : Type} (a : A) : M A := (Ok a, []).
Definition throw {A : Type} (e : js_error) : M A := (Throw e, []).
Definition emit (ev : event) : M unit := (Ok tt, [ev]).
Definition lift {A : Type} (r : result A) : M A := (r, []).

Definition bind {A B : Type} (m : M A) (f : A -> M B) : M B :=
  match m with
  | (Ok a, t) => let (r, t') := f a in (r, (t ++ t')%list)
  | (Throw e, t) => (Throw e, t)
  end.

(** [try { m } catch (error) { h error }] *)
Definition try_catch {A : Type} (m : M A) (h : js_error -> M A) : M A :=
  match m with
  | (Ok a, t) => (Ok a, t)
  | (Throw e, t) => let (r, t') := h e in (r, (t ++ t')%list)
  end.

Declare Scope m_scope.
Delimit Scope m_scope with M.
Notation "x <- m ;; k" := (bind m (fun x => k))
  (at level 61, m at next level, right associativity) : m_scope.
Notation "m ;; k" := (bind m (fun _ => k))
  (at level 61, right associativity) : m_scope.
Notation "x <-- m ;;; k" := (bindR m (fun x => k))
  (at level 61, m at next level, right associativity) : m_scope.
Notation "m ;;; k" := (bindR m (fun _ => k))
  (at level 61, right associativity) : m_scope.

Definition returned {A : Type} (m : M A) : result A := fst m.
Definition trace {A : Type} (m : M A) : list event := snd m.

(** The [fetch] events of a trace. *)
Definition is_fetch (ev : event) : bool :=
  match ev with Fetch _ _ _ => true | _ => false end.

Definition fetch_count (t : list event) : nat :=
  List.length (filter is_fetch t).

(** The network activity of a trace: its [fetch] calls and delays, in
    order, without the log lines. *)
Definition is_log (ev : event) : bool :=
  match ev with Log _ _ => true | _ => false end.

Definition timeline (t : list event) : list event :=
  filter (fun ev => negb (is_log ev)) t.

(** An exception object seen as data (its own properties), as it appears
    inside a details payload. *)
Definition error_value (e : js_error) : value :=
  match e with
  | APIError statusCode message endpoint responseBody =>
      JObj [("statusCode", JNum statusCode); ("endpoint", JStr endpoint);
            ("responseBody",
             match responseBody with Some b => b | None => JUndefined end);
            ("name", JStr "APIError"); ("message", JStr message)]
  | ValidationError message field validationDetails =>
      JObj [("field",
             match field with Some f => JStr f | None => JUndefined end);
            ("validationDetails", validationDetails);
            ("name", JStr "ValidationError"); ("message", JStr message)]
  | ConfigurationError message =>
      JObj [("name", JStr "ConfigurationError"); ("message", JStr message)]
  | OtherError name message _ =>
      JObj [("name", JStr name); ("message", JStr message)]
  | ThrownUndefined => JUndefined
  end.

(** ** Logger.ts *)

Module Logger.

(** The string value of a [LogLevel] member. *)
Definition level_name (l : LogLevel) : string :=
  match l with
  | DEBUG => "DEBUG"
  | INFO => "INFO"
  | WARN => "WARN"
  | ERROR => "ERROR"
  end.

(** The logger's private field.  [LogLevel] is a string enum, and the
    setup hook stores [config.logging.level as LogLevel], so the field can
    hold any string. *)
Record t : Type := mkLogger {
  logLevel : string
}.

(** [private logLevel: LogLevel = LogLevel.INFO] *)
Definition initial : t := mkLogger "INFO".

(** [setLogLevel(level)] *)
Definition setLogLevel (lg : t) (level : string) : t := mkLogger level.

(** [levels.indexOf(x)]: the first position of [x], or -1. *)
Fixpoint indexOf (x : string) (l : list string) : Z :=
  match l with
  | [] => -1
  | y :: rest =>
      if String.eqb x y then 0
      else let i := indexOf x rest in if i <? 0 then -1 else i + 1
  end.

Definition levels : list string := ["DEBUG"; "INFO"; "WARN"; "ERROR"].

(** The position of a level in the order DEBUG < INFO < WARN < ERROR. *)
Definition severity (l : LogLevel) : Z :=
  match l with
  | DEBUG => 0
  | INFO => 1
  | WARN => 2
  | ERROR => 3
  end.

(** [shouldLog(level)] *)
Definition shouldLog (lg : t) (level : LogLevel) : bool :=
  indexOf (level_name level) levels >=? indexOf (logLevel lg) levels.

(** The console method a line goes to. *)
Inductive console : Type := ConsoleError | ConsoleWarn | ConsoleLog.

(** [log(level, message, data)], with the timestamp the clock gives:
    the console call it makes, if any. *)
Definition log (lg : t) (timestamp : string) (level : LogLevel)
           (message : string) : option (console * string) :=
  if negb (shouldLog lg level) then None
  else
    let logMessage :=
      "[" ++ timestamp ++ "] [" ++ level_name level ++ "] " ++ message in
    match level with
    | ERROR => Some (ConsoleError, logMessage)
    | WARN => Some (ConsoleWarn, logMessage)
    | DEBUG | INFO => Some (ConsoleLog, logMessage)
    end.

(** What the console shows of the lines a call handed to the logger. *)
Definition shown (lg : t) (tr : list event) : list event :=
  filter (fun ev => match ev with
                    | Log level _ => shouldLog lg level
                    | _ => false
                    end) tr.

End Logger.

(** ** ErrorHandler.ts *)

Module ErrorHandler.

(** [a || b] on message strings *)
Definition or_default (s d : string) : string :=
  if String.eqb s "" then d else s.

(** [ErrorHandler.handleAPIError(error, endpoint)]: never returns. *)
Definition handleAPIError {A : Type} (error : js_error) (endpoint : string)
  : M A :=
  (emit (Log ERROR ("API Error at " ++ endpoint ++ ":")) ;;
   match error with
   | APIError _ _ _ _ => throw error
   | OtherError _ message (Some (status, data)) =>
       throw (APIError status (or_default message "API request failed")
                       endpoint (Some data))
   | ThrownUndefined =>
       throw (OtherError "TypeError"
                "Cannot read properties of undefined (reading 'response')" None)
   | _ =>
       throw (APIError 500 (or_default (error_message error) "Unknown API error")
                       endpoint None)
   end)%M.

(** [ErrorHandler.handleConfigurationError(message)]: never returns. *)
Definition handleConfigurationError {A : Type} (message : string) : M A :=
  (emit (Log ERROR ("Configuration Error: " ++ message)) ;;
   throw (ConfigurationError message))%M.

(** [ErrorHandler.handleValidationError(message, field, details)]: never
    returns. *)
Definition handleValidationError {A : Type} (message : string)
           (field : option string) (details : value) : M A :=
  (emit (Log ERROR ("Validation Error: " ++ message)) ;;
   throw (ValidationError message field details))%M.

End ErrorHandler.

(** ** ConfigManager.ts *)

Module ConfigManager.

Record Environment : Type := mkEnvironment {
  name : string;
  baseUrl : string;
  timeout : option Z;
  retries : option Z;
  headers : option (list (string * string))
}.

Record Logging : Type := mkLogging {
  level : string;
  enabled : bool
}.

Record Reporting : Type := mkReporting {
  outputDir : string;
  format : list string
}.

Record TestConfig : Type := mkTestConfig {
  environment : Environment;
  logging : Logging;
  reporting : Reporting
}.

(** The singleton's private state: the active configuration and the
    [Map] of named profiles, in insertion order. *)
Record t : Type := mkConfigManager {
  config : TestConfig;
  environments : list (string * Environment)
}.

(** [process.env]: the variables that are set. *)
Definition process_env : Type := list (string * string).

(** [process.env.X || fallback] *)
Definition env_or (penv : process_env) (x fallback : string) : string :=
  match lookup x penv with
  | Some v => if String.eqb v "" then fallback else v
  | None => fallback
  end.

Definition dev : Environment :=
  mkEnvironment "dev" "https://hacker-news.firebaseio.com/v0"
                (Some 30000) (Some 2) None.

Definition staging : Environment :=
  mkEnvironment "staging" "https://hacker-news.firebaseio.com/v0"
                (Some 30000) (Some 2) None.

Definition production : Environment :=
  mkEnvironment "production" "https://hacker-news.firebaseio.com/v0"
                (Some 30000) (Some 1) None.

(** [loadEnvironments()] *)
Definition loadEnvironments : list (string * Environment) :=
  set_prop "production" production
    (set_prop "staging" staging
       (set_prop "dev" dev [])).

Definition not_found_message (envName : string)
           (envs : list (string * Environment)) : string :=
  "Environment '" ++ envName ++ "' not found. Available: "
    ++ join ", " (keys envs).

(** [initializeConfig()] *)
Definition initializeConfig (penv : process_env)
           (envs : list (string * Environment)) : M TestConfig :=
  let envName := env_or penv "TEST_ENV" "dev" in
  match lookup envName envs with
  | None =>
      ErrorHandler.handleConfigurationError (not_found_message envName envs)
  | Some e =>
      ret (mkTestConfig e
             (mkLogging (env_or penv "LOG_LEVEL" "INFO")
                        (match lookup "LOGGING_ENABLED" penv with
                         | Some v => negb (String.eqb v "false")
                         | None => true
                         end))
             (mkReporting (env_or penv "REPORT_DIR" "./reports")
                          (split "," (env_or penv "REPORT_FORMAT" "html,json"))))
  end.

(** The constructor, run once by [getInstance()]. *)
Definition create (penv : process_env) : M t :=
  let envs := loadEnvironments in
  (cfg <- initializeConfig penv envs ;;
   ret (mkConfigManager cfg envs))%M.

Definition getConfig (cm : t) : TestConfig := config cm.

Definition getEnvironment (cm : t) : Environment := environment (config cm).

Definition getBaseUrl (cm : t) : string := baseUrl (environment (config cm)).

(** [timeout || 30000] *)
Definition getTimeout (cm : t) : Z :=
  match timeout (environment (config cm)) with
  | Some n => if n =? 0 then 30000 else n
  | None => 30000
  end.

(** [retries || 0] *)
Definition getRetries (cm : t) : Z :=
  match retries (environment (config cm)) with
  | Some n => n
  | None => 0
  end.

(** [headers || {}] *)
Definition getHeaders (cm : t) : list (string * string) :=
  match headers (environment (config cm)) with
  | Some h => h
  | None => []
  end.

(** [setEnvironment(envName)]: the manager after the call, or the error
    thrown (in which case the assignment is never reached and the manager
    is as before). *)
Definition setEnvironment (cm : t) (envName : string) : M t :=
  match lookup envName (environments cm) with
  | None =>
      ErrorHandler.handleConfigurationError
        (not_found_message envName (environments cm))
  | Some e =>
      ret (mkConfigManager
             (mkTestConfig e (logging (config cm)) (reporting (config cm)))
             (environments cm))
  end.

(** The public operations of the class, and what each hands back. *)
Inductive op : Type :=
| GetConfig
| GetEnvironment
| GetBaseUrl
| GetTimeout
| GetRetries
| GetHeaders
| SetEnvironment (envName : string).

Inductive answer : Type :=
| AConfig (c : TestConfig)
| AEnvironment (e : Environment)
| AString (s : string)
| ANumber (n : Z)
| AHeaders (h : list (string * string))
| AVoid.

(** One call on the singleton: what the caller observes, and the
    singleton afterwards. *)
Definition call (cm : t) (o : op) : M answer * t :=
  match o with
  | GetConfig => (ret (AConfig (getConfig cm)), cm)
  | GetEnvironment => (ret (AEnvironment (getEnvironment cm)), cm)
  | GetBaseUrl => (ret (AString (getBaseUrl cm)), cm)
  | GetTimeout => (ret (ANumber (getTimeout cm)), cm)
  | GetRetries => (ret (ANumber (getRetries cm)), cm)
  | GetHeaders => (ret (AHeaders (getHeaders cm)), cm)
  | SetEnvironment envName =>
      match setEnvironment cm envName with
      | (Ok cm', tr) => ((Ok AVoid, tr), cm')
      | (Throw e, tr) => ((Throw e, tr), cm)
      end
  end.

(** A sequence of calls, one after the other. *)
Fixpoint calls (cm : t) (os : list op) : t :=
  match os with
  | [] => cm
  | o :: rest => calls (snd (call cm o)) rest
  end.

End ConfigManager.

(** ** HttpClient.ts *)

Module HttpClient.

Record HttpRequestConfig : Type := mkRequest {
  method : string;
  url : string;
  headers : option (list (string * string));
  body : option value;
  timeout : option Z;
  retries : option Z
}.

(** The envelope. *)
Record HttpResponse : Type := mkResponse {
  status : Z;
  statusText : string;
  responseHeaders : list (string * string);
  data : value;
  ok : bool
}.

(** The client's private fields. *)
Record t : Type := mkHttpClient {
  baseUrl : string;
  defaultHeaders : list (string * string);
  defaultTimeout : Z;
  defaultRetries : Z
}.

(** What [fetch] is called with. *)
Record FetchCall : Type := mkFetchCall {
  fetchUrl : string;
  fetchMethod : string;
  fetchHeaders : list (string * string);
  fetchBody : option value;
  abortAfter : Z
}.

(** The [Response] object [fetch] resolves to: header names are held in
    lower case, [json()] yields the decoded body or throws a
    [SyntaxError] ([None]), [text()] yields the raw body. *)
Record Response : Type := mkRaw {
  rawStatus : Z;
  rawStatusText : string;
  rawHeaders : list (string * string);
  rawJson : option value;
  rawText : string
}.

(** [response.ok], which the Fetch standard defines as a status in the
    range 200 to 299. *)
Definition rawOk (r : Response) : bool :=
  (200 <=? rawStatus r) && (rawStatus r <=? 299).

(** One [fetch] either resolves to a response or rejects with an
    exception object that has a [name] and a [message] and no [response]
    property (a [TypeError] on network failure, an [AbortError] when the
    timer fires first). *)
Inductive fetch_outcome : Type :=
| Resolves (r : Response)
| Rejects (name message : string).

(** The network: the outcome of the [attempt]-th [fetch] of a request. *)
Definition transport : Type := FetchCall -> Z -> fetch_outcome.

(** The constructor; missing arguments fall back to the configuration
    manager. *)
Definition create (cm : ConfigManager.t) (base : option string)
           (hdrs : option (list (string * string)))
           (tmo rts : option Z) : t :=
  mkHttpClient
    (match base with
     | Some b => if String.eqb b "" then ConfigManager.getBaseUrl cm else b
     | None => ConfigManager.getBaseUrl cm
     end)
    (spread (spread [("Content-Type", "application/json")]
                    (ConfigManager.getHeaders cm))
            (match hdrs with Some h => h | None => [] end))
    (match tmo with
     | Some n => if n =? 0 then ConfigManager.getTimeout cm else n
     | None => ConfigManager.getTimeout cm
     end)
    (match rts with
     | Some n => n
     | None => ConfigManager.getRetries cm
     end).

(** [buildUrl(path)] *)
Definition buildUrl (c : t) (path : string) : string :=
  if startsWith path "http://" || startsWith path "https://" then path
  else
    let base := if endsWith (baseUrl c) "/" then drop_last (baseUrl c)
                else baseUrl c in
    let endpoint := if startsWith path "/" then path else "/" ++ path in
    base ++ endpoint.

(** The decoding step: JSON when the content type says so, raw text
    otherwise. *)
Definition decode_body (response : Response) : M value :=
  match lookup "content-type" (rawHeaders response) with
  | Some contentType =>
      if includes contentType "application/json" then
        match rawJson response with
        | Some v => ret v
        | None =>
            throw (OtherError "SyntaxError" "Unexpected token in JSON" None)
        end
      else ret (JStr (rawText response))
  | None => ret (JStr (rawText response))
  end.

(** The body of the [try] block: one attempt. *)
Definition attempt_once (tr : transport) (call : FetchCall) (attempt : Z)
  : M HttpResponse :=
  (emit (Fetch (fetchMethod call) (fetchUrl call) attempt) ;;
   match tr call attempt with
   | Rejects name message => throw (OtherError name message None)
   | Resolves response =>
       d <- decode_body response ;;
       let httpResponse :=
         mkResponse (rawStatus response) (rawStatusText response)
                    (rawHeaders response) d (rawOk response) in
       if negb (rawOk response) then
         throw (APIError (rawStatus response)
                  ("HTTP " ++ number_to_string (rawStatus response) ++ ": "
                     ++ rawStatusText response)
                  (fetchUrl call) (Some d))
       else
         (emit (Log DEBUG (fetchMethod call ++ " " ++ fetchUrl call ++ " - "
                             ++ number_to_string (rawStatus response))) ;;
          ret httpResponse)
   end)%M.

(** The [catch] block's logging. *)
Definition log_failure (error : js_error) (call : FetchCall)
           (attempt maxRetries : Z) : M unit :=
  if String.eqb (error_name error) "AbortError" then
    emit (Log ERROR ("Request timeout after "
                       ++ number_to_string (abortAfter call) ++ "ms: "
                       ++ fetchUrl call))
  else if attempt =? maxRetries then
    emit (Log ERROR ("Request failed after "
                       ++ number_to_string (maxRetries + 1) ++ " attempts: "
                       ++ fetchUrl call))
  else ret tt.

(** The head of the loop body: the warning and the linear back-off
    before a retry. *)
Definition backoff (call : FetchCall) (attempt : Z) : M unit :=
  if 0 <? attempt then
    (emit (Log WARN ("Retry attempt " ++ number_to_string attempt
                       ++ " for " ++ fetchMethod call ++ " "
                       ++ fetchUrl call)) ;;
     emit (Delay (1000 * attempt)))%M
  else ret tt.

(** The HTTP status an exception carries, if any. *)
Definition failure_status (e : js_error) : option Z :=
  match e with
  | APIError s _ _ _ => Some s
  | OtherError _ _ (Some (s, _)) => Some s
  | _ => None
  end.

(** The status [handleAPIError] gives the error it throws: the one the
    exception carries, or the synthetic 500. *)
Definition surfaced_status (e : js_error) : Z :=
  match failure_status e with Some s => s | None => 500 end.

(** The [for] loop of [request], [remaining] iterations from [attempt]
    on; when the loop runs out the function reaches [throw lastError]. *)
Fixpoint attempts (tr : transport) (call : FetchCall) (maxRetries : Z)
         (remaining : nat) (attempt : Z) (lastError : option js_error)
  : M HttpResponse :=
  match remaining with
  | O =>
      throw (match lastError with Some e => e | None => ThrownUndefined end)
  | S remaining' =>
      (backoff call attempt ;;
       try_catch (attempt_once tr call attempt)
         (fun error =>
            log_failure error call attempt maxRetries ;;
            if attempt =? maxRetries then
              ErrorHandler.handleAPIError error (fetchUrl call)
            else
              attempts tr call maxRetries remaining' (attempt + 1)
                       (Some error)))%M
  end.

(** [config.retries ?? this.retries] *)
Definition maxRetries (c : t) (config : HttpRequestConfig) : Z :=
  match retries config with
  | Some n => n
  | None => defaultRetries c
  end.

(** The [fetch] arguments [request] computes from its configuration. *)
Definition fetch_call (c : t) (config : HttpRequestConfig) : FetchCall :=
  mkFetchCall
    (buildUrl c (url config))
    (method config)
    (spread (defaultHeaders c)
            (match headers config with Some h => h | None => [] end))
    (match body config with
     | Some b => if truthy b then Some b else None
     | None => None
     end)
    (match timeout config with
     | Some n => if n =? 0 then defaultTimeout c else n
     | None => defaultTimeout c
     end).

(** [request(config)]: the loop runs for [attempt = 0 .. maxRetries]. *)
Definition request (c : t) (tr : transport) (config : HttpRequestConfig)
  : M HttpResponse :=
  let call := fetch_call c config in
  let maxR := maxRetries c config in
  (emit (Log DEBUG (method config ++ " " ++ fetchUrl call)) ;;
   attempts tr call maxR (Z.to_nat (maxR + 1)) 0 None)%M.

(** [get(url, headers)] *)
Definition get (c : t) (tr : transport) (path : string)
           (hdrs : option (list (string * string))) : M HttpResponse :=
  request c tr (mkRequest "GET" path hdrs None None None).

(** The other verbs. *)
Definition post (c : t) (tr : transport) (path : string) (b : option value)
           (hdrs : option (list (string * string))) : M HttpResponse :=
  request c tr (mkRequest "POST" path hdrs b None None).

Definition put (c : t) (tr : transport) (path : string) (b : option value)
           (hdrs : option (list (string * string))) : M HttpResponse :=
  request c tr (mkRequest "PUT" path hdrs b None None).

Definition delete (c : t) (tr : transport) (path : string)
           (hdrs : option (list (string * string))) : M HttpResponse :=
  request c tr (mkRequest "DELETE" path hdrs None None None).

Definition patch (c : t) (tr : transport) (path : string) (b : option value)
           (hdrs : option (list (string * string))) : M HttpResponse :=
  request c tr (mkRequest "PATCH" path hdrs b None None).

(** The network activity of a request that makes [k] retries: the first
    fetch, then for [i = 1 .. k] a wait of [1000 * i] ms followed by
    fetch number [i]. *)
Fixpoint retries_from (m u : string) (k : nat) (attempt : Z) : list event :=
  match k with
  | O => []
  | S k' =>
      Delay (1000 * attempt) :: Fetch m u attempt
            :: retries_from m u k' (attempt + 1)
  end.

Definition schedule (m u : string) (k : nat) : list event :=
  Fetch m u 0 :: retries_from m u k 1.

End HttpClient.

(** ** ResponseValidator.ts *)

Module ResponseValidator.

(** [expectedStatus: number | number\[\]] *)
Inductive status_spec : Type :=
| OneStatus (n : Z)
| ManyStatus (l : list Z).

Section Validator.

(** [current\[prop\]] for a [current] that is neither [undefined] nor
    [null]. *)
Variable read : value -> string -> value.

(** [current?.\[prop\]] *)
Definition optional_read (current : value) (prop : string) : value :=
  if nullish current then JUndefined else read current prop.

(** [getNestedValue(obj, path)] *)
Definition getNestedValue (obj : value) (path : string) : value :=
  fold_left optional_read (split "." path) obj.

(** [validateStatus(response, expectedStatus)] *)
Definition validateStatus (response : HttpClient.HttpResponse)
           (expectedStatus : status_spec) : result unit :=
  let expected := match expectedStatus with
                  | OneStatus n => [n]
                  | ManyStatus l => l
                  end in
  if negb (existsb (Z.eqb (HttpClient.status response)) expected) then
    Throw (ValidationError
             ("Expected status " ++ join " or " (map number_to_string expected)
                ++ ", got " ++ number_to_string (HttpClient.status response))
             (Some "status")
             (JObj [("expected", JArr (map JNum expected));
                    ("actual", JNum (HttpClient.status response))]))
  else Ok tt.

(** The test in the loop of [validateRequired]:
    [value === undefined || value === null]. *)
Definition is_missing (d : value) (field : string) : bool :=
  nullish (getNestedValue d field).

(** The loop of [validateRequired]: [missing] after visiting [fields]. *)
Definition collect_missing (d : value) (fields : list string) : list string :=
  fold_left
    (fun missing field =>
       if is_missing d field then (missing ++ [field])%list else missing)
    fields [].

(** [validateRequired(data, fields)] *)
Definition validateRequired (d : value) (fields : list string) : result unit :=
  let missing := collect_missing d fields in
  if (0 <? List.length missing)%nat then
    Throw (ValidationError
             ("Missing required fields: " ++ join ", " missing)
             (hd_error missing)
             (JObj [("missing", JArr (map JStr missing)); ("data", d)]))
  else Ok tt.

(** [validateType(data, field, expectedType)] *)
Definition validateType (d : value) (field expectedType : string)
  : result unit :=
  let v := getNestedValue d field in
  let actualType := if isArray v then "array" else typeof v in
  if negb (String.eqb actualType expectedType) then
    Throw (ValidationError
             ("Field '" ++ field ++ "' should be of type '" ++ expectedType
                ++ "', got '" ++ actualType ++ "'")
             (Some field)
             (JObj [("expected", JStr expectedType);
                    ("actual", JStr actualType);
                    ("value", v)]))
  else Ok tt.

(** [validateArrayNotEmpty(data, field)] *)
Definition validateArrayNotEmpty (d : value) (field : string) : result unit :=
  let v := getNestedValue d field in
  match v with
  | JArr items =>
      if (List.length items =? 0)%nat then
        Throw (ValidationError
                 ("Array field '" ++ field ++ "' should not be empty")
                 (Some field)
                 (JObj [("value", v)]))
      else Ok tt
  | _ =>
      Throw (ValidationError
               ("Field '" ++ field ++ "' should be an array")
               (Some field)
               (JObj [("value", v)]))
  end.

End Validator.

(** [validateRange(value, min, max, field)] *)
Definition validateRange (v lo hi : Z) (field : option string) : result unit :=
  if (v <? lo) || (hi <? v) then
    Throw (ValidationError
             ("Value " ++ number_to_string v ++ " is out of range ["
                ++ number_to_string lo ++ ", " ++ number_to_string hi ++ "]")
             field
             (JObj [("value", JNum v); ("min", JNum lo); ("max", JNum hi)]))
  else Ok tt.

(** [ValidationRule]: the [validate] function returns a boolean or
    throws. *)
Record ValidationRule : Type := mkRule {
  field : option string;
  validate : value -> result bool;
  message : string
}.

(** One turn of the loop of [validateSchema]: the [try] block and its
    [catch]. *)
Definition check_rule (d : value) (rule : ValidationRule) : result unit :=
  match validate rule d with
  | Ok true => Ok tt
  | Ok false =>
      Throw (ValidationError (message rule) (field rule) (JObj [("data", d)]))
  | Throw (ValidationError m f details) => Throw (ValidationError m f details)
  | Throw error =>
      Throw (ValidationError ("Validation failed: " ++ message rule)
               (field rule)
               (JObj [("error", error_value error); ("data", d)]))
  end.

(** The loop of [validateSchema]. *)
Fixpoint check_rules (d : value) (rules : list ValidationRule) : result unit :=
  match rules with
  | [] => Ok tt
  | rule :: rest => bindR (check_rule d rule) (fun _ => check_rules d rest)
  end.

(** [validateSchema(data, rules)] *)
Definition validateSchema (d : value) (rules : list ValidationRule) : M unit :=
  (lift (check_rules d rules) ;;
   emit (Log DEBUG "Schema validation passed"))%M.

End ResponseValidator.

(** ** BaseAPI.ts *)

Module BaseAPI.

Record t : Type := mkBaseAPI {
  httpClient : HttpClient.t;
  baseUrl : string;
  serviceName : string
}.

(** The constructor; the line it logs is returned with the object. *)
Definition create (cm : ConfigManager.t) (service : string)
           (base : option string) (hdrs : option (list (string * string)))
  : M t :=
  let b := match base with
           | Some b => if String.eqb b "" then ConfigManager.getBaseUrl cm else b
           | None => ConfigManager.getBaseUrl cm
           end in
  (emit (Log INFO (service ++ " API initialized with base URL: " ++ b)) ;;
   ret (mkBaseAPI (HttpClient.create cm (Some b) hdrs None None) b service))%M.

(** [get(endpoint, headers)] *)
Definition get (api : t) (tr : HttpClient.transport) (endpoint : string)
           (hdrs : option (list (string * string)))
  : M HttpClient.HttpResponse :=
  (emit (Log DEBUG ("[" ++ serviceName api ++ "] GET " ++ endpoint)) ;;
   HttpClient.get (httpClient api) tr endpoint hdrs)%M.

(** [if (expectedStatus)]: a number other than 0, or any array. *)
Definition status_spec_truthy (s : ResponseValidator.status_spec) : bool :=
  match s with
  | ResponseValidator.OneStatus n => negb (n =? 0)
  | ResponseValidator.ManyStatus _ => true
  end.

(** [validateResponse(response, expectedStatus)] *)
Definition validateResponse (response : HttpClient.HttpResponse)
           (expectedStatus : option ResponseValidator.status_spec)
  : result unit :=
  match expectedStatus with
  | Some s =>
      if status_spec_truthy s then
        ResponseValidator.validateStatus response s
      else Ok tt
  | None => Ok tt
  end.

(** [validateRequired(data, fields)] *)
Definition validateRequired (d : value) (fields : list string) : result unit :=
  ResponseValidator.validateRequired get_prop d fields.

(** [validateType(data, field, expectedType)] *)
Definition validateType (d : value) (field expectedType : string)
  : result unit :=
  ResponseValidator.validateType get_prop d field expectedType.

End BaseAPI.

(** ** HackerNewsClient.ts *)

Module HackerNewsClient.

Definition t : Type := BaseAPI.t.

(** The constructor. *)
Definition create (cm : ConfigManager.t) (base : option string) : M t :=
  BaseAPI.create cm "HackerNews"
    (Some (match base with
           | Some b =>
               if String.eqb b "" then "https://hacker-news.firebaseio.com/v0"
               else b
           | None => "https://hacker-news.firebaseio.com/v0"
           end))
    None.

(** The object literal [{ data }]. *)
Definition wrap (d : value) : value := JObj [("data", d)].

(** [data.slice(0, limit)] once [data] is known to be an array; on
    anything else the call would not reach this point. *)
Definition slice_data (d : value) (limit : Z) : result (list value) :=
  match d with
  | JArr items => Ok (slice items 0 limit)
  | _ => Throw (OtherError "TypeError" "data.slice is not a function" None)
  end.

(** A default parameter value. *)
Definition default_to (d : Z) (limit : option Z) : Z :=
  match limit with Some n => n | None => d end.

Definition ok200 : option ResponseValidator.status_spec :=
  Some (ResponseValidator.OneStatus 200).

(** [getItem(itemId)]; [JNull] is the [null] result. *)
Definition getItem (c : t) (tr : HttpClient.transport) (itemId : Z)
  : M value :=
  (response <- BaseAPI.get c tr
                 ("/item/" ++ number_to_string itemId ++ ".json") None ;;
   if negb (HttpClient.ok response)
      || value_eqb (HttpClient.data response) JNull
   then ret JNull
   else
     lift (BaseAPI.validateRequired (HttpClient.data response) ["id"] ;;;
           Ok (HttpClient.data response)))%M.

(** [getTopStories(limit = 500)] *)
Definition getTopStories (c : t) (tr : HttpClient.transport)
           (limit : option Z) : M (list value) :=
  (response <- BaseAPI.get c tr "/topstories.json" None ;;
   lift (BaseAPI.validateResponse response ok200 ;;;
         let d := HttpClient.data response in
         BaseAPI.validateType (wrap d) "data" "array" ;;;
         ResponseValidator.validateArrayNotEmpty get_prop (wrap d) "data" ;;;
         slice_data d (default_to 500 limit)))%M.

(** [getNewStories(limit = 10)] *)
Definition getNewStories (c : t) (tr : HttpClient.transport)
           (limit : option Z) : M (list value) :=
  (response <- BaseAPI.get c tr "/newstories.json" None ;;
   lift (BaseAPI.validateResponse response ok200 ;;;
         let d := HttpClient.data response in
         BaseAPI.validateType (wrap d) "data" "array" ;;;
         ResponseValidator.validateArrayNotEmpty get_prop (wrap d) "data" ;;;
         slice_data d (default_to 10 limit)))%M.

(** [getBestStories(limit = 10)] *)
Definition getBestStories (c : t) (tr : HttpClient.transport)
           (limit : option Z) : M (list value) :=
  (response <- BaseAPI.get c tr "/beststories.json" None ;;
   lift (BaseAPI.validateResponse response ok200 ;;;
         let d := HttpClient.data response in
         BaseAPI.validateType (wrap d) "data" "array" ;;;
         ResponseValidator.validateArrayNotEmpty get_prop (wrap d) "data" ;;;
         slice_data d (default_to 10 limit)))%M.

(** [getAskStories(limit = 10)] *)
Definition getAskStories (c : t) (tr : HttpClient.transport)
           (limit : option Z) : M (list value) :=
  (response <- BaseAPI.get c tr "/askstories.json" None ;;
   lift (BaseAPI.validateResponse response ok200 ;;;
         let d := HttpClient.data response in
         BaseAPI.validateType (wrap d) "data" "array" ;;;
         slice_data d (default_to 10 limit)))%M.

(** [getShowStories(limit = 10)] *)
Definition getShowStories (c : t) (tr : HttpClient.transport)
           (limit : option Z) : M (list value) :=
  (response <- BaseAPI.get c tr "/showstories.json" None ;;
   lift (BaseAPI.validateResponse response ok200 ;;;
         let d := HttpClient.data response in
         BaseAPI.validateType (wrap d) "data" "array" ;;;
         slice_data d (default_to 10 limit)))%M.

(** [getJobStories(limit = 10)] *)
Definition getJobStories (c : t) (tr : HttpClient.transport)
           (limit : option Z) : M (list value) :=
  (response <- BaseAPI.get c tr "/jobstories.json" None ;;
   lift (BaseAPI.validateResponse response ok200 ;;;
         let d := HttpClient.data response in
         BaseAPI.validateType (wrap d) "data" "array" ;;;
         slice_data d (default_to 10 limit)))%M.

(** The six story-id list operations, by name. *)
Inductive list_op : Type :=
| TopStories | NewStories | BestStories
| AskStories | ShowStories | JobStories.

Definition run_list_op (o : list_op)
  : t -> HttpClient.transport -> option Z -> M (list value) :=
  match o with
  | TopStories => getTopStories
  | NewStories => getNewStories
  | BestStories => getBestStories
  | AskStories => getAskStories
  | ShowStories => getShowStories
  | JobStories => getJobStories
  end.

Definition endpoint_of (o : list_op) : string :=
  match o with
  | TopStories => "/topstories.json"
  | NewStories => "/newstories.json"
  | BestStories => "/beststories.json"
  | AskStories => "/askstories.json"
  | ShowStories => "/showstories.json"
  | JobStories => "/jobstories.json"
  end.

(** Which of them call [validateArrayNotEmpty]. *)
Definition checks_not_empty (o : list_op) : bool :=
  match o with
  | TopStories | NewStories | BestStories => true
  | AskStories | ShowStories | JobStories => false
  end.

(** The body of [getItem] for an identifier already converted to text:
    [getItem(itemId)] for any [itemId] the caller passes at run time. *)
Definition getItemAt (c : t) (tr : HttpClient.transport) (idText : string)
  : M value :=
  (response <- BaseAPI.get c tr ("/item/" ++ idText ++ ".json") None ;;
   if negb (HttpClient.ok response)
      || value_eqb (HttpClient.data response) JNull
   then ret JNull
   else
     lift (BaseAPI.validateRequired (HttpClient.data response) ["id"] ;;;
           Ok (HttpClient.data response)))%M.

(** [getUser(userId)]; [JNull] is the [null] result. *)
Definition getUser (c : t) (tr : HttpClient.transport) (userId : string)
  : M value :=
  (response <- BaseAPI.get c tr ("/user/" ++ userId ++ ".json") None ;;
   if negb (HttpClient.ok response)
      || value_eqb (HttpClient.data response) JNull
   then ret JNull
   else
     lift (BaseAPI.validateRequired (HttpClient.data response)
                                    ["id"; "created"; "karma"] ;;;
           Ok (HttpClient.data response)))%M.

(** [getMaxItemId()] *)
Definition getMaxItemId (c : t) (tr : HttpClient.transport) : M value :=
  (response <- BaseAPI.get c tr "/maxitem.json" None ;;
   lift (BaseAPI.validateResponse response ok200 ;;;
         let d := HttpClient.data response in
         BaseAPI.validateType (wrap d) "data" "number" ;;;
         Ok d))%M.

(** The [result] object of [getTopStoryWithComment] before a comment is
    found. *)
Definition story_summary (story : value) : list (string * value) :=
  [("title", get_prop story "title");
   ("url", get_prop story "url");
   ("top_comment", JStr "No comments found.")].

(** [getTopStoryWithComment()]; [JNull] is the [null] result. *)
Definition getTopStoryWithComment (c : t) (tr : HttpClient.transport)
  : M value :=
  (ids <- getTopStories c tr (Some 1) ;;
   match ids with
   | [] => ret JNull
   | JUndefined :: _ => ret JNull
   | firstId :: _ =>
       story <- getItemAt c tr (to_string firstId) ;;
       if negb (truthy story) then ret JNull
       else
         let result := story_summary story in
         match get_prop story "kids" with
         | JArr (JUndefined :: _) => ret (JObj result)
         | JArr (firstKid :: _) =>
             firstComment <- getItemAt c tr (to_string firstKid) ;;
             if truthy firstComment
                && truthy (get_prop firstComment "text")
             then ret (JObj (set_prop "top_comment"
                               (get_prop firstComment "text") result))
             else ret (JObj result)
         | _ => ret (JObj result)
         end
   end)%M.

End HackerNewsClient.

(** ** The schema checker: the item schemas and user.schema.ts *)

(** The validation keywords the schemas use, with the meaning JSON Schema
    (and the Ajv library that compiles the schemas) gives them. *)
Module Ajv.

Inductive schema : Type := mkSchema {
  type : option string;
  enum : option (list value);
  const : option value;
  properties : list (string * schema);
  required : list string;
  additionalProperties : bool;
  items : option schema
}.

(** The [type] keyword. *)
Definition has_type (t : string) (v : value) : bool :=
  match v with
  | JUndefined => false
  | JNull => String.eqb t "null"
  | JBool _ => String.eqb t "boolean"
  | JNum _ => String.eqb t "number" || String.eqb t "integer"
  | JStr _ => String.eqb t "string"
  | JArr _ => String.eqb t "array"
  | JObj _ => String.eqb t "object"
  end.

(** [data\[k\] !== undefined] *)
Definition defined (fields : list (string * value)) (k : string) : bool :=
  match lookup k fields with
  | Some JUndefined => false
  | Some _ => true
  | None => false
  end.

(** The function [ajv.compile(s)] returns. *)
Fixpoint validate (s : schema) (v : value) {struct s} : bool :=
  match type s with Some t => has_type t v | None => true end
  && match enum s with Some allowed => existsb (value_eqb v) allowed | None => true end
  && match const s with Some c => value_eqb v c | None => true end
  && match v with
     | JObj fields =>
         forallb (defined fields) (required s)
         && (additionalProperties s
             || forallb (fun k => existsb (String.eqb k) (keys (properties s)))
                        (keys fields))
         && (fix each (ps : list (string * schema)) : bool :=
               match ps with
               | [] => true
               | (k, sub) :: rest =>
                   match lookup k fields with
                   | Some JUndefined => true
                   | Some x => validate sub x
                   | None => true
                   end && each rest
               end) (properties s)
     | JArr elements =>
         match items s with
         | Some sub => forallb (validate sub) elements
         | None => true
         end
     | _ => true
     end.

(** The [properties] keyword on one declared property and on all of
    them: a property that is absent (or [undefined]) is not checked. *)
Definition validate_property (fields : list (string * value))
           (entry : string * schema) : bool :=
  match lookup (fst entry) fields with
  | Some JUndefined => true
  | Some x => validate (snd entry) x
  | None => true
  end.

Definition validate_properties (fields : list (string * value))
           (ps : list (string * schema)) : bool :=
  forallb (validate_property fields) ps.

(** [additionalProperties: false] *)
Definition no_additional (fields : list (string * value))
           (ps : list (string * schema)) : bool :=
  forallb (fun k => existsb (String.eqb k) (keys ps)) (keys fields).

(** [{ type: t }] *)
Definition of_type (t : string) : schema :=
  mkSchema (Some t) None None [] [] true None.

(** [{ type: 'array', items: { type: t } }] *)
Definition array_of (t : string) : schema :=
  mkSchema (Some "array") None None [] [] true (Some (of_type t)).

(** [{ type: 'string', const: c }] *)
Definition string_const (c : string) : schema :=
  mkSchema (Some "string") None (Some (JStr c)) [] [] true None.

End Ajv.

Module Schemas.

Import Ajv.

Definition itemProperties : list (string * schema) :=
  [ ("id", of_type "number");
    ("type", mkSchema (Some "string")
                      (Some [JStr "job"; JStr "story"; JStr "comment";
                             JStr "poll"; JStr "pollopt"])
                      None [] [] true None);
    ("by", of_type "string");
    ("time", of_type "number");
    ("text", of_type "string");
    ("dead", of_type "boolean");
    ("parent", of_type "number");
    ("poll", of_type "number");
    ("kids", array_of "number");
    ("url", of_type "string");
    ("score", of_type "number");
    ("title", of_type "string");
    ("parts", array_of "number");
    ("descendants", of_type "number");
    ("deleted", of_type "boolean") ].

Definition itemSchema : schema :=
  mkSchema (Some "object") None None itemProperties ["id"] false None.

Definition storySchema : schema :=
  mkSchema (Some "object") None None
    (spread itemProperties
            [ ("type", string_const "story");
              ("title", of_type "string");
              ("by", of_type "string");
              ("time", of_type "number") ])
    ["id"; "type"; "title"; "by"; "time"] false None.

Definition commentSchema : schema :=
  mkSchema (Some "object") None None
    (spread itemProperties
            [ ("type", string_const "comment");
              ("by", of_type "string");
              ("parent", of_type "number");
              ("text", of_type "string");
              ("time", of_type "number") ])
    ["id"; "type"; "by"; "parent"; "text"; "time"] false None.

Definition jobSchema : schema :=
  mkSchema (Some "object") None None
    (spread itemProperties
            [ ("type", string_const "job");
              ("title", of_type "string");
              ("by", of_type "string");
              ("time", of_type "number") ])
    ["id"; "type"; "title"; "by"; "time"] false None.

Definition userSchema : schema :=
  mkSchema (Some "object") None None
    [ ("id", of_type "string");
      ("created", of_type "number");
      ("karma", of_type "number");
      ("about", of_type "string");
      ("submitted", array_of "number") ]
    ["id"; "created"; "karma"] false None.

Definition validateItem : value -> bool := validate itemSchema.
Definition validateStory : value -> bool := validate storySchema.
Definition validateComment : value -> bool := validate commentSchema.
Definition validateJob : value -> bool := validate jobSchema.
Definition validateUser : value -> bool := validate userSchema.

(** The checkers keyed by a discriminator constant. *)
Definition discriminated : list (string * schema) :=
  [ ("story", storySchema); ("comment", commentSchema); ("job", jobSchema) ].

End Schemas.

(** ** SchemaValidator.ts *)

Module SchemaValidator.

(** A validator function: its verdict on a value (or the exception it
    throws), and the [errors] property it carries afterwards. *)
Record validator : Type := mkValidator {
  accepts : value -> result bool;
  errors : value -> value
}.

(** A compiled schema used as validator. *)
Definition of_schema (s : Ajv.schema) (report : value -> value) : validator :=
  mkValidator (fun d => Ok (Ajv.validate s d)) report.

(** [SchemaValidator.validate(data, validator, schemaName)] *)
Definition validate (d : value) (v : validator) (schemaName : string)
  : M value :=
  match accepts v d with
  | Throw e => throw e
  | Ok true => ret d
  | Ok false =>
      (emit (Log ERROR ("Schema validation failed for " ++ schemaName)) ;;
       throw (ValidationError ("Schema validation failed for " ++ schemaName)
                None
                (JObj [("errors", errors v d); ("data", d)])))%M
  end.

(** [SchemaValidator.validateOrNull(data, validator, schemaName)] *)
Definition validateOrNull (d : value) (v : validator) (schemaName : string)
  : M value :=
  if value_eqb d JNull then ret JNull
  else
    try_catch (validate d v schemaName)
      (fun _ =>
         (emit (Log WARN "Schema validation failed, returning null") ;;
          ret JNull)%M).

End SchemaValidator.

(** ** UserFactory.ts *)

Module UserFactory.

(** [overrides.k ?? d] *)
Definition or_else (overrides : list (string * value)) (k : string)
           (d : value) : value :=
  match lookup k overrides with
  | Some v => if nullish v then d else v
  | None => d
  end.

(** [createUser(overrides)], given the clock reading [Date.now()] and
    the two draws [Math.floor(Math.random() * 1000)] and
    [Math.floor(Math.random() * 10000)]. *)
Definition createUser (now rndId rndKarma : Z)
           (overrides : list (string * value)) : value :=
  let timestamp := now / 1000 in
  let userId :=
    or_else overrides "id" (JStr ("testuser" ++ number_to_string rndId)) in
  JObj (spread
          [("id", userId);
           ("created",
            or_else overrides "created" (JNum (timestamp - 86400 * 365)));
           ("karma", or_else overrides "karma" (JNum rndKarma));
           ("about",
            or_else overrides "about" (JStr "This is a test user bio"));
           ("submitted",
            or_else overrides "submitted"
                    (JArr [JNum 1; JNum 2; JNum 3; JNum 4; JNum 5]))]
          overrides).

(** [createHighKarmaUser(karma = 50000)] *)
Definition createHighKarmaUser (now rndId rndKarma : Z) (karma : option Z)
  : value :=
  createUser now rndId rndKarma
    [("karma", JNum (match karma with Some k => k | None => 50000 end));
     ("about", JStr "High karma user for testing")].

(** [createNewUser()]; [clock] is its own reading of [Date.now()]. *)
Definition createNewUser (clock now rndId rndKarma : Z) : value :=
  createUser now rndId rndKarma
    [("created", JNum (clock / 1000 - 86400));
     ("karma", JNum 10);
     ("submitted", JArr [JNum 1])].

(** [Array.from({ length: n }, (_, i) => i + 1)] *)
Definition one_to (n : Z) : list value :=
  map (fun i => JNum (Z.of_nat i + 1)) (seq 0 (Z.to_nat n)).

(** [createActiveUser(submissionCount = 100)] *)
Definition createActiveUser (now rndId rndKarma : Z)
           (submissionCount : option Z) : value :=
  let n := match submissionCount with Some n => n | None => 100 end in
  createUser now rndId rndKarma
    [("submitted", JArr (one_to n));
     ("karma", JNum (n * 50))].

End UserFactory.

(** ** Concrete networks and objects used as test inputs *)

Module Fixtures.

Import HttpClient.

(** The manager a process with no relevant environment variables gets. *)
Definition cm0 : ConfigManager.t :=
  ConfigManager.mkConfigManager
    (ConfigManager.mkTestConfig ConfigManager.dev
       (ConfigManager.mkLogging "INFO" true)
       (ConfigManager.mkReporting "./reports" ["html"; "json"]))
    ConfigManager.loadEnvironments.

(** The client [new HackerNewsClient()] builds under [cm0]. *)
Definition hn0 : HackerNewsClient.t :=
  BaseAPI.mkBaseAPI
    (mkHttpClient "https://hacker-news.firebaseio.com/v0"
                  [("Content-Type", "application/json")] 30000 2)
    "https://hacker-news.firebaseio.com/v0" "HackerNews".

Definition json_headers : list (string * string) :=
  [("content-type", "application/json; charset=utf-8")].

(** A JSON response. *)
Definition json_response (st : Z) (text : string) (v : value) : Response :=
  mkRaw st text json_headers (Some v) "".

(** A server that answers every request with the same JSON response. *)
Definition always (st : Z) (text : string) (v : value) : transport :=
  fun _ _ => Resolves (json_response st text v).

(** A network that drops the first attempt, answers the second with
    503, and the third with 200 and [v]. *)
Definition flaky (v : value) : transport :=
  fun _ attempt =>
    if attempt =? 0 then Rejects "TypeError" "fetch failed"
    else if attempt =? 1 then
      Resolves (json_response 503 "Service Unavailable" JNull)
    else Resolves (json_response 200 "OK" v).

(** A record with a nested object, one of whose fields is [null]. *)
Definition nested : value :=
  JObj [("id", JNum 1);
        ("user", JObj [("name", JStr "pg"); ("karma", JNull)])].

(** A server that answers every request with the given status, a JSON
    content type and a body that is not JSON. *)
Definition garbled (st : Z) (text : string) : transport :=
  fun _ _ => Resolves (mkRaw st text json_headers None "<html>").

(** A network on which every attempt times out. *)
Definition dead : transport :=
  fun _ _ => Rejects "AbortError" "This operation was aborted".

End Fixtures.

(** * Properties *)

Import HttpClient.

(** ** Calls that return or throw *)

Section Effects.

Context {A B : Type}.

Lemma bind_returns (m : M A) (f : A -> M B) (a : A) (t : list event) :
  m = (Ok a, t) ->
  bind m f = (returned (f a), (t ++ trace (f a))%list).
Proof.
  intros ->. unfold bind, returned, trace. now destruct (f a).
Qed.

Lemma bind_throws (m : M A) (f : A -> M B) (e : js_error) (t : list event) :
  m = (Throw e, t) -> bind m f = (Throw e, t).
Proof. now intros ->. Qed.

Lemma returned_bind (m : M A) (f : A -> M B) (a : A) :
  returned m = Ok a -> returned (bind m f) = returned (f a).
Proof.
  destruct m as [r t]; cbn; intros ->.
  unfold returned. now destruct (f a).
Qed.

Lemma returned_bind_throw (m : M A) (f : A -> M B) (e : js_error) :
  returned m = Throw e -> returned (bind m f) = Throw e.
Proof. destruct m as [r t]; cbn; now intros ->. Qed.

Lemma trace_bind (m : M A) (f : A -> M B) (a : A) :
  returned m = Ok a -> trace (bind m f) = (trace m ++ trace (f a))%list.
Proof.
  destruct m as [r t]; cbn; intros ->.
  unfold trace. now destruct (f a).
Qed.

End Effects.

Lemma fetch_count_app (t u : list event) :
  fetch_count (t ++ u) = (fetch_count t + fetch_count u)%nat.
Proof.
  unfold fetch_count. now rewrite filter_app, length_app.
Qed.

(** ** The retry loop *)

Section RetryLoop.

Variable tr : transport.
Variable call : FetchCall.
Variable R : Z.

Lemma backoff_returns (a : Z) :
  exists t, backoff call a = (Ok tt, t) /\ fetch_count t = 0%nat.
Proof.
  unfold backoff. destruct (0 <? a); eexists; split; reflexivity.
Qed.

Lemma log_failure_returns (e : js_error) (a : Z) :
  exists t, log_failure e call a R = (Ok tt, t) /\ fetch_count t = 0%nat.
Proof.
  unfold log_failure.
  destruct (String.eqb (error_name e) "AbortError");
    [| destruct (a =? R)]; eexists; split; reflexivity.
Qed.

(** One attempt calls [fetch] exactly once, and what it throws is either
    the [APIError] of a non-2xx response or an exception without a
    [response] property. *)
Lemma attempt_once_shape (a : Z) :
  exists r t,
    attempt_once tr call a = (r, t) /\ fetch_count t = 1%nat /\
    (forall e, r = Throw e ->
       (exists s m b, e = APIError s m (fetchUrl call) b /\ (s < 200 \/ 299 < s)) \/
       (exists n m, e = OtherError n m None)).
Proof.
  assert (Hdecode : forall raw,
            exists r u, decode_body raw = (r, u) /\ u = [] /\
                        forall e, r = Throw e -> exists n m, e = OtherError n m None).
  { intros raw. unfold decode_body.
    destruct (lookup "content-type" (rawHeaders raw)) as [ct |];
      [destruct (includes ct "application/json");
       [destruct (rawJson raw) |] |];
      do 2 eexists; (split; [reflexivity |]); (split; [reflexivity |]);
      intros e He; try discriminate He.
    injection He as <-. eauto. }
  unfold attempt_once.
  destruct (tr call a) as [raw | n m]; cbn.
  - destruct (Hdecode raw) as ([d | e'] & u & -> & -> & Hthrown); cbn.
    + destruct (rawOk raw) eqn:Hok; cbn;
        do 2 eexists; (split; [reflexivity |]); (split; [reflexivity |]);
        intros e He; [discriminate He |].
      injection He as <-. left. do 3 eexists.
      split; [reflexivity |]. unfold rawOk in Hok. lia.
    + do 2 eexists. split; [reflexivity |]. split; [reflexivity |].
      intros e He. injection He as <-. right. now apply Hthrown.
  - do 2 eexists. split; [reflexivity |]. split; [reflexivity |].
    intros e He. injection He as <-. right. eauto.
Qed.

Lemma attempt_once_returns (a : Z) (r : HttpResponse) :
  returned (attempt_once tr call a) = Ok r ->
  exists raw d,
    tr call a = Resolves raw /\ returned (decode_body raw) = Ok d /\
    rawOk raw = true /\
    r = mkResponse (rawStatus raw) (rawStatusText raw) (rawHeaders raw) d true.
Proof.
  unfold attempt_once.
  destruct (tr call a) as [raw | n m]; cbn; [| discriminate].
  destruct (decode_body raw) as [[d | e] t] eqn:Hd; cbn; [| discriminate].
  destruct (rawOk raw) eqn:Hok; cbn; [| discriminate].
  intros H. injection H as <-. exists raw, d. now rewrite Hd.
Qed.

Lemma attempts_S (n : nat) (a : Z) (last : option js_error) :
  attempts tr call R (S n) a last =
  bind (backoff call a)
    (fun _ =>
       try_catch (attempt_once tr call a)
         (fun error =>
            bind (log_failure error call a R)
              (fun _ =>
                 if a =? R then
                   ErrorHandler.handleAPIError error (fetchUrl call)
                 else attempts tr call R n (a + 1) (Some error)))).
Proof. reflexivity. Qed.

(** A successful attempt ends the loop with its envelope. *)
Lemma attempts_success (n : nat) (a : Z) (last : option js_error)
      (r : HttpResponse) :
  returned (attempt_once tr call a) = Ok r ->
  returned (attempts tr call R (S n) a last) = Ok r /\
  fetch_count (trace (attempts tr call R (S n) a last)) = 1%nat.
Proof.
  intros Hr. rewrite attempts_S.
  destruct (backoff_returns a) as (tb & Hb & Hcb).
  rewrite (bind_returns _ _ _ _ Hb).
  destruct (attempt_once_shape a) as (r' & t & Ha & Hct & _).
  rewrite Ha in Hr |- *. cbn in Hr. subst r'.
  unfold try_catch. cbn [returned trace fst snd].
  split; [reflexivity |]. rewrite fetch_count_app. lia.
Qed.

(** A failed attempt that is not the last one is followed by the next. *)
Lemma attempts_retry (n : nat) (a : Z) (last : option js_error)
      (e : js_error) :
  returned (attempt_once tr call a) = Throw e ->
  a <> R ->
  returned (attempts tr call R (S n) a last)
  = returned (attempts tr call R n (a + 1) (Some e)) /\
  fetch_count (trace (attempts tr call R (S n) a last))
  = S (fetch_count (trace (attempts tr call R n (a + 1) (Some e)))).
Proof.
  intros He Hne. rewrite attempts_S.
  destruct (backoff_returns a) as (tb & Hb & Hcb).
  rewrite (bind_returns _ _ _ _ Hb).
  destruct (attempt_once_shape a) as (r' & t & Ha & Hct & _).
  rewrite Ha in He |- *. cbn in He. subst r'.
  destruct (log_failure_returns e a) as (tl & Hl & Hcl).
  unfold try_catch. rewrite (bind_returns _ _ _ _ Hl).
  apply Z.eqb_neq in Hne. rewrite Hne.
  cbn [returned trace fst snd]. split; [reflexivity |].
  rewrite !fetch_count_app. unfold trace. lia.
Qed.

(** A failed last attempt surfaces as an [APIError]. *)
Lemma attempts_give_up (n : nat) (last : option js_error) (e : js_error) :
  returned (attempt_once tr call R) = Throw e ->
  exists msg body,
    returned (attempts tr call R (S n) R last)
    = Throw (APIError (surfaced_status e) msg (fetchUrl call) body) /\
    fetch_count (trace (attempts tr call R (S n) R last)) = 1%nat.
Proof.
  intros He. rewrite attempts_S.
  destruct (backoff_returns R) as (tb & Hb & Hcb).
  rewrite (bind_returns _ _ _ _ Hb).
  destruct (attempt_once_shape R) as (r' & t & Ha & Hct & Hsh).
  rewrite Ha in He |- *. cbn in He. subst r'.
  destruct (log_failure_returns e R) as (tl & Hl & Hcl).
  unfold try_catch. rewrite (bind_returns _ _ _ _ Hl).
  rewrite Z.eqb_refl.
  destruct (Hsh e eq_refl) as [(s & m & b & -> & _) | (nm & m & ->)].
  - exists m, b. cbn [returned trace fst snd]. split; [reflexivity |].
    rewrite !fetch_count_app. cbn. lia.
  - eexists _, None. cbn [returned trace fst snd]. split; [reflexivity |].
    rewrite !fetch_count_app. cbn. lia.
Qed.

(** Each iteration calls [fetch] once, so the loop calls it at most as
    often as it iterates. *)
Lemma attempts_fetch_bound (n : nat) :
  forall (a : Z) (last : option js_error),
    (fetch_count (trace (attempts tr call R n a last)) <= n)%nat.
Proof.
  induction n as [| n IH]; intros a last; [cbn; lia |].
  destruct (returned (attempt_once tr call a)) as [r | e] eqn:Hr.
  - destruct (attempts_success n a last r Hr) as [_ ->]. lia.
  - destruct (Z.eq_dec a R) as [-> | Hne].
    + destruct (attempts_give_up n last e Hr) as (? & ? & _ & ->). lia.
    + destruct (attempts_retry n a last e Hr Hne) as [_ ->].
      specialize (IH (a + 1) (Some e)). lia.
Qed.

(** Failures up to attempt [k], then a success at [k]. *)
Lemma attempts_eventually (n : nat) :
  forall (a : Z) (last : option js_error) (k : Z) (r : HttpResponse),
    Z.of_nat n = R + 1 - a ->
    a <= k <= R ->
    (forall i, a <= i < k ->
       exists e, returned (attempt_once tr call i) = Throw e) ->
    returned (attempt_once tr call k) = Ok r ->
    returned (attempts tr call R n a last) = Ok r /\
    fetch_count (trace (attempts tr call R n a last)) = Z.to_nat (k - a + 1).
Proof.
  induction n as [| n IH]; intros a last k r Hn Hk Hfail Hok; [lia |].
  destruct (Z.eq_dec a k) as [-> | Hne].
  - destruct (attempts_success n k last r Hok) as [-> ->].
    split; [reflexivity | lia].
  - destruct (Hfail a ltac:(lia)) as [e He].
    destruct (attempts_retry n a last e He ltac:(lia)) as [-> ->].
    destruct (IH (a + 1) (Some e) k r) as [-> ->];
      [lia | lia | intros i Hi; apply Hfail; lia | exact Hok |].
    split; [reflexivity | lia].
Qed.

(** Failures on every attempt. *)
Lemma attempts_exhausted (n : nat) :
  forall (a : Z) (last : option js_error),
    Z.of_nat n = R + 1 - a ->
    a <= R ->
    (forall i, a <= i <= R ->
       exists e, returned (attempt_once tr call i) = Throw e) ->
    exists e msg body,
      returned (attempt_once tr call R) = Throw e /\
      returned (attempts tr call R n a last)
      = Throw (APIError (surfaced_status e) msg (fetchUrl call) body) /\
      fetch_count (trace (attempts tr call R n a last)) = n.
Proof.
  induction n as [| n IH]; intros a last Hn Ha Hfail; [lia |].
  destruct (Hfail a ltac:(lia)) as [e He].
  destruct (Z.eq_dec a R) as [-> | Hne].
  - destruct (attempts_give_up n last e He) as (msg & body & Hr & Hc).
    exists e, msg, body. repeat split; try assumption. lia.
  - destruct (attempts_retry n a last e He Hne) as [-> ->].
    destruct (IH (a + 1) (Some e)) as (e' & msg & body & H1 & H2 & H3);
      [lia | lia | intros i Hi; apply Hfail; lia |].
    exists e', msg, body. repeat split; try assumption. lia.
Qed.

End RetryLoop.

Lemma request_unfold (c : t) (tr : transport) (config : HttpRequestConfig) :
  returned (request c tr config)
  = returned (attempts tr (fetch_call c config) (maxRetries c config)
                       (Z.to_nat (maxRetries c config + 1)) 0 None) /\
  fetch_count (trace (request c tr config))
  = fetch_count (trace (attempts tr (fetch_call c config)
                                 (maxRetries c config)
                                 (Z.to_nat (maxRetries c config + 1)) 0 None)).
Proof.
  unfold request, bind, emit.
  destruct (attempts _ _ _ _ _ _) as [r t]. split; reflexivity.
Qed.

(** At the last attempt the caught error goes to [handleAPIError]. *)
Lemma attempts_last_throw (tr : transport) (call : FetchCall) (R : Z)
      (n : nat) (last : option js_error) (e : js_error) :
  returned (attempt_once tr call R) = Throw e ->
  returned (attempts tr call R (S n) R last)
  = returned (@ErrorHandler.handleAPIError HttpResponse e (fetchUrl call)).
Proof.
  intros He. rewrite attempts_S.
  destruct (backoff_returns call R) as (tb & Hb & _).
  rewrite (bind_returns _ _ _ _ Hb).
  destruct (attempt_once tr call R) as [r' t] eqn:Ha. cbn in He. subst r'.
  destruct (log_failure_returns call R e R) as (tl & Hl & _).
  unfold try_catch. rewrite (bind_returns _ _ _ _ Hl), Z.eqb_refl.
  cbn [returned trace fst snd].
  now destruct (ErrorHandler.handleAPIError e (fetchUrl call)).
Qed.

Lemma attempts_exhausted_exact (tr : transport) (call : FetchCall) (R : Z)
      (n : nat) :
  forall (a : Z) (last : option js_error),
    Z.of_nat n = R + 1 - a ->
    a <= R ->
    (forall i, a <= i <= R ->
       exists e, returned (attempt_once tr call i) = Throw e) ->
    exists e,
      returned (attempt_once tr call R) = Throw e /\
      returned (attempts tr call R n a last)
      = returned (@ErrorHandler.handleAPIError HttpResponse e (fetchUrl call)).
Proof.
  induction n as [| n IH]; intros a last Hn Ha Hfail; [lia |].
  destruct (Hfail a ltac:(lia)) as [e He].
  destruct (Z.eq_dec a R) as [-> | Hne].
  - exists e. split; [exact He |]. now apply attempts_last_throw.
  - destruct (attempts_retry tr call R n a last e He Hne) as [-> _].
    apply IH; [lia | lia | intros i Hi; apply Hfail; lia].
Qed.

(** C2, as amended.  The retry budget of a request is its own [retries]
    when given and the client's default otherwise.  With a budget
    [>= 0], [request] calls [fetch] at most [budget + 1] times; when the
    attempts before some attempt [k <= budget] fail and attempt [k]
    succeeds (necessarily with a 2xx status), the call returns that
    attempt's envelope, after exactly [k + 1] fetches; when all
    [budget + 1] attempts fail, the call throws an [APIError] for the
    request URL after [budget + 1] fetches, which carries the status and
    the decoded body of the last response when that response was decoded
    (it is then non-2xx), and the synthetic status 500 without a body when
    the last attempt gave no decoded response: the fetch was rejected or
    timed out, or the body could not be decoded, whatever the status of
    that response. *)
Theorem request_retry_budget (c : t) (tr : transport)
        (config : HttpRequestConfig) :
  let budget := match retries config with
                | Some n => n
                | None => defaultRetries c
                end in
  let call := fetch_call c config in
  0 <= budget ->
  (fetch_count (trace (request c tr config)) <= Z.to_nat (budget + 1))%nat
  /\
  (forall k r,
      0 <= k <= budget ->
      (forall i, 0 <= i < k ->
         exists e, returned (attempt_once tr call i) = Throw e) ->
      returned (attempt_once tr call k) = Ok r ->
      returned (request c tr config) = Ok r /\
      ok r = true /\ 200 <= status r <= 299 /\
      fetch_count (trace (request c tr config)) = Z.to_nat (k + 1))
  /\
  ((forall i, 0 <= i <= budget ->
      exists e, returned (attempt_once tr call i) = Throw e) ->
   fetch_count (trace (request c tr config)) = Z.to_nat (budget + 1) /\
   match tr call budget with
   | Rejects name message =>
       returned (request c tr config)
       = Throw (APIError 500
                  (ErrorHandler.or_default message "Unknown API error")
                  (fetchUrl call) None)
   | Resolves raw =>
       match returned (decode_body raw) with
       | Ok d =>
           returned (request c tr config)
           = Throw (APIError (rawStatus raw)
                      ("HTTP " ++ number_to_string (rawStatus raw) ++ ": "
                         ++ rawStatusText raw)
                      (fetchUrl call) (Some d)) /\
           (rawStatus raw < 200 \/ 299 < rawStatus raw)
       | Throw _ =>
           exists msg,
             returned (request c tr config)
             = Throw (APIError 500 msg (fetchUrl call) None)
       end
   end).
Proof.
  intros budget call Hnn.
  change budget with (maxRetries c config) in *.
  destruct (request_unfold c tr config) as [Hret Hcnt].
  fold call in Hret, Hcnt. rewrite Hret, Hcnt.
  split; [apply attempts_fetch_bound |]. split.
  - intros k r Hk Hfail Hok.
    destruct (attempts_eventually tr call (maxRetries c config)
                (Z.to_nat (maxRetries c config + 1)) 0 None k r)
      as [-> ->]; try assumption; try lia.
    destruct (attempt_once_returns tr call k r Hok)
      as (raw & d & _ & _ & Hraw & ->).
    cbn. unfold rawOk in Hraw.
    repeat split; lia.
  - intros Hfail.
    destruct (attempts_exhausted tr call (maxRetries c config)
                (Z.to_nat (maxRetries c config + 1)) 0 None)
      as (_ & _ & _ & _ & _ & Hc); try assumption; try lia.
    split; [rewrite Hc; reflexivity |].
    destruct (attempts_exhausted_exact tr call (maxRetries c config)
                (Z.to_nat (maxRetries c config + 1)) 0 None)
      as (e & He & ->); try assumption; try lia.
    revert He. unfold attempt_once.
    destruct (tr call (maxRetries c config)) as [raw | name message];
      cbn [bind emit returned fst].
    + destruct (decode_body raw) as [[d | e'] u] eqn:Hd;
        cbn [bind returned fst].
      * destruct (rawOk raw) eqn:Hok; cbn [negb]; [discriminate |].
        intros H. injection H as <-. split; [reflexivity |].
        unfold rawOk in Hok. lia.
      * intros H. injection H as <-. revert Hd. unfold decode_body.
        destruct (lookup _ _) as [ct |]; [| discriminate].
        destruct (includes _ _); [| discriminate].
        destruct (rawJson raw); [discriminate |].
        intros H. injection H as <- _. eexists. reflexivity.
    + intros H. injection H as <-. reflexivity.
Qed.

Lemma request_retry_budget_witness :
  0 <= 1 /\
  returned (request (BaseAPI.httpClient Fixtures.hn0)
                    (Fixtures.flaky (JNum 41000000))
                    (mkRequest "GET" "/maxitem.json" None None None (Some 1)))
  = Throw (APIError 503 "HTTP 503: Service Unavailable"
             "https://hacker-news.firebaseio.com/v0/maxitem.json"
             (Some JNull))
  /\
  fetch_count
    (trace (request (BaseAPI.httpClient Fixtures.hn0)
                    (Fixtures.flaky (JNum 41000000))
                    (mkRequest "GET" "/maxitem.json" None None None (Some 1))))
  = 2%nat
  /\
  returned (request (BaseAPI.httpClient Fixtures.hn0)
                    (Fixtures.flaky (JNum 41000000))
                    (mkRequest "GET" "/maxitem.json" None None None None))
  = Ok (mkResponse 200 "OK" Fixtures.json_headers (JNum 41000000) true).
Proof.
  split; [lia |].
  destruct (request_retry_budget (BaseAPI.httpClient Fixtures.hn0)
              (Fixtures.flaky (JNum 41000000))
              (mkRequest "GET" "/maxitem.json" None None None (Some 1)))
    as (_ & _ & Hfail); [cbn; lia |].
  destruct Hfail as (Hcount & Hthrow & _).
  { intros i Hi. cbn in Hi.
    assert (Hcases : i = 0 \/ i = 1) by lia.
    destruct Hcases as [-> | ->]; eexists; vm_compute; reflexivity. }
  split; [exact Hthrow |]. split; [exact Hcount |].
  destruct (request_retry_budget (BaseAPI.httpClient Fixtures.hn0)
              (Fixtures.flaky (JNum 41000000))
              (mkRequest "GET" "/maxitem.json" None None None None))
    as (_ & Hsucc & _); [cbn; lia |].
  apply (Hsucc 2); [cbn; lia | | vm_compute; reflexivity].
  intros i Hi.
  assert (Hcases : i = 0 \/ i = 1) by lia.
  destruct Hcases as [-> | ->]; eexists; vm_compute; reflexivity.
Defined.

(** C2 as stated fails: the service answers each of the three attempts
    with status 404, a JSON content type and a body that is not JSON.
    Every attempt fails and the last observed status is 404, yet the
    [APIError] thrown carries 500, because the body is decoded before the
    status is looked at. *)
Lemma request_retry_budget_counterexample :
  maxRetries (BaseAPI.httpClient Fixtures.hn0)
             (mkRequest "GET" "/item/1.json" None None None None) = 2
  /\
  (forall call i,
      exists raw, Fixtures.garbled 404 "Not Found" call i = Resolves raw /\
                  rawStatus raw = 404)
  /\
  returned (request (BaseAPI.httpClient Fixtures.hn0)
                    (Fixtures.garbled 404 "Not Found")
                    (mkRequest "GET" "/item/1.json" None None None None))
  = Throw (APIError 500 "Unexpected token in JSON"
             "https://hacker-news.firebaseio.com/v0/item/1.json" None)
  /\
  fetch_count
    (trace (request (BaseAPI.httpClient Fixtures.hn0)
                    (Fixtures.garbled 404 "Not Found")
                    (mkRequest "GET" "/item/1.json" None None None None)))
  = 3%nat.
Proof.
  split; [reflexivity |]. split.
  - intros call i. eexists. split; reflexivity.
  - split; vm_compute; reflexivity.
Qed.

(** Every envelope the loop hands back has [ok = true]: a non-2xx
    response never reaches the caller as a value. *)
Lemma attempts_return_ok (tr : transport) (call : FetchCall) (R : Z)
      (n : nat) :
  forall (a : Z) (last : option js_error) (r : HttpResponse),
    returned (attempts tr call R n a last) = Ok r -> ok r = true.
Proof.
  induction n as [| n IH]; intros a last r; [discriminate |].
  destruct (returned (attempt_once tr call a)) as [r' | e] eqn:Hr.
  - destruct (attempts_success tr call R n a last r' Hr) as [-> _].
    intros H. injection H as <-.
    now destruct (attempt_once_returns tr call a r' Hr)
      as (raw & d & _ & _ & _ & ->).
  - destruct (Z.eq_dec a R) as [-> | Hne].
    + destruct (attempts_give_up tr call R n last e Hr) as (? & ? & -> & _).
      discriminate.
    + destruct (attempts_retry tr call R n a last e Hr Hne) as [-> _].
      apply IH.
Qed.

Lemma request_returns_ok (c : t) (tr : transport) (config : HttpRequestConfig)
      (r : HttpResponse) :
  returned (request c tr config) = Ok r -> ok r = true.
Proof.
  destruct (request_unfold c tr config) as [-> _].
  apply attempts_return_ok.
Qed.

(** ** The domain client *)

Lemma BaseAPI_get_returned (api : BaseAPI.t) (tr : transport)
      (endpoint : string) :
  returned (BaseAPI.get api tr endpoint None)
  = returned (request (BaseAPI.httpClient api) tr
                      (mkRequest "GET" endpoint None None None None)).
Proof.
  unfold BaseAPI.get, HttpClient.get, bind, emit.
  now destruct (request _ _ _).
Qed.

(** When the transport hands [getItem] an envelope, the item is the
    decoded body, [null] included; the [!response.ok] alternative never
    fires. *)
Lemma getItem_on_envelope (c : HackerNewsClient.t) (tr : transport)
      (itemId : Z) (response : HttpResponse) :
  returned (BaseAPI.get c tr ("/item/" ++ number_to_string itemId ++ ".json")
                        None) = Ok response ->
  ok response = true /\
  returned (HackerNewsClient.getItem c tr itemId)
  = if value_eqb (data response) JNull then Ok JNull
    else bindR (BaseAPI.validateRequired (data response) ["id"])
               (fun _ => Ok (data response)).
Proof.
  intros Hget.
  assert (Hok : ok response = true).
  { rewrite BaseAPI_get_returned in Hget.
    exact (request_returns_ok _ _ _ _ Hget). }
  split; [exact Hok |].
  unfold HackerNewsClient.getItem.
  rewrite (returned_bind _ _ _ Hget), Hok. cbn [negb orb].
  now destruct (value_eqb (data response) JNull).
Qed.

(** What the transport throws, [getItem] throws. *)
Lemma getItem_propagates (c : HackerNewsClient.t) (tr : transport)
      (itemId : Z) (e : js_error) :
  returned (BaseAPI.get c tr ("/item/" ++ number_to_string itemId ++ ".json")
                        None) = Throw e ->
  returned (HackerNewsClient.getItem c tr itemId) = Throw e.
Proof.
  intros Hget. unfold HackerNewsClient.getItem.
  now rewrite (returned_bind_throw _ _ _ Hget).
Qed.

(** A server that keeps answering with a non-2xx status makes [getItem]
    throw the [APIError] of the last answer, whatever the identifier. *)
Lemma getItem_non_ok_throws (c : HackerNewsClient.t) (tr : transport)
      (itemId : Z) :
  let config := mkRequest "GET" ("/item/" ++ number_to_string itemId ++ ".json")
                          None None None None in
  let call := fetch_call (BaseAPI.httpClient c) config in
  let retries := maxRetries (BaseAPI.httpClient c) config in
  0 <= retries ->
  (forall i, 0 <= i <= retries ->
     exists raw, tr call i = Resolves raw /\ rawOk raw = false) ->
  exists s msg body,
    returned (HackerNewsClient.getItem c tr itemId)
    = Throw (APIError s msg (fetchUrl call) body) /\ (s < 200 \/ 299 < s).
Proof.
  intros config call retries Hnn Hbad.
  assert (Hfail : forall i, 0 <= i <= retries ->
            exists e, returned (attempt_once tr call i) = Throw e).
  { intros i Hi. destruct (Hbad i Hi) as (raw & Hraw & Hok).
    unfold attempt_once. rewrite Hraw. cbn.
    destruct (decode_body raw) as [[d | e] u]; cbn; [| eauto].
    rewrite Hok. cbn. eauto. }
  destruct (attempts_exhausted tr call retries (Z.to_nat (retries + 1))
              0 None) as (e & msg & body & He & Hreq & _);
    [lia | lia | exact Hfail |].
  destruct (request_unfold (BaseAPI.httpClient c) tr config) as [Hu _].
  fold call retries in Hu. rewrite <- Hu in Hreq.
  exists (surfaced_status e), msg, body. split.
  - apply getItem_propagates. now rewrite BaseAPI_get_returned.
  - destruct (Hbad retries ltac:(lia)) as (raw & Hraw & Hok).
    revert He. unfold attempt_once. rewrite Hraw. cbn.
    destruct (decode_body raw) as [[d | e'] u] eqn:Hd; cbn.
    + rewrite Hok. cbn. intros H. injection H as <-.
      cbn. unfold rawOk in Hok. lia.
    + intros H. injection H as <-. revert Hd. unfold decode_body.
      destruct (lookup _ _) as [ct |]; [| discriminate].
      destruct (includes _ _); [| discriminate].
      destruct (rawJson raw); [discriminate |].
      intros H. injection H as <- _. cbn. lia.
Qed.

(** C1, at a failing input.  The service answers [GET /item/0.json] with
    404 and a JSON [null] body on each of the three attempts the default
    client makes: [getItem(0)] throws an [APIError] with status 404
    instead of resolving to [null]. *)
Theorem getItem_not_found_status_throws :
  returned (HackerNewsClient.getItem Fixtures.hn0
              (Fixtures.always 404 "Not Found" JNull) 0)
  = Throw (APIError 404 "HTTP 404: Not Found"
             "https://hacker-news.firebaseio.com/v0/item/0.json" (Some JNull))
  /\ fetch_count (trace (HackerNewsClient.getItem Fixtures.hn0
                           (Fixtures.always 404 "Not Found" JNull) 0)) = 3%nat.
Proof. split; vm_compute; reflexivity. Qed.

(** ** Truncation of the story-id lists *)

Lemma relative_index_bounds (len i : Z) :
  0 <= len -> 0 <= relative_index len i <= len.
Proof. unfold relative_index. destruct (i <? 0) eqn:H; lia. Qed.

(** [l.slice(0, stop)] is a prefix of [l]. *)
Lemma slice_from_zero {A : Type} (l : list A) (stop : Z) :
  slice l 0 stop
  = firstn (Z.to_nat (relative_index (Z.of_nat (List.length l)) stop)) l.
Proof.
  unfold slice.
  assert (H0 : relative_index (Z.of_nat (List.length l)) 0 = 0).
  { unfold relative_index. cbn. lia. }
  rewrite H0. cbn [Z.to_nat skipn]. f_equal. f_equal.
  pose proof (relative_index_bounds (Z.of_nat (List.length l)) stop
                                    (Nat2Z.is_nonneg _)).
  lia.
Qed.

Lemma slice_nonneg_limit {A : Type} (l : list A) (limit : Z) :
  0 <= limit ->
  slice l 0 limit
  = firstn (Z.to_nat (Z.min limit (Z.of_nat (List.length l)))) l.
Proof.
  intros H. rewrite slice_from_zero. unfold relative_index.
  destruct (limit <? 0) eqn:E; [lia | reflexivity].
Qed.

Lemma slice_negative_limit {A : Type} (l : list A) (limit : Z) :
  limit < 0 ->
  slice l 0 limit
  = firstn (Z.to_nat (Z.max (Z.of_nat (List.length l) + limit) 0)) l.
Proof.
  intros H. rewrite slice_from_zero. unfold relative_index.
  destruct (limit <? 0) eqn:E; [reflexivity | lia].
Qed.

(** What a list operation returns once the transport has handed it a 200
    envelope whose body is an array. *)
Lemma list_op_on_array (o : HackerNewsClient.list_op)
      (c : HackerNewsClient.t) (tr : transport) (limit : option Z)
      (response : HttpResponse) (xs : list value) :
  returned (BaseAPI.get c tr (HackerNewsClient.endpoint_of o) None)
  = Ok response ->
  status response = 200 ->
  data response = JArr xs ->
  returned (HackerNewsClient.run_list_op o c tr limit)
  = if HackerNewsClient.checks_not_empty o && (List.length xs =? 0)%nat then
      Throw (ValidationError "Array field 'data' should not be empty"
               (Some "data") (JObj [("value", JArr xs)]))
    else
      Ok (slice xs 0
            (match o, limit with
             | _, Some n => n
             | HackerNewsClient.TopStories, None => 500
             | _, None => 10
             end)).
Proof.
  intros Hget Hst Hd.
  destruct o; cbn [HackerNewsClient.run_list_op HackerNewsClient.endpoint_of
                   HackerNewsClient.checks_not_empty andb] in *;
    unfold HackerNewsClient.getTopStories, HackerNewsClient.getNewStories,
           HackerNewsClient.getBestStories, HackerNewsClient.getAskStories,
           HackerNewsClient.getShowStories, HackerNewsClient.getJobStories;
    rewrite (returned_bind _ _ _ Hget);
    unfold lift, returned, fst, BaseAPI.validateResponse,
           HackerNewsClient.ok200, BaseAPI.status_spec_truthy,
           ResponseValidator.validateStatus;
    rewrite Hst, Hd; cbn;
    try (destruct (List.length xs =? 0)%nat; cbn);
    destruct limit; reflexivity.
Qed.

(** C3, as amended.  For every limit [L >= 0] and every array payload of
    length [N] delivered in a 200 response, each story-id list operation
    whose payload passes its own checks (any payload for ask, show and job
    stories; a non-empty one for top, new and best stories) returns the
    first [min L N] elements of the payload, in server order; [L = 0]
    gives the empty list and [L >= N] the whole payload. *)
Theorem list_ops_truncate (o : HackerNewsClient.list_op)
        (c : HackerNewsClient.t) (tr : transport) (L : Z)
        (response : HttpResponse) (xs : list value) :
  0 <= L ->
  returned (BaseAPI.get c tr (HackerNewsClient.endpoint_of o) None)
  = Ok response ->
  status response = 200 ->
  data response = JArr xs ->
  (HackerNewsClient.checks_not_empty o = true -> xs <> []) ->
  let N := Z.of_nat (List.length xs) in
  exists ys,
    returned (HackerNewsClient.run_list_op o c tr (Some L)) = Ok ys /\
    ys = firstn (Z.to_nat (Z.min L N)) xs /\
    Z.of_nat (List.length ys) = Z.min L N /\
    (L = 0 -> ys = []) /\
    (N <= L -> ys = xs).
Proof.
  intros HL Hget Hst Hd Hne N.
  rewrite (list_op_on_array o c tr (Some L) response xs Hget Hst Hd).
  assert (Hguard : HackerNewsClient.checks_not_empty o
                   && (List.length xs =? 0)%nat = false).
  { destruct (HackerNewsClient.checks_not_empty o); [| reflexivity].
    destruct xs; [now specialize (Hne eq_refl) | reflexivity]. }
  rewrite Hguard.
  exists (firstn (Z.to_nat (Z.min L N)) xs). split.
  - f_equal. destruct o; now apply slice_nonneg_limit.
  - split; [reflexivity |]. split; [| split].
    + rewrite length_firstn. subst N. lia.
    + intros ->. replace (Z.to_nat (Z.min 0 N)) with 0%nat by (subst N; lia).
      reflexivity.
    + intros HN. apply firstn_all2. subst N. lia.
Qed.

Lemma list_ops_truncate_witness :
  0 <= 2 /\
  returned (BaseAPI.get Fixtures.hn0
              (Fixtures.flaky (JArr [JNum 31; JNum 17; JNum 42]))
              "/topstories.json" None)
  = Ok (mkResponse 200 "OK" Fixtures.json_headers
                   (JArr [JNum 31; JNum 17; JNum 42]) true) /\
  returned (HackerNewsClient.getTopStories Fixtures.hn0
              (Fixtures.flaky (JArr [JNum 31; JNum 17; JNum 42])) (Some 2))
  = Ok [JNum 31; JNum 17].
Proof.
  split; [lia |]. split; [vm_compute; reflexivity |].
  destruct (list_ops_truncate HackerNewsClient.TopStories Fixtures.hn0
              (Fixtures.flaky (JArr [JNum 31; JNum 17; JNum 42])) 2
              (mkResponse 200 "OK" Fixtures.json_headers
                          (JArr [JNum 31; JNum 17; JNum 42]) true)
              [JNum 31; JNum 17; JNum 42])
    as (ys & Hret & Hys & _).
  - lia.
  - vm_compute; reflexivity.
  - reflexivity.
  - reflexivity.
  - discriminate.
  - cbn in Hret, Hys. rewrite Hret, Hys. reflexivity.
Defined.

(** C3 as stated fails at limit 0 on an empty payload: every premise of
    the claim holds, yet [getTopStories(0)] throws where the claim
    promises the empty list. *)
Lemma list_ops_truncate_counterexample :
  0 <= 0 /\
  returned (BaseAPI.get Fixtures.hn0 (Fixtures.always 200 "OK" (JArr []))
                        "/topstories.json" None)
  = Ok (mkResponse 200 "OK" Fixtures.json_headers (JArr []) true) /\
  returned (HackerNewsClient.getTopStories Fixtures.hn0
              (Fixtures.always 200 "OK" (JArr [])) (Some 0))
  = Throw (ValidationError "Array field 'data' should not be empty"
             (Some "data") (JObj [("value", JArr [])])) /\
  returned (HackerNewsClient.getTopStories Fixtures.hn0
              (Fixtures.always 200 "OK" (JArr [])) (Some 0))
  <> Ok (firstn (Z.to_nat (Z.min 0 (Z.of_nat (List.length (@nil value)))))
                []).
Proof.
  split; [lia |]. split; [vm_compute; reflexivity |].
  split; [vm_compute; reflexivity |].
  vm_compute. discriminate.
Qed.

(** C9, as amended.  For a negative limit [n] and a non-empty array of
    length [N] delivered in a 200 response, [getTopStories(n)] does not
    throw: it returns the payload without its last [min |n| N] elements,
    that is its first [max (N + n) 0] elements, which is the empty list
    exactly when [N <= |n|]. *)
Theorem getTopStories_negative_limit (c : HackerNewsClient.t)
        (tr : transport) (n : Z) (response : HttpResponse)
        (xs : list value) :
  n < 0 ->
  returned (BaseAPI.get c tr "/topstories.json" None) = Ok response ->
  status response = 200 ->
  data response = JArr xs ->
  xs <> [] ->
  let N := Z.of_nat (List.length xs) in
  exists ys dropped,
    returned (HackerNewsClient.getTopStories c tr (Some n)) = Ok ys /\
    xs = (ys ++ dropped)%list /\
    Z.of_nat (List.length dropped) = Z.min (- n) N /\
    Z.of_nat (List.length ys) = Z.max (N + n) 0 /\
    (ys = [] <-> N <= - n).
Proof.
  intros Hn Hget Hst Hd Hne N.
  pose proof (list_op_on_array HackerNewsClient.TopStories c tr (Some n)
                response xs Hget Hst Hd) as Hop.
  cbn [HackerNewsClient.run_list_op HackerNewsClient.checks_not_empty andb]
    in Hop.
  destruct xs as [| x xs']; [contradiction |].
  cbn [List.length Nat.eqb] in Hop. rewrite Hop.
  rewrite (slice_negative_limit _ n Hn). fold N.
  set (k := Z.to_nat (Z.max (N + n) 0)).
  exists (firstn k (x :: xs')), (skipn k (x :: xs')).
  assert (Hk : (k <= List.length (x :: xs'))%nat) by (subst k N; lia).
  assert (Hlen : List.length (firstn k (x :: xs')) = k)
    by (rewrite length_firstn; lia).
  split; [reflexivity |]. split; [now rewrite firstn_skipn |].
  split; [rewrite length_skipn; subst k N; lia |].
  split; [rewrite Hlen; subst k; lia |].
  split.
  - intros E. rewrite E in Hlen. cbn in Hlen. subst k. lia.
  - intros HN. apply length_zero_iff_nil. rewrite Hlen. subst k. lia.
Qed.

Lemma getTopStories_negative_limit_witness :
  -2 < 0 /\
  returned (HackerNewsClient.getTopStories Fixtures.hn0
              (Fixtures.always 200 "OK" (JArr [JNum 31; JNum 17; JNum 42]))
              (Some (-2)))
  = Ok [JNum 31].
Proof.
  split; [lia |].
  destruct (getTopStories_negative_limit Fixtures.hn0
              (Fixtures.always 200 "OK" (JArr [JNum 31; JNum 17; JNum 42]))
              (-2)
              (mkResponse 200 "OK" Fixtures.json_headers
                          (JArr [JNum 31; JNum 17; JNum 42]) true)
              [JNum 31; JNum 17; JNum 42])
    as (ys & dropped & Hret & _).
  - lia.
  - vm_compute; reflexivity.
  - reflexivity.
  - reflexivity.
  - discriminate.
  - vm_compute; reflexivity.
Defined.

(** C9 as stated fails at limit -1 with a single id on the server: the
    premises hold, and [getTopStories(-1)] returns the empty list, which
    the claim rules out. *)
Lemma getTopStories_negative_limit_counterexample :
  -1 < 0 /\
  returned (BaseAPI.get Fixtures.hn0
              (Fixtures.always 200 "OK" (JArr [JNum 7]))
              "/topstories.json" None)
  = Ok (mkResponse 200 "OK" Fixtures.json_headers (JArr [JNum 7]) true) /\
  returned (HackerNewsClient.getTopStories Fixtures.hn0
              (Fixtures.always 200 "OK" (JArr [JNum 7])) (Some (-1)))
  = Ok [].
Proof.
  split; [lia |]. split; vm_compute; reflexivity.
Qed.

(** C10.  When the server answers a list endpoint with 200 and an empty
    array, [getTopStories], [getNewStories] and [getBestStories] throw the
    [ValidationError] of the non-empty-array check, while [getAskStories],
    [getShowStories] and [getJobStories] return the empty list, for every
    limit (the default included). *)
Theorem list_ops_on_empty_array (o : HackerNewsClient.list_op)
        (c : HackerNewsClient.t) (tr : transport) (limit : option Z)
        (response : HttpResponse) :
  returned (BaseAPI.get c tr (HackerNewsClient.endpoint_of o) None)
  = Ok response ->
  status response = 200 ->
  data response = JArr [] ->
  match o with
  | HackerNewsClient.TopStories
  | HackerNewsClient.NewStories
  | HackerNewsClient.BestStories =>
      returned (HackerNewsClient.run_list_op o c tr limit)
      = Throw (ValidationError "Array field 'data' should not be empty"
                 (Some "data") (JObj [("value", JArr [])]))
  | HackerNewsClient.AskStories
  | HackerNewsClient.ShowStories
  | HackerNewsClient.JobStories =>
      returned (HackerNewsClient.run_list_op o c tr limit) = Ok []
  end.
Proof.
  intros Hget Hst Hd.
  rewrite (list_op_on_array o c tr limit response [] Hget Hst Hd).
  destruct o; cbn [HackerNewsClient.checks_not_empty andb List.length Nat.eqb];
    try reflexivity;
    rewrite slice_from_zero; apply f_equal, firstn_nil.
Qed.

Lemma list_ops_on_empty_array_witness :
  returned (HackerNewsClient.getBestStories Fixtures.hn0
              (Fixtures.always 200 "OK" (JArr [])) (Some 5))
  = Throw (ValidationError "Array field 'data' should not be empty"
             (Some "data") (JObj [("value", JArr [])]))
  /\
  returned (HackerNewsClient.getJobStories Fixtures.hn0
              (Fixtures.always 200 "OK" (JArr [])) None)
  = Ok [].
Proof.
  split.
  - apply (list_ops_on_empty_array HackerNewsClient.BestStories Fixtures.hn0
             (Fixtures.always 200 "OK" (JArr [])) (Some 5)
             (mkResponse 200 "OK" Fixtures.json_headers (JArr []) true));
      [vm_compute; reflexivity | reflexivity | reflexivity].
  - apply (list_ops_on_empty_array HackerNewsClient.JobStories Fixtures.hn0
             (Fixtures.always 200 "OK" (JArr [])) None
             (mkResponse 200 "OK" Fixtures.json_headers (JArr []) true));
      [vm_compute; reflexivity | reflexivity | reflexivity].
Defined.

(** ** The configuration manager *)

(** The manager a process without relevant variables constructs. *)
Lemma create_default :
  ConfigManager.create [] = (Ok Fixtures.cm0, []).
Proof. reflexivity. Qed.

(** C4, as amended.  The read accessors leave the configuration manager
    as it is; [setEnvironment(name)] is the one operation that changes it:
    for a registered name it makes that profile the active environment
    and keeps the logging and reporting settings and the table of
    profiles, and for an unknown name it throws a [ConfigurationError] and
    changes nothing. *)
Theorem config_changes_only_by_setEnvironment (cm : ConfigManager.t)
        (o : ConfigManager.op) :
  match o with
  | ConfigManager.SetEnvironment envName =>
      match lookup envName (ConfigManager.environments cm) with
      | Some e =>
          returned (fst (ConfigManager.call cm o)) = Ok ConfigManager.AVoid /\
          snd (ConfigManager.call cm o)
          = ConfigManager.mkConfigManager
              (ConfigManager.mkTestConfig e
                 (ConfigManager.logging (ConfigManager.config cm))
                 (ConfigManager.reporting (ConfigManager.config cm)))
              (ConfigManager.environments cm) /\
          ConfigManager.getEnvironment (snd (ConfigManager.call cm o)) = e
      | None =>
          returned (fst (ConfigManager.call cm o))
          = Throw (ConfigurationError
                     (ConfigManager.not_found_message
                        envName (ConfigManager.environments cm))) /\
          snd (ConfigManager.call cm o) = cm
      end
  | _ => snd (ConfigManager.call cm o) = cm
  end.
Proof.
  destruct o as [| | | | | | envName]; try reflexivity.
  unfold ConfigManager.call, ConfigManager.setEnvironment.
  destruct (lookup envName (ConfigManager.environments cm)) as [e |];
    repeat split; reflexivity.
Qed.

(** Sequences of reads never change the manager. *)
Lemma config_stable_under_reads (os : list ConfigManager.op) :
  forall cm : ConfigManager.t,
    (forall envName, ~ In (ConfigManager.SetEnvironment envName) os) ->
    ConfigManager.calls cm os = cm.
Proof.
  induction os as [| o os IH]; intros cm Hno; [reflexivity |].
  cbn [ConfigManager.calls].
  assert (Hstep : snd (ConfigManager.call cm o) = cm).
  { destruct o; try reflexivity.
    exfalso. apply (Hno envName). now left. }
  rewrite Hstep. apply IH. intros envName Hin. apply (Hno envName). now right.
Qed.

(** C4 as stated fails: after initialization with the default (dev)
    profile, [setEnvironment('production')] changes the active retry count
    from 2 to 1 and the active environment with it. *)
Lemma config_immutable_counterexample :
  returned (ConfigManager.create []) = Ok Fixtures.cm0 /\
  ConfigManager.getRetries Fixtures.cm0 = 2 /\
  ConfigManager.getRetries
    (snd (ConfigManager.call Fixtures.cm0
            (ConfigManager.SetEnvironment "production"))) = 1 /\
  ConfigManager.getEnvironment
    (snd (ConfigManager.call Fixtures.cm0
            (ConfigManager.SetEnvironment "production")))
  <> ConfigManager.getEnvironment Fixtures.cm0.
Proof.
  repeat split; try reflexivity. vm_compute. discriminate.
Qed.

(** ** Building the request URL *)

Lemma length_append_char (b : string) (a : ascii) :
  String.length (b ++ String a "") = S (String.length b).
Proof. induction b as [| x b IH]; cbn; [reflexivity | now rewrite IH]. Qed.

Lemma substring_prefix (b rest : string) :
  String.substring 0 (String.length b) (b ++ rest) = b.
Proof.
  induction b as [| x b IH]; cbn.
  - now destruct rest.
  - now rewrite IH.
Qed.

Lemma drop_last_append_char (b : string) (a : ascii) :
  drop_last (b ++ String a "") = b.
Proof.
  unfold drop_last. rewrite length_append_char.
  cbn [Nat.sub]. rewrite Nat.sub_0_r. apply substring_prefix.
Qed.

Lemma endsWith_char (s : string) (a : ascii) :
  endsWith s (String a "") = true <-> exists b, s = b ++ String a "".
Proof.
  unfold endsWith. cbn [String.length].
  induction s as [| x s IH].
  - cbn. split; [discriminate |]. intros [[| y b] H]; discriminate H.
  - cbn [String.length Nat.leb andb].
    replace (S (String.length s) - 1)%nat with (String.length s) by lia.
    destruct s as [| y s'].
    + cbn [String.length String.substring]. split.
      * intros H. apply String.eqb_eq in H. injection H as ->. now exists "".
      * intros [[| z b] H]; cbn in H.
        -- injection H as ->. apply String.eqb_refl.
        -- injection H as _ H. destruct b; discriminate H.
    + cbn [String.length Nat.leb andb] in IH.
      replace (S (String.length s') - 1)%nat with (String.length s') in IH
        by lia.
      cbn [String.length].
      change (String.substring (S (String.length s')) 1
                               (String x (String y s')))
        with (String.substring (String.length s') 1 (String y s')).
      rewrite IH. split.
      * intros [b ->]. now exists (String x b).
      * intros [[| z b] H]; cbn in H.
        -- discriminate H.
        -- injection H as _ H. now exists b.
Qed.

Lemma startsWith_char (s : string) (a : ascii) :
  startsWith s (String a "") = true <-> exists p, s = String a p.
Proof.
  unfold startsWith. destruct s as [| x s]; cbn.
  - split; [discriminate | intros [p H]; discriminate H].
  - destruct (ascii_dec a x) as [-> | Hne].
    + split; [now exists s | now destruct s].
    + split; [discriminate |]. intros [p H]. injection H as H _. congruence.
Qed.

(** C5, as amended.  [buildUrl] returns an absolute path (one that begins
    with http:// or https://) unchanged; otherwise it removes at most one
    trailing slash from the base and at most one leading slash from the
    path and puts one slash between them.  So base [b] or [b/] joined with
    path [p] or [/p] gives [b/p], with exactly one separating slash,
    whenever [b] does not itself end in a slash and [p] does not itself
    begin with one. *)
Theorem buildUrl_join (c : t) (path : string) :
  (startsWith path "http://" || startsWith path "https://" = true ->
   buildUrl c path = path)
  /\
  (startsWith path "http://" || startsWith path "https://" = false ->
   (exists b p,
      buildUrl c path = b ++ "/" ++ p /\
      (if endsWith (baseUrl c) "/" then baseUrl c = b ++ "/"
       else baseUrl c = b) /\
      (if startsWith path "/" then path = "/" ++ p else path = p))
   /\
   (forall b p,
      baseUrl c = b \/ baseUrl c = b ++ "/" ->
      path = p \/ path = "/" ++ p ->
      endsWith b "/" = false ->
      startsWith p "/" = false ->
      buildUrl c path = b ++ "/" ++ p)).
Proof.
  unfold buildUrl. split.
  - now intros ->.
  - intros ->. split.
    + destruct (endsWith (baseUrl c) "/") eqn:Hb.
      * destruct (proj1 (endsWith_char _ _) Hb) as [b Hbase].
        exists b.
        destruct (startsWith path "/") eqn:Hp.
        -- destruct (proj1 (startsWith_char _ _) Hp) as [p Hpath].
           exists p. rewrite Hbase at 1. rewrite drop_last_append_char.
           now subst path.
        -- exists path. rewrite Hbase at 1. rewrite drop_last_append_char.
           now repeat split.
      * exists (baseUrl c).
        destruct (startsWith path "/") eqn:Hp.
        -- destruct (proj1 (startsWith_char _ _) Hp) as [p Hpath].
           exists p. now subst path.
        -- exists path. now repeat split.
    + intros b p Hbase Hpath Hb Hp.
      assert (Hbase' : (if endsWith (baseUrl c) "/" then drop_last (baseUrl c)
                        else baseUrl c) = b).
      { destruct Hbase as [-> | ->].
        - now rewrite Hb.
        - rewrite (proj2 (endsWith_char _ _) (ex_intro _ b eq_refl)).
          apply drop_last_append_char. }
      assert (Hpath' : (if startsWith path "/" then path else "/" ++ path)
                       = "/" ++ p).
      { destruct Hpath as [-> | ->].
        - now rewrite Hp.
        - change ("/" ++ p) with (String "/" p).
          now rewrite (proj2 (startsWith_char _ _) (ex_intro _ p eq_refl)). }
      now rewrite Hbase', Hpath'.
Qed.

(** C5 as stated fails: for the relative path [//item/1.json] the result
    has two slashes between base and path, so it is not the base and the
    path joined by exactly one separating slash. *)
Lemma buildUrl_join_counterexample :
  startsWith "//item/1.json" "http://"
  || startsWith "//item/1.json" "https://" = false /\
  buildUrl (BaseAPI.httpClient Fixtures.hn0) "//item/1.json"
  = "https://hacker-news.firebaseio.com/v0//item/1.json" /\
  ~ (exists b p,
       (baseUrl (BaseAPI.httpClient Fixtures.hn0) = b
        \/ baseUrl (BaseAPI.httpClient Fixtures.hn0) = b ++ "/") /\
       ("//item/1.json" = p \/ "//item/1.json" = "/" ++ p) /\
       endsWith b "/" = false /\
       startsWith p "/" = false /\
       buildUrl (BaseAPI.httpClient Fixtures.hn0) "//item/1.json"
       = b ++ "/" ++ p).
Proof.
  split; [reflexivity |]. split; [reflexivity |].
  intros (b & p & _ & Hp & _ & Hps & _).
  destruct Hp as [<- | Hp].
  - discriminate Hps.
  - injection Hp as <-. discriminate Hps.
Qed.

(** ** Required fields *)

Lemma split_not_nil (c : ascii) (s : string) : split c s <> [].
Proof.
  induction s as [| a s IH]; cbn; [discriminate |].
  destruct (Ascii.eqb a c); [discriminate |].
  destruct (split c s); [contradiction | discriminate].
Qed.

(** A string in which the separator does not occur is one piece. *)
Lemma split_plain (c : ascii) (s : string) :
  ~ In c (list_ascii_of_string s) -> split c s = [s].
Proof.
  induction s as [| a s IH]; cbn [split list_ascii_of_string];
    [reflexivity |].
  intros Hc. destruct (Ascii.eqb a c) eqn:E.
  - apply Ascii.eqb_eq in E. exfalso. apply Hc. now left.
  - rewrite IH; [reflexivity |]. intros Hin. apply Hc. now right.
Qed.

Lemma split_append (c : ascii) (p q : string) :
  split c (p ++ String c q) = (split c p ++ split c q)%list.
Proof.
  induction p as [| a p IH]; cbn.
  - now rewrite Ascii.eqb_refl.
  - destruct (Ascii.eqb a c); [now rewrite IH |].
    rewrite IH. pose proof (split_not_nil c p) as Hne.
    destruct (split c p) as [| piece pieces]; [contradiction | reflexivity].
Qed.

Section RequiredFields.

Variable read : value -> string -> value.

Local Abbreviation getNestedValue := (ResponseValidator.getNestedValue read).
Local Abbreviation validateRequired := (ResponseValidator.validateRequired read).

Local Abbreviation is_missing := (ResponseValidator.is_missing read).

(** Once the traversal has reached [undefined] or [null] it stays at
    [undefined]. *)
Lemma traversal_stuck (props : list string) (current : value) :
  nullish current = true ->
  props <> [] ->
  fold_left (ResponseValidator.optional_read read) props current = JUndefined.
Proof.
  intros Hn Hne. destruct props as [| p props]; [contradiction |].
  cbn [fold_left]. unfold ResponseValidator.optional_read at 2.
  rewrite Hn. clear.
  induction props as [| q props IH]; [reflexivity | exact IH].
Qed.

Lemma getNestedValue_through_missing (d : value) (p q : string) :
  nullish (getNestedValue d p) = true ->
  getNestedValue d (p ++ "." ++ q) = JUndefined.
Proof.
  intros H. unfold ResponseValidator.getNestedValue.
  change (p ++ "." ++ q) with (p ++ String "." q).
  rewrite split_append, fold_left_app.
  apply traversal_stuck; [exact H | apply split_not_nil].
Qed.

(** The loop collects the missing paths in the order given. *)
Lemma collect_missing_filter (d : value) (fields : list string) :
  ResponseValidator.collect_missing read d fields
  = filter (is_missing d) fields.
Proof.
  unfold ResponseValidator.collect_missing.
  enough (H : forall acc,
             fold_left
               (fun missing field =>
                  if is_missing d field
                  then (missing ++ [field])%list else missing)
               fields acc
             = (acc ++ filter (is_missing d) fields)%list)
    by exact (H []).
  induction fields as [| f fields IH]; intros acc; cbn [fold_left filter].
  - now rewrite app_nil_r.
  - rewrite IH.
    destruct (is_missing d f); [| reflexivity].
    now rewrite <- app_assoc.
Qed.

(** A path without a dot is one optional read of the object. *)
Lemma getNestedValue_plain (d : value) (p : string) :
  ~ In "."%char (list_ascii_of_string p) ->
  getNestedValue d p = if nullish d then JUndefined else read d p.
Proof.
  intros Hp. unfold ResponseValidator.getNestedValue.
  rewrite (split_plain _ _ Hp). reflexivity.
Qed.

(** A dotted path is traversed piece by piece, from left to right. *)
Lemma getNestedValue_dot (d : value) (p q : string) :
  getNestedValue d (p ++ "." ++ q) = getNestedValue (getNestedValue d p) q.
Proof.
  unfold ResponseValidator.getNestedValue.
  change (p ++ "." ++ q) with (p ++ String "." q).
  now rewrite split_append, fold_left_app.
Qed.

(** C6.  The value a path leads to is found by reading the properties
    named between its dots one after the other, from the data inwards: a
    path without a dot is one read of that property ([undefined] when
    the object read from is [undefined] or [null]), and the path
    [p.q] leads to what [q] leads to from the value [p] leads to.
    [validateRequired(data, fields)] succeeds exactly when no path
    of [fields] leads to [undefined] or [null]; a path through a missing
    or [null] intermediate value leads to [undefined] and so counts as
    missing; and when some path is missing the call throws a
    [ValidationError] whose [field] is the first missing path and whose
    details list all missing paths, in the order given. *)
Theorem validateRequired_spec (d : value) (fields : list string) :
  let missing := filter (is_missing d) fields in
  (forall p, ~ In "."%char (list_ascii_of_string p) ->
             getNestedValue d p
             = if nullish d then JUndefined else read d p)
  /\
  (forall p q, getNestedValue d (p ++ "." ++ q)
               = getNestedValue (getNestedValue d p) q)
  /\
  (validateRequired d fields = Ok tt <->
   forall f, In f fields -> nullish (getNestedValue d f) = false)
  /\
  (forall p q, nullish (getNestedValue d p) = true ->
               getNestedValue d (p ++ "." ++ q) = JUndefined /\
               is_missing d (p ++ "." ++ q) = true)
  /\
  (forall f, In f missing <->
             In f fields /\ nullish (getNestedValue d f) = true)
  /\
  match missing with
  | [] => validateRequired d fields = Ok tt
  | first :: _ =>
      validateRequired d fields
      = Throw (ValidationError
                 ("Missing required fields: " ++ join ", " missing)
                 (Some first)
                 (JObj [("missing", JArr (map JStr missing)); ("data", d)]))
  end.
Proof.
  intros missing.
  assert (Hshape :
            match missing with
            | [] => validateRequired d fields = Ok tt
            | first :: _ =>
                validateRequired d fields
                = Throw (ValidationError
                           ("Missing required fields: " ++ join ", " missing)
                           (Some first)
                           (JObj [("missing", JArr (map JStr missing));
                                  ("data", d)]))
            end).
  { unfold ResponseValidator.validateRequired.
    rewrite collect_missing_filter. fold missing.
    destruct missing; reflexivity. }
  assert (Hin : forall f, In f missing <->
                          In f fields /\ nullish (getNestedValue d f) = true).
  { intros f. subst missing. rewrite filter_In. reflexivity. }
  split; [exact (getNestedValue_plain d) |].
  split; [exact (getNestedValue_dot d) |].
  split; [| split; [| split; [exact Hin | exact Hshape]]].
  - split.
    + intros Hok f Hf. destruct (nullish (getNestedValue d f)) eqn:E;
        [| reflexivity].
      assert (Hm : In f missing) by (apply Hin; now split).
      destruct missing; [contradiction |]. rewrite Hshape in Hok.
      discriminate Hok.
    + intros Hall. destruct missing as [| first rest] eqn:Em; [exact Hshape |].
      assert (Hm : In first (first :: rest)) by now left.
      apply Hin in Hm. destruct Hm as [Hf Hn]. rewrite (Hall _ Hf) in Hn.
      discriminate Hn.
  - intros p q Hn.
    pose proof (getNestedValue_through_missing d p q Hn) as Hu.
    split; [exact Hu |]. unfold is_missing. now rewrite Hu.
Qed.

End RequiredFields.

Lemma validateRequired_spec_witness :
  ResponseValidator.getNestedValue get_prop Fixtures.nested "user.name"
  = JStr "pg"
  /\
  ResponseValidator.validateRequired get_prop Fixtures.nested
    ["id"; "user.name"] = Ok tt
  /\
  ResponseValidator.validateRequired get_prop Fixtures.nested
    ["id"; "user.karma"; "about.text"; "user.name"]
  = Throw (ValidationError
             "Missing required fields: user.karma, about.text"
             (Some "user.karma")
             (JObj [("missing", JArr [JStr "user.karma"; JStr "about.text"]);
                    ("data", Fixtures.nested)])).
Proof.
  pose proof (validateRequired_spec get_prop Fixtures.nested
                ["id"; "user.name"]) as H1.
  pose proof (validateRequired_spec get_prop Fixtures.nested
                ["id"; "user.karma"; "about.text"; "user.name"]) as H2.
  cbv zeta in H1, H2.
  destruct H1 as (Hplain & Hdot & _ & _ & _ & Hs1).
  destruct H2 as (_ & _ & _ & _ & _ & Hs2).
  split; [| split; [exact Hs1 | exact Hs2]].
  transitivity (ResponseValidator.getNestedValue get_prop
                  (ResponseValidator.getNestedValue get_prop
                     Fixtures.nested "user") "name");
    [exact (Hdot "user" "name") |].
  rewrite (Hplain "user");
    [| vm_compute; intuition discriminate].
  reflexivity.
Defined.

(** ** The schema checker *)

Import Ajv.

Lemma lookup_In {A : Type} (k : string) (l : list (string * A)) (v : A) :
  lookup k l = Some v -> In (k, v) l.
Proof.
  induction l as [| [k' v'] l IH]; cbn; [discriminate |].
  destruct (String.eqb k k') eqn:E.
  - apply String.eqb_eq in E. intros H. injection H as ->. subst. now left.
  - intros H. right. now apply IH.
Qed.

Lemma lookup_keys {A : Type} (k : string) (l : list (string * A)) :
  In k (keys l) <-> exists v, lookup k l = Some v.
Proof.
  induction l as [| [k' v'] l IH]; cbn.
  - split; [contradiction | intros [v H]; discriminate H].
  - destruct (String.eqb k k') eqn:E.
    + apply String.eqb_eq in E. subst. split; [eauto | now left].
    + apply String.eqb_neq in E. rewrite IH. split.
      * intros [H | H]; [congruence | exact H].
      * intros H. now right.
Qed.

Lemma existsb_eqb_In (k : string) (l : list string) :
  existsb (String.eqb k) l = true <-> In k l.
Proof.
  rewrite existsb_exists. split.
  - intros (x & Hx & E). apply String.eqb_eq in E. now subst.
  - intros H. exists k. split; [exact H | apply String.eqb_refl].
Qed.

(** [validate] on an object, keyword by keyword. *)
Lemma validate_object (s : schema) (fields : list (string * value)) :
  validate s (JObj fields)
  = match type s with Some t => String.eqb t "object" | None => true end
    && match enum s with
       | Some allowed => existsb (value_eqb (JObj fields)) allowed
       | None => true
       end
    && match const s with
       | Some c => value_eqb (JObj fields) c
       | None => true
       end
    && (forallb (defined fields) (required s)
        && (additionalProperties s || no_additional fields (properties s))
        && validate_properties fields (properties s)).
Proof.
  destruct s as [ty en co ps req addl its].
  cbn [validate type enum const properties required additionalProperties
       items has_type].
  do 3 f_equal.
  induction ps as [| [k sub] ps IH]; [reflexivity |].
  cbn [validate_properties forallb validate_property fst snd] in *.
  now rewrite IH.
Qed.

(** A value that is not an object fails [type: 'object']. *)
Lemma validate_object_only (s : schema) (v : value) :
  type s = Some "object" ->
  validate s v = true ->
  exists fields, v = JObj fields.
Proof.
  intros Hty. destruct s as [ty en co ps req addl its]. cbn in Hty. subst ty.
  destruct v; cbn [validate type has_type]; cbn [String.eqb Ascii.eqb Bool.eqb andb];
    try discriminate.
  intros _. eauto.
Qed.

Lemma validate_of_type (t : string) (x : value) :
  validate (of_type t) x = has_type t x.
Proof.
  unfold of_type. cbn [validate type enum const items].
  destruct x; cbn; now rewrite ?andb_true_r.
Qed.

Lemma validate_array (s : schema) (elements : list value) :
  validate s (JArr elements)
  = match type s with Some t => String.eqb t "array" | None => true end
    && match enum s with
       | Some allowed => existsb (value_eqb (JArr elements)) allowed
       | None => true
       end
    && match const s with
       | Some c => value_eqb (JArr elements) c
       | None => true
       end
    && match items s with
       | Some sub => forallb (validate sub) elements
       | None => true
       end.
Proof. destruct s; reflexivity. Qed.

Lemma validate_array_of (t : string) (x : value) :
  validate (array_of t) x = true <->
  exists elements, x = JArr elements /\
                   forall e, In e elements -> has_type t e = true.
Proof.
  destruct x as [| | b | n | s | elements | fields];
    try (split; [discriminate | intros (? & H & _); discriminate H]).
  rewrite validate_array. unfold array_of at 1 2 3 4.
  cbn [type enum const items]. rewrite String.eqb_refl. cbn [andb].
  rewrite forallb_forall. split.
  - intros H. exists elements. split; [reflexivity |].
    intros e He. rewrite <- validate_of_type. now apply H.
  - intros (elements' & Heq & H) e He. injection Heq as <-.
    rewrite validate_of_type. now apply H.
Qed.

Lemma validate_string_const (c : string) (x : value) :
  validate (string_const c) x = true <-> x = JStr c.
Proof.
  unfold string_const. cbn [validate type enum const items].
  destruct x; cbn; try (split; discriminate).
  rewrite andb_true_r. rewrite String.eqb_eq. split; congruence.
Qed.

(** An object validated against a schema: what each keyword yields. *)
Lemma validate_object_inv (s : schema) (fields : list (string * value)) :
  validate s (JObj fields) = true ->
  forallb (defined fields) (required s) = true /\
  (additionalProperties s = false ->
   no_additional fields (properties s) = true) /\
  validate_properties fields (properties s) = true.
Proof.
  rewrite validate_object. rewrite !andb_true_iff.
  intros (_ & (Hreq & Hadd) & Hprops).
  repeat split; try assumption.
  intros Hfalse. now rewrite Hfalse in Hadd.
Qed.

Lemma defined_lookup (fields : list (string * value)) (k : string) :
  defined fields k = true <->
  exists x, lookup k fields = Some x /\ x <> JUndefined.
Proof.
  unfold defined. destruct (lookup k fields) as [x |].
  - destruct x; split; try discriminate; try (intros _; eexists; split;
      [reflexivity | discriminate]); try reflexivity.
    intros (x & H & Hx). injection H as <-. contradiction.
  - split; [discriminate | intros (x & H & _); discriminate H].
Qed.

(** A present property is checked against the schema declared for it. *)
Lemma validate_properties_lookup (fields : list (string * value))
      (ps : list (string * schema)) (k : string) (sub : schema) (x : value) :
  validate_properties fields ps = true ->
  In (k, sub) ps ->
  lookup k fields = Some x ->
  x <> JUndefined ->
  validate sub x = true.
Proof.
  unfold validate_properties. rewrite forallb_forall.
  intros Hall Hin Hx Hdef. specialize (Hall (k, sub) Hin).
  unfold validate_property in Hall. cbn [fst snd] in Hall.
  rewrite Hx in Hall. destruct x; try exact Hall. contradiction.
Qed.

(** With [additionalProperties: false], every property that is present
    is declared and satisfies its declaration. *)
Lemma present_property_declared (s : schema)
      (fields : list (string * value)) (k : string) (x : value) :
  additionalProperties s = false ->
  validate s (JObj fields) = true ->
  lookup k fields = Some x ->
  x <> JUndefined ->
  exists sub, lookup k (properties s) = Some sub /\ validate sub x = true.
Proof.
  intros Hadd Hv Hx Hdef.
  destruct (validate_object_inv s fields Hv) as (_ & Hno & Hprops).
  specialize (Hno Hadd). unfold no_additional in Hno.
  rewrite forallb_forall in Hno.
  assert (Hk : In k (keys fields)) by (apply lookup_keys; eauto).
  specialize (Hno k Hk). apply existsb_eqb_In in Hno.
  apply lookup_keys in Hno. destruct Hno as [sub Hsub].
  exists sub. split; [exact Hsub |].
  exact (validate_properties_lookup fields _ k sub x Hprops
           (lookup_In _ _ _ Hsub) Hx Hdef).
Qed.

(** An object with a key the schema does not declare is rejected when the
    schema forbids additional properties. *)
Lemma additional_property_rejected (s : schema)
      (fields : list (string * value)) (k : string) :
  additionalProperties s = false ->
  In k (keys fields) ->
  ~ In k (keys (properties s)) ->
  validate s (JObj fields) = false.
Proof.
  intros Hadd Hk Hnot.
  destruct (validate s (JObj fields)) eqn:Hv; [| reflexivity].
  destruct (validate_object_inv s fields Hv) as (_ & Hno & _).
  specialize (Hno Hadd). unfold no_additional in Hno.
  rewrite forallb_forall in Hno. specialize (Hno k Hk).
  apply existsb_eqb_In in Hno. contradiction.
Qed.

(** The declared property sets. *)
Lemma declared_item_keys :
  keys (properties Schemas.itemSchema)
  = ["id"; "type"; "by"; "time"; "text"; "dead"; "parent"; "poll"; "kids";
     "url"; "score"; "title"; "parts"; "descendants"; "deleted"].
Proof. reflexivity. Qed.

Lemma declared_user_keys :
  keys (properties Schemas.userSchema)
  = ["id"; "created"; "karma"; "about"; "submitted"].
Proof. reflexivity. Qed.

Lemma declared_discriminated_keys (name : string) (s : schema) :
  In (name, s) Schemas.discriminated ->
  keys (properties s) = keys (properties Schemas.itemSchema).
Proof.
  intros [H | [H | [H | []]]]; injection H as _ <-; reflexivity.
Qed.

(** C8.  An object with at least one property key outside a schema's
    declared property set is rejected by that schema's checker:
    [validateItem] and [validateUser] (and likewise the story, comment and
    job checkers) return false on it, whatever its other fields are. *)
Theorem unknown_field_rejected (fields : list (string * value))
        (k : string) :
  In k (keys fields) ->
  (~ In k (keys (properties Schemas.itemSchema)) ->
   Schemas.validateItem (JObj fields) = false /\
   Schemas.validateStory (JObj fields) = false /\
   Schemas.validateComment (JObj fields) = false /\
   Schemas.validateJob (JObj fields) = false)
  /\
  (~ In k (keys (properties Schemas.userSchema)) ->
   Schemas.validateUser (JObj fields) = false).
Proof.
  intros Hk. split.
  - intros Hnot. repeat split;
      apply (additional_property_rejected _ fields k); try reflexivity;
      assumption.
  - intros Hnot.
    now apply (additional_property_rejected _ fields k).
Qed.

Lemma unknown_field_rejected_witness :
  In "rank" (keys [("id", JNum 8863); ("type", JStr "story");
                   ("rank", JNum 1)]) /\
  ~ In "rank" (keys (properties Schemas.itemSchema)) /\
  Schemas.validateItem (JObj [("id", JNum 8863); ("type", JStr "story");
                              ("rank", JNum 1)]) = false /\
  Schemas.validateItem (JObj [("id", JNum 8863); ("type", JStr "story")])
  = true.
Proof.
  assert (Hin : In "rank" (keys [("id", JNum 8863); ("type", JStr "story");
                                 ("rank", JNum 1)]))
    by (cbn; tauto).
  assert (Hnot : ~ In "rank" (keys (properties Schemas.itemSchema))).
  { rewrite declared_item_keys. cbn.
    intros H. repeat (destruct H as [H | H]; [discriminate H |]). exact H. }
  split; [exact Hin |]. split; [exact Hnot |]. split; [| reflexivity].
  exact (proj1 (proj1 (unknown_field_rejected _ "rank" Hin) Hnot)).
Defined.

(** Property declarations that are pointwise at least as strict carry
    validity over. *)
Lemma validate_properties_refine (fields : list (string * value))
      (ps qs : list (string * schema)) :
  Forall2 (fun p q =>
             fst p = fst q /\
             forall x, validate (snd p) x = true -> validate (snd q) x = true)
          ps qs ->
  validate_properties fields ps = true ->
  validate_properties fields qs = true.
Proof.
  unfold validate_properties.
  induction 1 as [| p q ps qs [Hkey Himp] _ IH]; [reflexivity |].
  cbn [forallb]. rewrite !andb_true_iff. intros [Hp Hps].
  split; [| now apply IH].
  unfold validate_property in *. rewrite <- Hkey.
  destruct (lookup (fst p) fields) as [x |]; [| reflexivity].
  destruct x; try reflexivity; now apply Himp.
Qed.

Ltac same_or_story_type :=
  split; [reflexivity |];
  let x := fresh "x" in
  let H := fresh "H" in
  intros x H; cbn [snd] in *;
  first [ exact H
        | match type of H with
          | validate ?s x = true =>
              match s with
              | context [Some (JStr ?c)] =>
                  apply (proj1 (validate_string_const c x)) in H;
                  subst x; reflexivity
              end
          end ].

(** What the story, comment and job schemas share: each is the item
    schema with a constant discriminator and more required fields. *)
Lemma discriminated_schema (name : string) (s : schema) :
  In (name, s) Schemas.discriminated ->
  type s = Some "object" /\
  additionalProperties s = false /\
  In "id" (required s) /\
  In "type" (required s) /\
  lookup "type" (properties s) = Some (string_const name) /\
  Forall2 (fun p q =>
             fst p = fst q /\
             forall x, validate (snd p) x = true -> validate (snd q) x = true)
          (properties s) Schemas.itemProperties.
Proof.
  intros [H | [H | [H | []]]]; injection H as <- <-;
    (split; [reflexivity |]); (split; [reflexivity |]);
    (split; [cbn; tauto |]); (split; [cbn; tauto |]);
    (split; [reflexivity |]).
  - let l := eval cbv in (properties Schemas.storySchema) in
    change (properties Schemas.storySchema) with l.
    let l := eval cbv in Schemas.itemProperties in
    change Schemas.itemProperties with l.
    repeat (apply Forall2_cons; [same_or_story_type |]). apply Forall2_nil.
  - let l := eval cbv in (properties Schemas.commentSchema) in
    change (properties Schemas.commentSchema) with l.
    let l := eval cbv in Schemas.itemProperties in
    change Schemas.itemProperties with l.
    repeat (apply Forall2_cons; [same_or_story_type |]). apply Forall2_nil.
  - let l := eval cbv in (properties Schemas.jobSchema) in
    change (properties Schemas.jobSchema) with l.
    let l := eval cbv in Schemas.itemProperties in
    change Schemas.itemProperties with l.
    repeat (apply Forall2_cons; [same_or_story_type |]). apply Forall2_nil.
Qed.

(** C7.  A value accepted by the story, comment or job checker is an
    object in which every required field is present and satisfies the
    schema declared for it, the discriminator [type] equals the checker's
    constant, and every field that is present is declared and satisfies
    its declaration; in particular the generic item checker accepts it. *)
Theorem discriminated_accepts (name : string) (s : schema) (v : value) :
  In (name, s) Schemas.discriminated ->
  validate s v = true ->
  exists fields,
    v = JObj fields /\
    (forall k, In k (required s) ->
       exists x sub,
         lookup k fields = Some x /\ x <> JUndefined /\
         lookup k (properties s) = Some sub /\ validate sub x = true) /\
    lookup "type" fields = Some (JStr name) /\
    (forall k x, lookup k fields = Some x -> x <> JUndefined ->
       exists sub,
         lookup k (properties s) = Some sub /\ validate sub x = true) /\
    Schemas.validateItem v = true.
Proof.
  intros Hin Hv.
  destruct (discriminated_schema name s Hin)
    as (Hty & Hadd & Hid & Htype & Hconst & Href).
  destruct (validate_object_only s v Hty Hv) as [fields ->].
  exists fields. split; [reflexivity |].
  destruct (validate_object_inv s fields Hv) as (Hreq & Hno & Hprops).
  specialize (Hno Hadd). rewrite forallb_forall in Hreq.
  assert (Hrequired : forall k, In k (required s) ->
            exists x sub,
              lookup k fields = Some x /\ x <> JUndefined /\
              lookup k (properties s) = Some sub /\ validate sub x = true).
  { intros k Hk. apply Hreq in Hk. apply defined_lookup in Hk.
    destruct Hk as (x & Hx & Hdef).
    destruct (present_property_declared s fields k x Hadd Hv Hx Hdef)
      as (sub & Hsub & Hval).
    now exists x, sub. }
  split; [exact Hrequired |]. split; [| split].
  - destruct (Hrequired "type" Htype) as (x & sub & Hx & _ & Hsub & Hval).
    rewrite Hconst in Hsub. injection Hsub as <-.
    apply validate_string_const in Hval. now subst x.
  - intros k x Hx Hdef.
    exact (present_property_declared s fields k x Hadd Hv Hx Hdef).
  - unfold Schemas.validateItem. rewrite validate_object.
    cbn [Schemas.itemSchema type enum const required additionalProperties
         properties forallb orb andb].
    rewrite String.eqb_refl. cbn [andb].
    rewrite (Hreq "id" Hid). cbn [andb].
    assert (Hkeys : no_additional fields Schemas.itemProperties = true).
    { pose proof (declared_discriminated_keys name s Hin) as E.
      change (keys (properties Schemas.itemSchema))
        with (keys Schemas.itemProperties) in E.
      unfold no_additional in *. now rewrite <- E. }
    rewrite Hkeys. cbn [andb].
    exact (validate_properties_refine fields _ _ Href Hprops).
Qed.

Lemma discriminated_accepts_witness :
  In ("story", Schemas.storySchema) Schemas.discriminated /\
  Schemas.validateStory
    (JObj [("by", JStr "dhouston"); ("descendants", JNum 71);
           ("id", JNum 8863); ("kids", JArr [JNum 9224; JNum 8917]);
           ("score", JNum 104); ("time", JNum 1175714200);
           ("title", JStr "My YC app: Dropbox"); ("type", JStr "story");
           ("url", JStr "http://www.getdropbox.com/u/2/screencast.html")])
  = true /\
  Schemas.validateItem
    (JObj [("by", JStr "dhouston"); ("descendants", JNum 71);
           ("id", JNum 8863); ("kids", JArr [JNum 9224; JNum 8917]);
           ("score", JNum 104); ("time", JNum 1175714200);
           ("title", JStr "My YC app: Dropbox"); ("type", JStr "story");
           ("url", JStr "http://www.getdropbox.com/u/2/screencast.html")])
  = true.
Proof.
  assert (Hin : In ("story", Schemas.storySchema) Schemas.discriminated)
    by (left; reflexivity).
  split; [exact Hin |]. split; [vm_compute; reflexivity |].
  destruct (discriminated_accepts "story" Schemas.storySchema _ Hin
              (eq_refl : Schemas.validateStory
                 (JObj [("by", JStr "dhouston"); ("descendants", JNum 71);
                        ("id", JNum 8863);
                        ("kids", JArr [JNum 9224; JNum 8917]);
                        ("score", JNum 104); ("time", JNum 1175714200);
                        ("title", JStr "My YC app: Dropbox");
                        ("type", JStr "story");
                        ("url", JStr "http://www.getdropbox.com/u/2/screencast.html")])
               = true))
    as (fields & _ & _ & _ & _ & Hitem).
  exact Hitem.
Defined.

Lemma has_type_number (x : value) :
  has_type "number" x = true -> exists n, x = JNum n.
Proof. destruct x; cbn; try discriminate. eauto. Qed.

Lemma has_type_string (x : value) :
  has_type "string" x = true -> exists s, x = JStr s.
Proof. destruct x; cbn; try discriminate. eauto. Qed.

(** The story checker, field by field: the five required fields with
    their declared types. *)
Lemma validateStory_required_fields (v : value) :
  Schemas.validateStory v = true ->
  exists fields id title author time,
    v = JObj fields /\
    lookup "id" fields = Some (JNum id) /\
    lookup "type" fields = Some (JStr "story") /\
    lookup "title" fields = Some (JStr title) /\
    lookup "by" fields = Some (JStr author) /\
    lookup "time" fields = Some (JNum time).
Proof.
  unfold Schemas.validateStory. intros Hv.
  destruct (validate_object_only Schemas.storySchema v eq_refl Hv)
    as [fields ->].
  destruct (validate_object_inv _ fields Hv) as (Hreq & _ & _).
  rewrite forallb_forall in Hreq.
  assert (Hfield : forall k sub,
            In k (required Schemas.storySchema) ->
            lookup k (properties Schemas.storySchema) = Some sub ->
            exists x, lookup k fields = Some x /\ validate sub x = true).
  { intros k sub Hk Hsub. apply Hreq in Hk. apply defined_lookup in Hk.
    destruct Hk as (x & Hx & Hdef).
    destruct (present_property_declared Schemas.storySchema fields k x
                eq_refl Hv Hx Hdef) as (sub' & Hsub' & Hval).
    rewrite Hsub in Hsub'. injection Hsub' as <-. eauto. }
  destruct (Hfield "id" (of_type "number")) as (xi & Hi & Vi);
    [cbn; tauto | reflexivity |].
  destruct (Hfield "type" (string_const "story")) as (xt & Ht & Vt);
    [cbn; tauto | reflexivity |].
  destruct (Hfield "title" (of_type "string")) as (xl & Hl & Vl);
    [cbn; tauto | reflexivity |].
  destruct (Hfield "by" (of_type "string")) as (xb & Hb & Vb);
    [cbn; tauto | reflexivity |].
  destruct (Hfield "time" (of_type "number")) as (xm & Hm & Vm);
    [cbn; tauto | reflexivity |].
  rewrite validate_of_type in Vi, Vl, Vb, Vm.
  apply validate_string_const in Vt.
  destruct (has_type_number _ Vi) as [id ->].
  destruct (has_type_string _ Vl) as [title ->].
  destruct (has_type_string _ Vb) as [author ->].
  destruct (has_type_number _ Vm) as [time ->].
  subst xt. now exists fields, id, title, author, time.
Qed.

(** ** Checks of the model on concrete inputs *)

Example hn0_is_constructed :
  HackerNewsClient.create Fixtures.cm0 None
  = (Ok Fixtures.hn0,
     [Log INFO ("HackerNews API initialized with base URL: "
                  ++ "https://hacker-news.firebaseio.com/v0")]).
Proof. reflexivity. Qed.

Example item_path_negative :
  "/item/" ++ number_to_string (-999999) ++ ".json" = "/item/-999999.json".
Proof. reflexivity. Qed.

Example split_path : split "." "user.address.city" = ["user"; "address"; "city"].
Proof. reflexivity. Qed.

Example split_empty_piece : split "." "a..b" = ["a"; ""; "b"].
Proof. reflexivity. Qed.

Example slice_negative_end : slice [1; 2; 3; 4; 5] 0 (-2) = [1; 2; 3].
Proof. reflexivity. Qed.

Example slice_beyond_end : slice [1; 2; 3] 0 10000 = [1; 2; 3].
Proof. reflexivity. Qed.

Example nested_value :
  ResponseValidator.getNestedValue get_prop
    (JObj [("user", JObj [("name", JStr "pg"); ("karma", JNull)])])
    "user.name" = JStr "pg"
  /\ ResponseValidator.validateRequired get_prop
       (JObj [("user", JObj [("name", JStr "pg"); ("karma", JNull)])])
       ["user.name"; "user.karma"; "about.text"]
     = Throw (ValidationError
                "Missing required fields: user.karma, about.text"
                (Some "user.karma")
                (JObj [("missing", JArr [JStr "user.karma"; JStr "about.text"]);
                       ("data",
                        JObj [("user", JObj [("name", JStr "pg");
                                             ("karma", JNull)])])])).
Proof. split; reflexivity. Qed.

Example getItem_null_body :
  returned (HackerNewsClient.getItem Fixtures.hn0
              (Fixtures.always 200 "OK" JNull) (-1)) = Ok JNull.
Proof. vm_compute; reflexivity. Qed.

(** A negative retry count skips the loop: nothing is fetched and the
    function throws its unset [lastError]. *)
Example request_negative_budget :
  request (BaseAPI.httpClient Fixtures.hn0) (Fixtures.always 200 "OK" JNull)
          (mkRequest "GET" "/maxitem.json" None None None (Some (-1)))
  = (Throw ThrownUndefined,
     [Log DEBUG "GET https://hacker-news.firebaseio.com/v0/maxitem.json"]).
Proof. reflexivity. Qed.

(** * Further properties of the transport client *)

Lemma timeline_app (t u : list event) :
  timeline (t ++ u) = (timeline t ++ timeline u)%list.
Proof. apply filter_app. Qed.

Section RetrySchedule.

Variable tr : transport.
Variable call : FetchCall.
Variable R : Z.

Lemma backoff_timeline (a : Z) :
  exists t, backoff call a = (Ok tt, t) /\
            timeline t = if 0 <? a then [Delay (1000 * a)] else [].
Proof.
  unfold backoff. destruct (0 <? a); eexists; split; reflexivity.
Qed.

Lemma log_failure_timeline (e : js_error) (a : Z) :
  exists t, log_failure e call a R = (Ok tt, t) /\ timeline t = [].
Proof.
  unfold log_failure.
  destruct (String.eqb (error_name e) "AbortError");
    [| destruct (a =? R)]; eexists; split; reflexivity.
Qed.

Lemma decode_body_silent (raw : Response) : trace (decode_body raw) = [].
Proof.
  unfold decode_body.
  destruct (lookup "content-type" (rawHeaders raw)) as [ct |];
    [destruct (includes ct "application/json");
     [destruct (rawJson raw) |] |]; reflexivity.
Qed.

Lemma attempt_once_timeline (a : Z) :
  timeline (trace (attempt_once tr call a))
  = [Fetch (fetchMethod call) (fetchUrl call) a].
Proof.
  unfold attempt_once.
  destruct (tr call a) as [raw | n m]; cbn; [| reflexivity].
  pose proof (decode_body_silent raw) as Hs.
  destruct (decode_body raw) as [[d | e] u]; cbn in Hs |- *; subst u;
    [| reflexivity].
  destruct (rawOk raw); reflexivity.
Qed.

Lemma handleAPIError_timeline (e : js_error) (u : string) :
  timeline (trace (@ErrorHandler.handleAPIError HttpResponse e u)) = [].
Proof.
  destruct e as [s m ep b | m f d | m | n m [[s d] |] |]; reflexivity.
Qed.

(** The loop from attempt [a] on: after the wait that precedes [a] (if
    [a] is a retry) and the fetch, [k] further retries follow, each a
    wait and a fetch; it ends by throwing only at the last attempt, and by
    returning only the envelope of the attempt it stopped at. *)
Lemma attempts_timeline (n : nat) :
  forall (a : Z) (last : option js_error),
    Z.of_nat n = R + 1 - a ->
    0 <= a <= R ->
    exists k : nat,
      a + Z.of_nat k <= R /\
      timeline (trace (attempts tr call R n a last))
      = ((if 0 <? a then [Delay (1000 * a)] else [])
           ++ Fetch (fetchMethod call) (fetchUrl call) a
           :: retries_from (fetchMethod call) (fetchUrl call) k (a + 1))%list
      /\
      (forall e, returned (attempts tr call R n a last) = Throw e ->
                 a + Z.of_nat k = R) /\
      (forall r, returned (attempts tr call R n a last) = Ok r ->
                 returned (attempt_once tr call (a + Z.of_nat k)) = Ok r).
Proof.
  induction n as [| n IH]; intros a last Hn Ha; [lia |].
  rewrite attempts_S.
  destruct (backoff_timeline a) as (tb & Hb & Htb).
  pose proof (attempt_once_timeline a) as Hta.
  destruct (attempt_once tr call a) as [[r | e] ta] eqn:Hatt;
    cbn [trace snd] in Hta.
  - exists 0%nat. rewrite Hb. cbn [bind try_catch returned trace fst snd].
    rewrite timeline_app, Htb, Hta, Z.add_0_r.
    split; [lia |]. split; [reflexivity |]. split; [discriminate |].
    intros r' H. rewrite Hatt. exact H.
  - destruct (log_failure_timeline e a) as (tl & Hl & Htl).
    destruct (Z.eq_dec a R) as [-> | Hne].
    + exists 0%nat. rewrite Hb. cbn [bind try_catch]. rewrite Hl.
      cbn [bind]. rewrite Z.eqb_refl.
      pose proof (handleAPIError_timeline e (fetchUrl call)) as Hh.
      destruct (ErrorHandler.handleAPIError e (fetchUrl call))
        as [[rh | eh] th] eqn:Hhandle; cbn [trace snd] in Hh;
        cbn [returned trace fst snd];
        rewrite !timeline_app, Htb, Hta, Htl, Hh, Z.add_0_r;
        (split; [lia |]); (split; [reflexivity |]); (split; [reflexivity |]).
      * revert Hhandle. clear.
        destruct e as [s m ep b | m f d | m | n m [[s d] |] |];
          discriminate.
      * discriminate.
    + destruct (IH (a + 1) (Some e)) as (k & Hk & Htl' & Hthrow & Hok);
        [lia | lia |].
      exists (S k). rewrite Hb. cbn [bind try_catch]. rewrite Hl.
      cbn [bind]. apply Z.eqb_neq in Hne. rewrite Hne.
      destruct (attempts tr call R n (a + 1) (Some e)) as [rr trr].
      cbn [returned trace fst snd] in *.
      rewrite !timeline_app, Htb, Hta, Htl, Htl'.
      replace (0 <? a + 1) with true by (symmetry; apply Z.ltb_lt; lia).
      replace (a + Z.of_nat (S k)) with (a + 1 + Z.of_nat k) by lia.
      split; [lia |]. split; [reflexivity |]. split; assumption.
Qed.

(** What the loop throws, with a non-negative budget, is an [APIError]
    for the request URL. *)
Lemma attempts_throw_api_error (n : nat) :
  forall (a : Z) (last : option js_error) (e : js_error),
    Z.of_nat n = R + 1 - a ->
    0 <= a <= R ->
    returned (attempts tr call R n a last) = Throw e ->
    exists s m b, e = APIError s m (fetchUrl call) b.
Proof.
  induction n as [| n IH]; intros a last e Hn Ha; [lia |].
  destruct (returned (attempt_once tr call a)) as [r | e'] eqn:Hr.
  - destruct (attempts_success tr call R n a last r Hr) as [-> _].
    discriminate.
  - destruct (Z.eq_dec a R) as [-> | Hne].
    + destruct (attempts_give_up tr call R n last e' Hr)
        as (m & b & -> & _).
      intros H. injection H as <-. eauto.
    + destruct (attempts_retry tr call R n a last e' Hr Hne) as [-> _].
      apply IH; lia.
Qed.

End RetrySchedule.

Lemma request_timeline (c : t) (tr : transport) (config : HttpRequestConfig) :
  timeline (trace (request c tr config))
  = timeline (trace (attempts tr (fetch_call c config) (maxRetries c config)
                              (Z.to_nat (maxRetries c config + 1)) 0 None)).
Proof.
  unfold request, bind, emit.
  now destruct (attempts _ _ _ _ _ _) as [[r | e] t].
Qed.

(** X1.  The network activity of a request with a non-negative retry
    budget follows the linear back-off schedule: fetch 0, then for
    [i = 1 .. k] a wait of [1000 * i] ms and fetch [i], always with the same
    method and URL, for some [k <= retries]; the request throws only after
    the whole budget ([k = retries]) and returns the envelope of the last
    fetch it made. *)
Theorem request_backoff_schedule (c : t) (tr : transport)
        (config : HttpRequestConfig) :
  0 <= maxRetries c config ->
  exists k : nat,
    Z.of_nat k <= maxRetries c config /\
    timeline (trace (request c tr config))
    = schedule (method config) (buildUrl c (url config)) k /\
    (forall e, returned (request c tr config) = Throw e ->
               Z.of_nat k = maxRetries c config) /\
    (forall r, returned (request c tr config) = Ok r ->
               returned (attempt_once tr (fetch_call c config) (Z.of_nat k))
               = Ok r).
Proof.
  intros HR.
  destruct (attempts_timeline tr (fetch_call c config) (maxRetries c config)
              (Z.to_nat (maxRetries c config + 1)) 0 None)
    as (k & Hk & Ht & Hthrow & Hok); [lia | lia |].
  exists k. rewrite request_timeline.
  destruct (request_unfold c tr config) as [-> _].
  split; [lia |]. split; [exact Ht |]. split.
  - intros e He. specialize (Hthrow e He). lia.
  - intros r Hr. exact (Hok r Hr).
Qed.

Lemma request_backoff_schedule_witness :
  0 <= maxRetries (BaseAPI.httpClient Fixtures.hn0)
                  (mkRequest "GET" "/maxitem.json" None None None None)
  /\
  timeline (trace (request (BaseAPI.httpClient Fixtures.hn0) Fixtures.dead
                     (mkRequest "GET" "/maxitem.json" None None None None)))
  = [Fetch "GET" "https://hacker-news.firebaseio.com/v0/maxitem.json" 0;
     Delay 1000;
     Fetch "GET" "https://hacker-news.firebaseio.com/v0/maxitem.json" 1;
     Delay 2000;
     Fetch "GET" "https://hacker-news.firebaseio.com/v0/maxitem.json" 2].
Proof.
  split; [cbn; lia |].
  destruct (request_backoff_schedule (BaseAPI.httpClient Fixtures.hn0)
              Fixtures.dead
              (mkRequest "GET" "/maxitem.json" None None None None))
    as (k & _ & Ht & Hthrow & _); [cbn; lia |].
  rewrite Ht.
  assert (Hk : Z.of_nat k = 2) by (eapply Hthrow; vm_compute; reflexivity).
  replace k with 2%nat by lia. reflexivity.
Defined.

(** X2.  [request] never returns a non-2xx envelope: whatever it returns
    has [ok = true] and a status between 200 and 299, and is the envelope
    of a response the network really gave. *)
Theorem request_returns_success_only (c : t) (tr : transport)
        (config : HttpRequestConfig) (r : HttpResponse) :
  returned (request c tr config) = Ok r ->
  ok r = true /\ 200 <= status r <= 299 /\
  exists attempt raw,
    0 <= attempt <= maxRetries c config /\
    tr (fetch_call c config) attempt = Resolves raw /\
    status r = rawStatus raw /\ statusText r = rawStatusText raw /\
    responseHeaders r = rawHeaders raw /\
    returned (decode_body raw) = Ok (data r).
Proof.
  intros Hr.
  destruct (Z_lt_le_dec (maxRetries c config) 0) as [Hneg | Hnn].
  - exfalso. destruct (request_unfold c tr config) as [Hu _].
    rewrite Hu in Hr.
    replace (Z.to_nat (maxRetries c config + 1)) with 0%nat in Hr by lia.
    discriminate Hr.
  - destruct (attempts_timeline tr (fetch_call c config) (maxRetries c config)
                (Z.to_nat (maxRetries c config + 1)) 0 None)
      as (k & Hk & _ & _ & Hok); [lia | lia |].
    destruct (request_unfold c tr config) as [Hu _]. rewrite Hu in Hr.
    specialize (Hok r Hr).
    destruct (attempt_once_returns _ _ _ _ Hok)
      as (raw & d & Hraw & Hd & Hrawok & ->).
    cbn. unfold rawOk in Hrawok.
    split; [reflexivity |]. split; [lia |].
    exists (0 + Z.of_nat k), raw. repeat split; try assumption; lia.
Qed.

Lemma request_returns_success_only_witness :
  returned (request (BaseAPI.httpClient Fixtures.hn0)
                    (Fixtures.flaky (JNum 41000000))
                    (mkRequest "GET" "/maxitem.json" None None None None))
  = Ok (mkResponse 200 "OK" Fixtures.json_headers (JNum 41000000) true)
  /\ ok (mkResponse 200 "OK" Fixtures.json_headers (JNum 41000000) true)
     = true.
Proof.
  assert (H : returned (request (BaseAPI.httpClient Fixtures.hn0)
                          (Fixtures.flaky (JNum 41000000))
                          (mkRequest "GET" "/maxitem.json" None None None None))
              = Ok (mkResponse 200 "OK" Fixtures.json_headers
                               (JNum 41000000) true))
    by (vm_compute; reflexivity).
  split; [exact H |].
  exact (proj1 (request_returns_success_only _ _ _ _ H)).
Defined.

(** X3.  With a non-negative retry budget, whatever [request] throws is
    an [APIError] whose endpoint is the URL it built; no other kind of
    exception (a fetch rejection, a timeout, a JSON syntax error) escapes
    it. *)
Theorem request_throws_api_error_only (c : t) (tr : transport)
        (config : HttpRequestConfig) (e : js_error) :
  0 <= maxRetries c config ->
  returned (request c tr config) = Throw e ->
  exists s m b, e = APIError s m (buildUrl c (url config)) b.
Proof.
  intros HR He.
  destruct (request_unfold c tr config) as [Hu _]. rewrite Hu in He.
  apply (attempts_throw_api_error tr (fetch_call c config)
           (maxRetries c config) (Z.to_nat (maxRetries c config + 1))
           0 None e); [lia | lia | exact He].
Qed.

Lemma request_throws_api_error_only_witness :
  0 <= maxRetries (BaseAPI.httpClient Fixtures.hn0)
                  (mkRequest "GET" "/maxitem.json" None None None None)
  /\
  returned (request (BaseAPI.httpClient Fixtures.hn0) Fixtures.dead
                    (mkRequest "GET" "/maxitem.json" None None None None))
  = Throw (APIError 500 "This operation was aborted"
             "https://hacker-news.firebaseio.com/v0/maxitem.json" None)
  /\
  exists s m b,
    APIError 500 "This operation was aborted"
             "https://hacker-news.firebaseio.com/v0/maxitem.json" None
    = APIError s m
        (buildUrl (BaseAPI.httpClient Fixtures.hn0) "/maxitem.json") b.
Proof.
  split; [cbn; lia |]. split; [vm_compute; reflexivity |].
  apply (request_throws_api_error_only (BaseAPI.httpClient Fixtures.hn0)
           Fixtures.dead
           (mkRequest "GET" "/maxitem.json" None None None None));
    [cbn; lia | vm_compute; reflexivity].
Defined.

(** ** Object spread and header precedence *)

Lemma lookup_set_prop {A : Type} (k k' : string) (v : A)
      (l : list (string * A)) :
  lookup k (set_prop k' v l) = if String.eqb k k' then Some v else lookup k l.
Proof.
  induction l as [| [k0 v0] l IH]; cbn.
  - now destruct (String.eqb k k').
  - destruct (String.eqb k' k0) eqn:E0; cbn.
    + apply String.eqb_eq in E0. subst k0.
      now destruct (String.eqb k k').
    + destruct (String.eqb k k0) eqn:E1.
      * apply String.eqb_eq in E1. subst k0.
        rewrite String.eqb_sym in E0. now rewrite E0.
      * exact IH.
Qed.

Lemma lookup_none_keys {A : Type} (k : string) (l : list (string * A)) :
  ~ In k (keys l) -> lookup k l = None.
Proof.
  intros H. destruct (lookup k l) as [v |] eqn:E; [| reflexivity].
  exfalso. apply H. apply lookup_keys. eauto.
Qed.

(** In [{ ...a, ...b }] a key of [b] wins over the same key of [a]. *)
Lemma lookup_spread {A : Type} (k : string) (b : list (string * A)) :
  NoDup (keys b) ->
  forall a : list (string * A),
    lookup k (spread a b)
    = match lookup k b with Some v => Some v | None => lookup k a end.
Proof.
  unfold spread.
  induction b as [| [k' v'] b IH]; intros Hnd a; [reflexivity |].
  cbn [fold_left fst snd keys map] in *. inversion Hnd as [| ? ? Hnot Hnd'].
  subst. rewrite (IH Hnd'). cbn [lookup].
  destruct (String.eqb k k') eqn:E.
  - apply String.eqb_eq in E. subst k'.
    rewrite (lookup_none_keys k b Hnot), lookup_set_prop.
    now rewrite String.eqb_refl.
  - destruct (lookup k b); [reflexivity |].
    now rewrite lookup_set_prop, E.
Qed.

(** X4.  Header precedence.  For a client built by the constructor, the
    headers sent with a request are looked up, in this order, in the
    request's own headers, the constructor's headers, the configuration
    manager's headers, and finally the default
    [Content-Type: application/json]. *)
Theorem request_header_precedence (cm : ConfigManager.t)
        (base : option string) (hdrs : option (list (string * string)))
        (tmo rts : option Z) (config : HttpRequestConfig) (k : string) :
  let own := match headers config with Some h => h | None => [] end in
  let given := match hdrs with Some h => h | None => [] end in
  NoDup (keys own) ->
  NoDup (keys given) ->
  NoDup (keys (ConfigManager.getHeaders cm)) ->
  lookup k (fetchHeaders (fetch_call (create cm base hdrs tmo rts) config))
  = match lookup k own with
    | Some v => Some v
    | None =>
        match lookup k given with
        | Some v => Some v
        | None =>
            match lookup k (ConfigManager.getHeaders cm) with
            | Some v => Some v
            | None =>
                if String.eqb k "Content-Type" then Some "application/json"
                else None
            end
        end
    end.
Proof.
  intros own given Hown Hgiven Hcm.
  unfold fetch_call, create.
  cbn [fetchHeaders defaultHeaders]. fold own given.
  rewrite (lookup_spread k own Hown).
  destruct (lookup k own); [reflexivity |].
  rewrite (lookup_spread k given Hgiven).
  destruct (lookup k given); [reflexivity |].
  rewrite (lookup_spread k _ Hcm).
  destruct (lookup k (ConfigManager.getHeaders cm)); reflexivity.
Qed.

Lemma request_header_precedence_witness :
  NoDup (keys [("Accept", "application/json"); ("Content-Type", "text/plain")])
  /\
  lookup "Content-Type"
    (fetchHeaders
       (fetch_call (create Fixtures.cm0 None
                           (Some [("X-Client", "suite")]) None None)
          (mkRequest "GET" "/maxitem.json"
             (Some [("Accept", "application/json");
                    ("Content-Type", "text/plain")])
             None None None)))
  = Some "text/plain"
  /\
  lookup "X-Client"
    (fetchHeaders
       (fetch_call (create Fixtures.cm0 None
                           (Some [("X-Client", "suite")]) None None)
          (mkRequest "GET" "/maxitem.json"
             (Some [("Accept", "application/json");
                    ("Content-Type", "text/plain")])
             None None None)))
  = Some "suite".
Proof.
  assert (H1 : NoDup (keys [("Accept", "application/json");
                            ("Content-Type", "text/plain")])).
  { cbn. repeat constructor; cbn; intuition discriminate. }
  assert (H2 : NoDup (keys [("X-Client", "suite")])).
  { cbn. repeat constructor; cbn; intuition. }
  assert (H3 : NoDup (keys (ConfigManager.getHeaders Fixtures.cm0)))
    by constructor.
  split; [exact H1 |]. split.
  - exact (request_header_precedence Fixtures.cm0 None
             (Some [("X-Client", "suite")]) None None
             (mkRequest "GET" "/maxitem.json"
                (Some [("Accept", "application/json");
                       ("Content-Type", "text/plain")]) None None None)
             "Content-Type" H1 H2 H3).
  - exact (request_header_precedence Fixtures.cm0 None
             (Some [("X-Client", "suite")]) None None
             (mkRequest "GET" "/maxitem.json"
                (Some [("Accept", "application/json");
                       ("Content-Type", "text/plain")]) None None None)
             "X-Client" H1 H2 H3).
Defined.

(** ** Built URLs are absolute *)

Lemma string_append_assoc (a b c : string) :
  ((a ++ b) ++ c = a ++ (b ++ c))%string.
Proof. induction a as [| x a IH]; cbn; [reflexivity | now rewrite IH]. Qed.

Lemma prefix_append (p r : string) : String.prefix p (p ++ r) = true.
Proof.
  induction p as [| x p IH]; cbn; [now destruct r |].
  destruct (ascii_dec x x); [exact IH | contradiction].
Qed.

Lemma prefix_inv (p s : string) :
  String.prefix p s = true -> exists r, s = p ++ r.
Proof.
  revert s. induction p as [| x p IH]; intros s; cbn.
  - intros _. now exists s.
  - destruct s as [| y s]; [intros H; discriminate H |].
    cbn. destruct (ascii_dec x y) as [E | E]; [| intros H; discriminate H].
    subst y. intros H. destruct (IH s H) as [r ->]. now exists r.
Qed.

Lemma append_char_split (p rest b : string) (a : ascii) :
  p ++ rest = b ++ String a "" ->
  (rest = "" /\ p = b ++ String a "") \/
  (exists r, rest = r ++ String a "" /\ b = p ++ r).
Proof.
  revert b. induction p as [| x p IH]; intros b; cbn.
  - intros ->. right. now exists b.
  - destruct b as [| y b]; cbn; intros H; injection H as -> H.
    + destruct p; [| discriminate H]. cbn in H. subst rest. now left.
    + destruct (IH b H) as [[-> ->] | (r & -> & ->)].
      * now left.
      * right. now exists r.
Qed.

Lemma buildUrl_keeps_prefix (c : t) (path p : string) :
  endsWith p "/" = true ->
  String.prefix p (baseUrl c) = true ->
  startsWith path "http://" || startsWith path "https://" = false ->
  String.prefix p (buildUrl c path) = true.
Proof.
  intros Hp Hbase Hrel. unfold buildUrl. rewrite Hrel.
  destruct (prefix_inv _ _ Hbase) as [rest Hrest].
  assert (Hend : exists e, (if startsWith path "/" then path else "/" ++ path)
                           = String "/" e).
  { destruct (startsWith path "/") eqn:Hs.
    - exact (proj1 (startsWith_char _ _) Hs).
    - now exists path. }
  destruct Hend as [e ->].
  destruct (endsWith (baseUrl c) "/") eqn:Hb.
  - destruct (proj1 (endsWith_char _ _) Hb) as [b Hb'].
    rewrite Hb' at 1. rewrite drop_last_append_char.
    rewrite Hrest in Hb'.
    destruct (append_char_split _ _ _ _ Hb') as [[_ ->] | (r & _ & ->)].
    + change (String "/" e) with (String "/" "" ++ e).
      rewrite <- string_append_assoc. apply prefix_append.
    + rewrite string_append_assoc. apply prefix_append.
  - rewrite Hrest, string_append_assoc. apply prefix_append.
Qed.

(** X5.  When the client's base URL is absolute (begins with http:// or
    https://), every URL [buildUrl] produces is absolute too, so building
    a built URL again changes nothing. *)
Theorem buildUrl_absolute_idempotent (c : t) (path : string) :
  startsWith (baseUrl c) "http://" || startsWith (baseUrl c) "https://" = true ->
  startsWith (buildUrl c path) "http://"
  || startsWith (buildUrl c path) "https://" = true
  /\ buildUrl c (buildUrl c path) = buildUrl c path.
Proof.
  intros Hbase.
  assert (Habs : startsWith (buildUrl c path) "http://"
                 || startsWith (buildUrl c path) "https://" = true).
  { destruct (startsWith path "http://" || startsWith path "https://")
      eqn:Hpath.
    - unfold buildUrl at 1 2. now rewrite Hpath.
    - unfold startsWith in *. apply orb_true_iff in Hbase.
      apply orb_true_iff. destruct Hbase as [H | H]; [left | right];
        apply buildUrl_keeps_prefix; try assumption; reflexivity. }
  split; [exact Habs |].
  unfold buildUrl at 1. now rewrite Habs.
Qed.

Lemma buildUrl_absolute_idempotent_witness :
  startsWith (baseUrl (BaseAPI.httpClient Fixtures.hn0)) "http://"
  || startsWith (baseUrl (BaseAPI.httpClient Fixtures.hn0)) "https://" = true
  /\
  buildUrl (BaseAPI.httpClient Fixtures.hn0)
           (buildUrl (BaseAPI.httpClient Fixtures.hn0) "user/pg.json")
  = "https://hacker-news.firebaseio.com/v0/user/pg.json".
Proof.
  split; [reflexivity |].
  rewrite (proj2 (buildUrl_absolute_idempotent
                    (BaseAPI.httpClient Fixtures.hn0) "user/pg.json"
                    eq_refl)).
  reflexivity.
Defined.

(** * Further properties of the validators *)

(** X6.  [validateResponse(response, expectedStatus)] passes exactly when
    no check is asked for (no expected status, or the falsy number 0), or
    the status equals the expected number, or it occurs in the expected
    array; so an empty array never passes.  What it throws is a
    [ValidationError] on the field [status]. *)
Theorem validateResponse_spec (response : HttpResponse)
        (expected : option ResponseValidator.status_spec) :
  (BaseAPI.validateResponse response expected = Ok tt <->
   match expected with
   | None => True
   | Some (ResponseValidator.OneStatus n) => n = 0 \/ status response = n
   | Some (ResponseValidator.ManyStatus l) => In (status response) l
   end)
  /\
  (forall e, BaseAPI.validateResponse response expected = Throw e ->
             exists m d, e = ValidationError m (Some "status") d).
Proof.
  unfold BaseAPI.validateResponse, ResponseValidator.validateStatus,
         BaseAPI.status_spec_truthy.
  destruct expected as [[n | l] |].
  - destruct (n =? 0) eqn:E0; cbn [negb].
    + apply Z.eqb_eq in E0. split; [tauto | discriminate].
    + apply Z.eqb_neq in E0. cbn [existsb]. rewrite orb_false_r.
      destruct (status response =? n) eqn:E; cbn [negb].
      * apply Z.eqb_eq in E. split; [tauto | discriminate].
      * apply Z.eqb_neq in E. split.
        -- split; [discriminate | intros [H | H]; contradiction].
        -- intros e H. injection H as <-. eauto.
  - cbn [negb].
    destruct (existsb (Z.eqb (status response)) l) eqn:E; cbn [negb].
    + split; [| discriminate]. split; [| reflexivity]. intros _.
      apply existsb_exists in E. destruct E as (x & Hx & Heq).
      apply Z.eqb_eq in Heq. now subst.
    + split.
      * split; [discriminate |]. intros Hin. exfalso.
        assert (Ht : existsb (Z.eqb (status response)) l = true).
        { apply existsb_exists. exists (status response).
          split; [exact Hin | apply Z.eqb_refl]. }
        congruence.
      * intros e H. injection H as <-. eauto.
  - split; [tauto | discriminate].
Qed.

Section TypeChecks.

Variable read : value -> string -> value.

Local Abbreviation getNestedValue := (ResponseValidator.getNestedValue read).
Local Abbreviation validateRequired := (ResponseValidator.validateRequired read).
Local Abbreviation validateType := (ResponseValidator.validateType read).
Local Abbreviation validateArrayNotEmpty :=
  (ResponseValidator.validateArrayNotEmpty read).

Lemma validateRequired_single (d : value) (f : string) :
  validateRequired d [f]
  = if nullish (getNestedValue d f) then
      Throw (ValidationError ("Missing required fields: " ++ f) (Some f)
               (JObj [("missing", JArr [JStr f]); ("data", d)]))
    else Ok tt.
Proof.
  unfold ResponseValidator.validateRequired,
         ResponseValidator.collect_missing, ResponseValidator.is_missing.
  cbn [fold_left]. now destruct (nullish (getNestedValue d f)).
Qed.

Lemma validateType_ok (d : value) (f t : string) :
  validateType d f t = Ok tt <->
  t = (if isArray (getNestedValue d f) then "array"
       else typeof (getNestedValue d f)).
Proof.
  unfold ResponseValidator.validateType.
  destruct (String.eqb _ t) eqn:E; cbn [negb].
  - apply String.eqb_eq in E. split; [now intros _ | reflexivity].
  - apply String.eqb_neq in E. split; [discriminate | congruence].
Qed.

(** X7.  A type check implies presence except for the type [object]: when
    [validateType(data, field, t)] passes and [t] is neither ['object'] nor
    ['undefined'], [validateRequired(data, \[field\])] passes too; but a
    [null] leaf passes [validateType(data, field, 'object')] while
    [validateRequired] rejects it, and an array is never of type
    [object]. *)
Theorem validateType_and_presence (d : value) (f : string) :
  (forall t, validateType d f t = Ok tt ->
             t <> "object" -> t <> "undefined" ->
             validateRequired d [f] = Ok tt)
  /\
  (getNestedValue d f = JNull ->
   validateType d f "object" = Ok tt /\
   validateRequired d [f]
   = Throw (ValidationError ("Missing required fields: " ++ f) (Some f)
              (JObj [("missing", JArr [JStr f]); ("data", d)])))
  /\
  (forall items, getNestedValue d f = JArr items ->
                 validateType d f "array" = Ok tt /\
                 validateType d f "object" <> Ok tt).
Proof.
  split; [| split].
  - intros t Ht Hobj Hund. rewrite validateRequired_single.
    apply validateType_ok in Ht.
    destruct (getNestedValue d f); cbn in Ht |- *; try reflexivity;
      congruence.
  - intros Hnull. split.
    + apply validateType_ok. now rewrite Hnull.
    + rewrite validateRequired_single. now rewrite Hnull.
  - intros items Harr. split.
    + apply validateType_ok. now rewrite Harr.
    + intros H. apply validateType_ok in H. rewrite Harr in H.
      discriminate H.
Qed.

(** X8.  [validateArrayNotEmpty(data, field)] passes exactly when the
    field holds an array with at least one element, and then
    [validateType(data, field, 'array')] and
    [validateRequired(data, \[field\])] pass as well; on an empty array and
    on a non-array it throws a [ValidationError] for that field, with
    different messages. *)
Theorem validateArrayNotEmpty_spec (d : value) (f : string) :
  (validateArrayNotEmpty d f = Ok tt <->
   exists x xs, getNestedValue d f = JArr (x :: xs))
  /\
  (validateArrayNotEmpty d f = Ok tt ->
   validateType d f "array" = Ok tt /\ validateRequired d [f] = Ok tt)
  /\
  (getNestedValue d f = JArr [] ->
   validateArrayNotEmpty d f
   = Throw (ValidationError ("Array field '" ++ f ++ "' should not be empty")
              (Some f) (JObj [("value", JArr [])])))
  /\
  (isArray (getNestedValue d f) = false ->
   validateArrayNotEmpty d f
   = Throw (ValidationError ("Field '" ++ f ++ "' should be an array")
              (Some f) (JObj [("value", getNestedValue d f)]))).
Proof.
  assert (Hiff : validateArrayNotEmpty d f = Ok tt <->
                 exists x xs, getNestedValue d f = JArr (x :: xs)).
  { unfold ResponseValidator.validateArrayNotEmpty.
    destruct (getNestedValue d f) as [| | b | n | s | [| x xs] | fields];
      cbn; split; try discriminate; try (intros (x0 & xs0 & H); discriminate H).
    - intros _. eauto.
    - reflexivity. }
  split; [exact Hiff |]. split; [| split].
  - intros Hok. apply Hiff in Hok. destruct Hok as (x & xs & Hx). split.
    + apply validateType_ok. now rewrite Hx.
    + rewrite validateRequired_single. now rewrite Hx.
  - intros He. unfold ResponseValidator.validateArrayNotEmpty.
    now rewrite He.
  - intros Hna. unfold ResponseValidator.validateArrayNotEmpty.
    destruct (getNestedValue d f); try reflexivity. discriminate Hna.
Qed.

End TypeChecks.

(** X9.  [validateSchema(data, rules)] passes exactly when every rule's
    [validate] returns true.  Otherwise the first rule that does not
    return true decides: the call throws a [ValidationError] (never any
    other exception, even when [validate] itself throws one), which for a
    rule that returned false carries that rule's message and field and the
    data. *)
Theorem validateSchema_first_failure (d : value)
        (rules : list ResponseValidator.ValidationRule) :
  (returned (ResponseValidator.validateSchema d rules) = Ok tt <->
   forall rule, In rule rules -> ResponseValidator.validate rule d = Ok true)
  /\
  (forall e,
      returned (ResponseValidator.validateSchema d rules) = Throw e ->
      exists passed rule rest m f details,
        rules = (passed ++ rule :: rest)%list /\
        (forall r, In r passed -> ResponseValidator.validate r d = Ok true) /\
        ResponseValidator.validate rule d <> Ok true /\
        e = ValidationError m f details /\
        (ResponseValidator.validate rule d = Ok false ->
         e = ValidationError (ResponseValidator.message rule)
                             (ResponseValidator.field rule)
                             (JObj [("data", d)]))).
Proof.
  assert (Hret : returned (ResponseValidator.validateSchema d rules)
                 = ResponseValidator.check_rules d rules).
  { unfold ResponseValidator.validateSchema, lift, bind, emit, returned.
    now destruct (ResponseValidator.check_rules d rules) as [[] | e]. }
  rewrite Hret. clear Hret.
  induction rules as [| rule rules [IHok IHthrow]].
  - split; [split; [intros _ r [] | reflexivity] | discriminate].
  - cbn [ResponseValidator.check_rules].
    unfold ResponseValidator.check_rule.
    destruct (ResponseValidator.validate rule d) as [[|] | e0] eqn:Hv;
      cbn [bindR].
    + split.
      * rewrite IHok. split.
        -- intros H r [<- | Hin]; [exact Hv | now apply H].
        -- intros H r Hin. apply H. now right.
      * intros e He.
        destruct (IHthrow e He)
          as (passed & r & rest & m & f & details & -> & Hp & Hr & -> & Hf).
        exists (rule :: passed), r, rest, m, f, details.
        repeat split; try assumption.
        intros r0 [<- | Hin]; [exact Hv | now apply Hp].
    + split.
      * split; [discriminate |]. intros H.
        specialize (H rule (or_introl eq_refl)). congruence.
      * intros e He. injection He as <-.
        exists [], rule, rules. do 3 eexists.
        repeat split; try reflexivity; try (intros r []).
        rewrite Hv. discriminate.
    + split.
      * split.
        -- destruct e0; discriminate.
        -- intros H. specialize (H rule (or_introl eq_refl)). congruence.
      * intros e He. exists [], rule, rules.
        destruct e0; injection He as <-; do 3 eexists;
          (repeat split; try reflexivity; try (intros r []);
           try (rewrite Hv; discriminate); try discriminate).
Qed.

(** * Further properties of the error handler, the logger and the
      configuration manager *)

(** X10.  [handleAPIError(error, endpoint)] never returns: given any
    exception object it logs one error line and throws an [APIError] that
    carries the error's own HTTP status when it has one and 500 otherwise.
    An [APIError] is rethrown as it is, so handling an error a second time,
    even for another endpoint, throws the same error again. *)
Theorem handleAPIError_spec (e : js_error) (endpoint : string) :
  e <> ThrownUndefined ->
  exists s m ep b,
    @ErrorHandler.handleAPIError HttpResponse e endpoint
    = (Throw (APIError s m ep b),
       [Log ERROR ("API Error at " ++ endpoint ++ ":")]) /\
    s = surfaced_status e /\
    (forall s0 m0 ep0 b0,
        e = APIError s0 m0 ep0 b0 -> APIError s m ep b = e) /\
    ((forall s0 m0 ep0 b0, e <> APIError s0 m0 ep0 b0) -> ep = endpoint) /\
    (forall other,
        returned (@ErrorHandler.handleAPIError HttpResponse
                    (APIError s m ep b) other)
        = Throw (APIError s m ep b)).
Proof.
  intros Hdef.
  destruct e as [s m ep b | m f d | m | n m [[s d] |] |];
    try contradiction; do 4 eexists;
    (split; [reflexivity |]); (split; [reflexivity |]);
    (split; [intros s0 m0 ep0 b0 H; try discriminate H; reflexivity |]);
    (split; [| reflexivity]);
    intros H; try reflexivity.
  exfalso. exact (H _ _ _ _ eq_refl).
Qed.

Lemma handleAPIError_spec_witness :
  OtherError "TypeError" "fetch failed" None <> ThrownUndefined /\
  @ErrorHandler.handleAPIError HttpResponse
     (OtherError "TypeError" "fetch failed" None) "https://example.org/x"
  = (Throw (APIError 500 "fetch failed" "https://example.org/x" None),
     [Log ERROR "API Error at https://example.org/x:"]).
Proof.
  split; [discriminate |].
  destruct (handleAPIError_spec (OtherError "TypeError" "fetch failed" None)
              "https://example.org/x" ltac:(discriminate))
    as (s & m & ep & b & H & _).
  reflexivity.
Defined.

(** X11.  The logger's filter.  A line of level [level] is shown exactly
    when the stored threshold, if it is the name of a level, is not above
    [level] in the order DEBUG < INFO < WARN < ERROR; a threshold that is
    no level name (the setup hook stores the LOG_LEVEL variable unchecked)
    lets every line through, and error lines are shown under every
    threshold.  A shown line goes to [console.error] for ERROR, to
    [console.warn] for WARN and to [console.log] otherwise. *)
Theorem logger_filter (lg : Logger.t) (level : LogLevel) :
  (Logger.shouldLog lg level = true <->
   forall threshold,
     Logger.logLevel lg = Logger.level_name threshold ->
     Logger.severity threshold <= Logger.severity level)
  /\
  Logger.shouldLog lg ERROR = true
  /\
  (forall timestamp message,
      Logger.log lg timestamp level message
      = if Logger.shouldLog lg level then
          Some (match level with
                | ERROR => Logger.ConsoleError
                | WARN => Logger.ConsoleWarn
                | _ => Logger.ConsoleLog
                end,
                "[" ++ timestamp ++ "] [" ++ Logger.level_name level ++ "] "
                    ++ message)
        else None).
Proof.
  assert (Hcases :
            Logger.logLevel lg = "DEBUG" \/ Logger.logLevel lg = "INFO" \/
            Logger.logLevel lg = "WARN" \/ Logger.logLevel lg = "ERROR" \/
            (forall t, Logger.logLevel lg <> Logger.level_name t)).
  { destruct (string_dec (Logger.logLevel lg) "DEBUG"); [tauto |].
    destruct (string_dec (Logger.logLevel lg) "INFO"); [tauto |].
    destruct (string_dec (Logger.logLevel lg) "WARN"); [tauto |].
    destruct (string_dec (Logger.logLevel lg) "ERROR"); [tauto |].
    do 4 right. intros [] H; contradiction. }
  assert (Hunknown :
            (forall t, Logger.logLevel lg <> Logger.level_name t) ->
            Logger.indexOf (Logger.logLevel lg) Logger.levels = -1).
  { intros H. unfold Logger.levels. cbn [Logger.indexOf].
    pose proof (proj2 (String.eqb_neq _ _) (H DEBUG)) as E1.
    pose proof (proj2 (String.eqb_neq _ _) (H INFO)) as E2.
    pose proof (proj2 (String.eqb_neq _ _) (H WARN)) as E3.
    pose proof (proj2 (String.eqb_neq _ _) (H ERROR)) as E4.
    cbn [Logger.level_name] in E1, E2, E3, E4.
    rewrite E1, E2, E3, E4. reflexivity. }
  split; [| split].
  - unfold Logger.shouldLog.
    destruct Hcases as [H | [H | [H | [H | H]]]].
    1-4: rewrite H; destruct level; cbn; split;
      try discriminate; try reflexivity;
      try (intros _ [] Ht; try discriminate Ht; cbn; lia);
      try (intros Hall;
           first [ specialize (Hall DEBUG eq_refl)
                 | specialize (Hall INFO eq_refl)
                 | specialize (Hall WARN eq_refl)
                 | specialize (Hall ERROR eq_refl) ];
           cbn in Hall; lia).
    rewrite (Hunknown H). split.
    + intros _ t Ht. exfalso. exact (H t Ht).
    + intros _. destruct level; reflexivity.
  - unfold Logger.shouldLog.
    destruct Hcases as [H | [H | [H | [H | H]]]];
      [rewrite H; reflexivity .. | rewrite (Hunknown H); reflexivity].
  - intros timestamp message. unfold Logger.log.
    destruct (Logger.shouldLog lg level); cbn [negb]; [| reflexivity].
    now destruct level.
Qed.

Lemma registered_profiles (envName : string) (e : ConfigManager.Environment) :
  lookup envName ConfigManager.loadEnvironments = Some e ->
  In envName ["dev"; "staging"; "production"] /\
  In e [ConfigManager.dev; ConfigManager.staging; ConfigManager.production] /\
  ConfigManager.name e = envName.
Proof.
  change ConfigManager.loadEnvironments
    with [("dev", ConfigManager.dev); ("staging", ConfigManager.staging);
          ("production", ConfigManager.production)].
  cbn [lookup].
  destruct (String.eqb envName "dev") eqn:E1;
    [apply String.eqb_eq in E1; intros H; injection H as <-; subst;
     cbn; tauto |].
  destruct (String.eqb envName "staging") eqn:E2;
    [apply String.eqb_eq in E2; intros H; injection H as <-; subst;
     cbn; tauto |].
  destruct (String.eqb envName "production") eqn:E3;
    [apply String.eqb_eq in E3; intros H; injection H as <-; subst;
     cbn; tauto |].
  discriminate.
Qed.

Lemma unregistered_profile (envName : string) :
  ~ In envName ["dev"; "staging"; "production"] ->
  lookup envName ConfigManager.loadEnvironments = None.
Proof.
  intros H. apply lookup_none_keys. exact H.
Qed.

(** X12.  Construction of the configuration manager.  The profile is the
    one named by TEST_ENV, or dev when the variable is unset or empty; the
    constructor succeeds exactly when that name is dev, staging or
    production, and otherwise logs and throws a [ConfigurationError] whose
    message names the unknown profile and lists the available ones. *)
Theorem config_create_spec (penv : ConfigManager.process_env) :
  let requested := ConfigManager.env_or penv "TEST_ENV" "dev" in
  (In requested ["dev"; "staging"; "production"] <->
   exists cm, ConfigManager.create penv = (Ok cm, []))
  /\
  (forall cm, returned (ConfigManager.create penv) = Ok cm ->
              ConfigManager.name (ConfigManager.getEnvironment cm) = requested /\
              ConfigManager.environments cm = ConfigManager.loadEnvironments)
  /\
  (~ In requested ["dev"; "staging"; "production"] ->
   ConfigManager.create penv
   = (Throw (ConfigurationError
               ("Environment '" ++ requested
                  ++ "' not found. Available: dev, staging, production")),
      [Log ERROR ("Configuration Error: Environment '" ++ requested
                    ++ "' not found. Available: dev, staging, production")]))
  /\
  (lookup "TEST_ENV" penv = None \/ lookup "TEST_ENV" penv = Some "" ->
   requested = "dev").
Proof.
  intros requested.
  unfold ConfigManager.create, ConfigManager.initializeConfig.
  fold requested.
  destruct (lookup requested ConfigManager.loadEnvironments) as [e |] eqn:El.
  - destruct (registered_profiles _ _ El) as (Hin & _ & Hname).
    split; [| split; [| split]].
    + split; [intros _; eexists; reflexivity | intros _; exact Hin].
    + intros cm H. cbn in H. injection H as <-. now split.
    + intros Hnot. contradiction.
    + unfold requested, ConfigManager.env_or. intros [-> | ->]; reflexivity.
  - assert (Hnot : ~ In requested ["dev"; "staging"; "production"]).
    { intros Hin. cbn in Hin.
      destruct Hin as [H | [H | [H | []]]]; rewrite <- H in El;
        discriminate El. }
    split; [| split; [| split]].
    + split; [intros Hin; contradiction | intros [cm H]; discriminate H].
    + intros cm H. discriminate H.
    + intros _. reflexivity.
    + unfold requested, ConfigManager.env_or. intros [-> | ->]; reflexivity.
Qed.

Lemma config_step_invariant (cm : ConfigManager.t) (o : ConfigManager.op) :
  ConfigManager.environments cm = ConfigManager.loadEnvironments ->
  In (ConfigManager.getEnvironment cm)
     [ConfigManager.dev; ConfigManager.staging; ConfigManager.production] ->
  let cm' := snd (ConfigManager.call cm o) in
  ConfigManager.environments cm' = ConfigManager.loadEnvironments /\
  In (ConfigManager.getEnvironment cm')
     [ConfigManager.dev; ConfigManager.staging; ConfigManager.production] /\
  ConfigManager.logging (ConfigManager.config cm')
  = ConfigManager.logging (ConfigManager.config cm) /\
  ConfigManager.reporting (ConfigManager.config cm')
  = ConfigManager.reporting (ConfigManager.config cm).
Proof.
  intros Henvs Hact.
  destruct o as [| | | | | | envName]; cbn; try now repeat split.
  unfold ConfigManager.setEnvironment. rewrite Henvs.
  destruct (lookup envName ConfigManager.loadEnvironments) as [e |] eqn:El;
    cbn; [| now repeat split].
  destruct (registered_profiles _ _ El) as (_ & Hin & _).
  now repeat split.
Qed.

(** X13.  Whatever sequence of public operations is applied to a
    constructed configuration manager, the active environment stays one of
    the three registered profiles, the profile table and the logging and
    reporting settings stay as constructed, and so the base URL is always
    the official one, the timeout 30000 ms and the retry count 1 or 2. *)
Theorem config_invariant (penv : ConfigManager.process_env)
        (cm : ConfigManager.t) (os : list ConfigManager.op) :
  returned (ConfigManager.create penv) = Ok cm ->
  let cm' := ConfigManager.calls cm os in
  In (ConfigManager.getEnvironment cm')
     [ConfigManager.dev; ConfigManager.staging; ConfigManager.production] /\
  ConfigManager.environments cm' = ConfigManager.loadEnvironments /\
  ConfigManager.logging (ConfigManager.config cm')
  = ConfigManager.logging (ConfigManager.config cm) /\
  ConfigManager.reporting (ConfigManager.config cm')
  = ConfigManager.reporting (ConfigManager.config cm) /\
  ConfigManager.getBaseUrl cm' = "https://hacker-news.firebaseio.com/v0" /\
  ConfigManager.getTimeout cm' = 30000 /\
  (ConfigManager.getRetries cm' = 1 \/ ConfigManager.getRetries cm' = 2).
Proof.
  intros Hcreate cm'.
  assert (Hinit : ConfigManager.environments cm = ConfigManager.loadEnvironments
                  /\ In (ConfigManager.getEnvironment cm)
                        [ConfigManager.dev; ConfigManager.staging;
                         ConfigManager.production]).
  { revert Hcreate.
    unfold ConfigManager.create, ConfigManager.initializeConfig.
    destruct (lookup _ ConfigManager.loadEnvironments) as [e |] eqn:El;
      [| discriminate].
    cbn. intros H. injection H as <-.
    destruct (registered_profiles _ _ El) as (_ & Hin & _). now split. }
  assert (Hinv : ConfigManager.environments cm' = ConfigManager.loadEnvironments
                 /\ In (ConfigManager.getEnvironment cm')
                       [ConfigManager.dev; ConfigManager.staging;
                        ConfigManager.production]
                 /\ ConfigManager.logging (ConfigManager.config cm')
                    = ConfigManager.logging (ConfigManager.config cm)
                 /\ ConfigManager.reporting (ConfigManager.config cm')
                    = ConfigManager.reporting (ConfigManager.config cm)).
  { subst cm'. clear Hcreate. destruct Hinit as [He Ha].
    revert cm He Ha. induction os as [| o os IH]; intros cm He Ha.
    - now repeat split.
    - cbn [ConfigManager.calls].
      destruct (config_step_invariant cm o He Ha) as (He' & Ha' & Hl & Hr).
      destruct (IH _ He' Ha') as (H1 & H2 & H3 & H4).
      repeat split; try assumption; congruence. }
  destruct Hinv as (He & Ha & Hl & Hr).
  repeat split; try assumption;
    unfold ConfigManager.getBaseUrl, ConfigManager.getTimeout,
           ConfigManager.getRetries;
    unfold ConfigManager.getEnvironment in Ha;
    destruct Ha as [<- | [<- | [<- | []]]]; cbn; auto.
Qed.

Lemma config_invariant_witness :
  returned (ConfigManager.create [("TEST_ENV", "staging")])
  = Ok (ConfigManager.mkConfigManager
          (ConfigManager.mkTestConfig ConfigManager.staging
             (ConfigManager.mkLogging "INFO" true)
             (ConfigManager.mkReporting "./reports" ["html"; "json"]))
          ConfigManager.loadEnvironments)
  /\
  ConfigManager.getTimeout
    (ConfigManager.calls
       (ConfigManager.mkConfigManager
          (ConfigManager.mkTestConfig ConfigManager.staging
             (ConfigManager.mkLogging "INFO" true)
             (ConfigManager.mkReporting "./reports" ["html"; "json"]))
          ConfigManager.loadEnvironments)
       [ConfigManager.SetEnvironment "production"; ConfigManager.GetRetries;
        ConfigManager.SetEnvironment "nowhere"])
  = 30000.
Proof.
  split; [reflexivity |].
  exact (proj1 (proj2 (proj2 (proj2 (proj2 (proj2
           (config_invariant [("TEST_ENV", "staging")] _
              [ConfigManager.SetEnvironment "production";
               ConfigManager.GetRetries;
               ConfigManager.SetEnvironment "nowhere"] eq_refl))))))).
Defined.

Lemma call_setEnvironment_known (cm : ConfigManager.t) (b : string)
      (e : ConfigManager.Environment) :
  lookup b (ConfigManager.environments cm) = Some e ->
  snd (ConfigManager.call cm (ConfigManager.SetEnvironment b))
  = ConfigManager.mkConfigManager
      (ConfigManager.mkTestConfig e
         (ConfigManager.logging (ConfigManager.config cm))
         (ConfigManager.reporting (ConfigManager.config cm)))
      (ConfigManager.environments cm).
Proof.
  intros Hb. cbn. unfold ConfigManager.setEnvironment. now rewrite Hb.
Qed.

(** X14.  Successive [setEnvironment] calls compose by "last registered
    name wins": a call with a registered name makes any earlier
    [setEnvironment] call irrelevant, and repeating it changes nothing. *)
Theorem setEnvironment_last_wins (cm : ConfigManager.t) (a b : string)
        (e : ConfigManager.Environment) :
  lookup b (ConfigManager.environments cm) = Some e ->
  ConfigManager.calls cm [ConfigManager.SetEnvironment a;
                          ConfigManager.SetEnvironment b]
  = ConfigManager.calls cm [ConfigManager.SetEnvironment b]
  /\
  ConfigManager.calls cm [ConfigManager.SetEnvironment b;
                          ConfigManager.SetEnvironment b]
  = ConfigManager.calls cm [ConfigManager.SetEnvironment b]
  /\
  ConfigManager.getEnvironment
    (ConfigManager.calls cm [ConfigManager.SetEnvironment a;
                             ConfigManager.SetEnvironment b]) = e.
Proof.
  intros Hb. cbn [ConfigManager.calls].
  rewrite (call_setEnvironment_known cm b e Hb).
  assert (Ha : snd (ConfigManager.call
                      (snd (ConfigManager.call cm
                              (ConfigManager.SetEnvironment a)))
                      (ConfigManager.SetEnvironment b))
               = ConfigManager.mkConfigManager
                   (ConfigManager.mkTestConfig e
                      (ConfigManager.logging (ConfigManager.config cm))
                      (ConfigManager.reporting (ConfigManager.config cm)))
                   (ConfigManager.environments cm)).
  { destruct (lookup a (ConfigManager.environments cm)) as [ea |] eqn:Ea.
    - rewrite (call_setEnvironment_known cm a ea Ea).
      exact (call_setEnvironment_known
               (ConfigManager.mkConfigManager
                  (ConfigManager.mkTestConfig ea
                     (ConfigManager.logging (ConfigManager.config cm))
                     (ConfigManager.reporting (ConfigManager.config cm)))
                  (ConfigManager.environments cm)) b e Hb).
    - replace (snd (ConfigManager.call cm (ConfigManager.SetEnvironment a)))
        with cm
        by (cbn; unfold ConfigManager.setEnvironment; now rewrite Ea).
      exact (call_setEnvironment_known cm b e Hb). }
  rewrite Ha. split; [reflexivity |]. split; [| reflexivity].
  exact (call_setEnvironment_known
           (ConfigManager.mkConfigManager
              (ConfigManager.mkTestConfig e
                 (ConfigManager.logging (ConfigManager.config cm))
                 (ConfigManager.reporting (ConfigManager.config cm)))
              (ConfigManager.environments cm)) b e Hb).
Qed.

Lemma setEnvironment_last_wins_witness :
  lookup "production" (ConfigManager.environments Fixtures.cm0)
  = Some ConfigManager.production /\
  ConfigManager.getRetries
    (ConfigManager.calls Fixtures.cm0
       [ConfigManager.SetEnvironment "staging";
        ConfigManager.SetEnvironment "production"]) = 1.
Proof.
  split; [reflexivity |].
  destruct (setEnvironment_last_wins Fixtures.cm0 "staging" "production"
              ConfigManager.production eq_refl) as (_ & _ & H).
  unfold ConfigManager.getRetries.
  unfold ConfigManager.getEnvironment in H. rewrite H. reflexivity.
Defined.

(** * Further properties of the domain client *)

Lemma value_eqb_null (v : value) : value_eqb v JNull = true <-> v = JNull.
Proof. destruct v; cbn; split; try discriminate; reflexivity. Qed.

Lemma collect_missing_get_prop (d : value) (fields : list string) :
  ResponseValidator.collect_missing get_prop d fields
  = filter (ResponseValidator.is_missing get_prop d) fields.
Proof. apply collect_missing_filter. Qed.

Lemma fetch_and_require (c : HackerNewsClient.t) (tr : transport)
      (path : string) (fields : list string) :
  returned
    (bind (BaseAPI.get c tr path None)
       (fun response =>
          if negb (ok response) || value_eqb (data response) JNull
          then ret JNull
          else lift (bindR (BaseAPI.validateRequired (data response) fields)
                           (fun _ => Ok (data response)))))
  = match returned (BaseAPI.get c tr path None) with
    | Throw e => Throw e
    | Ok response =>
        if value_eqb (data response) JNull then Ok JNull
        else
          match filter (ResponseValidator.is_missing get_prop (data response))
                       fields with
          | [] => Ok (data response)
          | first :: rest =>
              Throw (ValidationError
                       ("Missing required fields: "
                          ++ join ", " (first :: rest))
                       (Some first)
                       (JObj [("missing", JArr (map JStr (first :: rest)));
                              ("data", data response)]))
          end
    end.
Proof.
  destruct (returned (BaseAPI.get c tr path None)) as [response | e] eqn:Hget.
  - rewrite (returned_bind _ _ _ Hget).
    assert (Hok : ok response = true).
    { rewrite BaseAPI_get_returned in Hget.
      exact (request_returns_ok _ _ _ _ Hget). }
    rewrite Hok. cbn [negb orb].
    destruct (value_eqb (data response) JNull); [reflexivity |].
    unfold lift, returned, fst, BaseAPI.validateRequired,
           ResponseValidator.validateRequired.
    rewrite collect_missing_get_prop.
    destruct (filter _ fields); reflexivity.
  - now rewrite (returned_bind_throw _ _ _ Hget).
Qed.

(** X15.  [getItem(itemId)], in terms of what the transport gives for
    [/item/<itemId>.json]: a thrown error is passed on unchanged; a [null]
    body gives [null]; a body without a non-null [id] gives a
    [ValidationError] on [id]; any other body is returned as it is.  The
    envelope's [ok] flag plays no part. *)
Theorem getItem_outcome (c : HackerNewsClient.t) (tr : transport)
        (itemId : Z) :
  returned (HackerNewsClient.getItem c tr itemId)
  = match returned (BaseAPI.get c tr
                      ("/item/" ++ number_to_string itemId ++ ".json") None)
    with
    | Throw e => Throw e
    | Ok response =>
        if value_eqb (data response) JNull then Ok JNull
        else if nullish (get_prop (data response) "id")
                || nullish (data response)
        then Throw (ValidationError "Missing required fields: id" (Some "id")
                      (JObj [("missing", JArr [JStr "id"]);
                             ("data", data response)]))
        else Ok (data response)
    end.
Proof.
  unfold HackerNewsClient.getItem. rewrite fetch_and_require.
  destruct (returned (BaseAPI.get c tr _ None)) as [response | e];
    [| reflexivity].
  destruct (value_eqb (data response) JNull); [reflexivity |].
  cbn [filter]. unfold ResponseValidator.is_missing,
    ResponseValidator.getNestedValue. cbn [split Ascii.eqb Bool.eqb fold_left].
  unfold ResponseValidator.optional_read.
  destruct (nullish (data response)) eqn:Hn; cbn [nullish].
  - now rewrite orb_true_r.
  - rewrite orb_false_r.
    now destruct (nullish (get_prop (data response) "id")).
Qed.

(** X16.  [getUser(userId)] puts the user name into the path as it is and
    behaves like [getItem] with three required fields: errors of the
    transport are passed on, a [null] body gives [null], and a body is
    returned only when [id], [created] and [karma] are all present and
    non-null; otherwise the [ValidationError] names the first missing
    field and lists all of them. *)
Theorem getUser_outcome (c : HackerNewsClient.t) (tr : transport)
        (userId : string) :
  returned (HackerNewsClient.getUser c tr userId)
  = match returned (BaseAPI.get c tr ("/user/" ++ userId ++ ".json") None)
    with
    | Throw e => Throw e
    | Ok response =>
        if value_eqb (data response) JNull then Ok JNull
        else
          match filter (ResponseValidator.is_missing get_prop (data response))
                       ["id"; "created"; "karma"] with
          | [] => Ok (data response)
          | first :: rest =>
              Throw (ValidationError
                       ("Missing required fields: "
                          ++ join ", " (first :: rest))
                       (Some first)
                       (JObj [("missing", JArr (map JStr (first :: rest)));
                              ("data", data response)]))
          end
    end
  /\
  (forall v, returned (HackerNewsClient.getUser c tr userId) = Ok v ->
             v = JNull \/
             (nullish (get_prop v "id") = false /\
              nullish (get_prop v "created") = false /\
              nullish (get_prop v "karma") = false)).
Proof.
  assert (Hout : returned (HackerNewsClient.getUser c tr userId)
                 = match returned (BaseAPI.get c tr
                                     ("/user/" ++ userId ++ ".json") None)
                   with
                   | Throw e => Throw e
                   | Ok response =>
                       if value_eqb (data response) JNull then Ok JNull
                       else
                         match filter (ResponseValidator.is_missing get_prop
                                         (data response))
                                      ["id"; "created"; "karma"] with
                         | [] => Ok (data response)
                         | first :: rest =>
                             Throw (ValidationError
                                      ("Missing required fields: "
                                         ++ join ", " (first :: rest))
                                      (Some first)
                                      (JObj [("missing",
                                              JArr (map JStr (first :: rest)));
                                             ("data", data response)]))
                         end
                   end).
  { unfold HackerNewsClient.getUser. apply fetch_and_require. }
  split; [exact Hout |].
  intros v Hv. rewrite Hout in Hv.
  destruct (returned (BaseAPI.get c tr _ None)) as [response | e];
    [| discriminate].
  destruct (value_eqb (data response) JNull);
    [injection Hv as <-; now left |].
  right.
  assert (Hnone : forall f, In f ["id"; "created"; "karma"] ->
            ResponseValidator.is_missing get_prop (data response) f = false).
  { intros f Hf.
    destruct (ResponseValidator.is_missing get_prop (data response) f) eqn:E;
      [| reflexivity].
    assert (Hin : In f (filter (ResponseValidator.is_missing get_prop
                                  (data response))
                               ["id"; "created"; "karma"]))
      by (apply filter_In; now split).
    destruct (filter _ ["id"; "created"; "karma"]);
      [contradiction | discriminate]. }
  assert (Hv' : v = data response).
  { destruct (filter _ ["id"; "created"; "karma"]);
      [now injection Hv as <- | discriminate]. }
  subst v.
  assert (Hread : forall f, In f ["id"; "created"; "karma"] ->
                    nullish (get_prop (data response) f) = false).
  { intros f Hf. specialize (Hnone f Hf).
    unfold ResponseValidator.is_missing, ResponseValidator.getNestedValue
      in Hnone.
    destruct Hf as [<- | [<- | [<- | []]]];
      cbn [split Ascii.eqb Bool.eqb fold_left] in Hnone;
      unfold ResponseValidator.optional_read in Hnone;
      destruct (nullish (data response)); try discriminate Hnone;
      exact Hnone. }
  repeat split; apply Hread; cbn; tauto.
Qed.

Lemma request_first_attempt (c : t) (tr : transport)
      (config : HttpRequestConfig) (r : HttpResponse) :
  0 <= maxRetries c config ->
  returned (attempt_once tr (fetch_call c config) 0) = Ok r ->
  returned (request c tr config) = Ok r.
Proof.
  intros HR Hok.
  destruct (request_unfold c tr config) as [-> _].
  destruct (Z.to_nat (maxRetries c config + 1)) as [| n] eqn:En; [lia |].
  exact (proj1 (attempts_success tr _ _ n 0 None r Hok)).
Qed.

(** X17.  A body is decoded as JSON only when the content type says so.
    When the service answers the first attempt with a 2xx status and a
    content type that does not contain [application/json] (or none), the
    body reaches [getItem] as text, even the text [null], and [getItem]
    throws a [ValidationError] on [id] instead of returning an item or
    [null]. *)
Theorem getItem_text_body (c : HackerNewsClient.t) (tr : transport)
        (itemId : Z) (raw : Response) :
  let config := mkRequest "GET" ("/item/" ++ number_to_string itemId ++ ".json")
                          None None None None in
  0 <= maxRetries (BaseAPI.httpClient c) config ->
  tr (fetch_call (BaseAPI.httpClient c) config) 0 = Resolves raw ->
  rawOk raw = true ->
  (forall ct, lookup "content-type" (rawHeaders raw) = Some ct ->
              includes ct "application/json" = false) ->
  returned (HackerNewsClient.getItem c tr itemId)
  = Throw (ValidationError "Missing required fields: id" (Some "id")
             (JObj [("missing", JArr [JStr "id"]);
                    ("data", JStr (rawText raw))])).
Proof.
  intros config HR Hraw Hok Hct.
  assert (Hget : returned (BaseAPI.get c tr (url config) None)
                 = Ok (mkResponse (rawStatus raw) (rawStatusText raw)
                                  (rawHeaders raw) (JStr (rawText raw)) true)).
  { rewrite BaseAPI_get_returned.
    change (mkRequest "GET" (url config) None None None None) with config.
    apply request_first_attempt; [exact HR |].
    unfold attempt_once. rewrite Hraw.
    cbn [bind emit returned fst]. unfold decode_body.
    destruct (lookup "content-type" (rawHeaders raw)) as [ct |] eqn:El.
    - rewrite (Hct ct eq_refl). cbn. now rewrite Hok.
    - cbn. now rewrite Hok. }
  unfold HackerNewsClient.getItem. cbn [url config] in Hget.
  rewrite fetch_and_require, Hget. reflexivity.
Qed.

Lemma getItem_text_body_witness :
  returned
    (HackerNewsClient.getItem Fixtures.hn0
       (fun _ _ => Resolves (mkRaw 200 "OK" [("content-type", "text/plain")]
                                   None "null"))
       8863)
  = Throw (ValidationError "Missing required fields: id" (Some "id")
             (JObj [("missing", JArr [JStr "id"]); ("data", JStr "null")])).
Proof.
  apply (getItem_text_body Fixtures.hn0
           (fun _ _ => Resolves (mkRaw 200 "OK" [("content-type", "text/plain")]
                                       None "null"))
           8863
           (mkRaw 200 "OK" [("content-type", "text/plain")] None "null")).
  - cbn. lia.
  - reflexivity.
  - reflexivity.
  - intros ct H. injection H as <-. reflexivity.
Defined.

(** X18.  [getMaxItemId()] returns only numbers: a returned value is the
    numeric body of a response with status exactly 200.  A 200 response
    whose body is not a number, and a 2xx response other than 200, make it
    throw a [ValidationError]. *)
Theorem getMaxItemId_outcome (c : HackerNewsClient.t) (tr : transport) :
  (forall v, returned (HackerNewsClient.getMaxItemId c tr) = Ok v ->
             exists n response,
               v = JNum n /\
               returned (BaseAPI.get c tr "/maxitem.json" None) = Ok response /\
               status response = 200 /\ data response = JNum n)
  /\
  (forall response,
      returned (BaseAPI.get c tr "/maxitem.json" None) = Ok response ->
      (status response <> 200 \/ forall n, data response <> JNum n) ->
      exists m f d,
        returned (HackerNewsClient.getMaxItemId c tr)
        = Throw (ValidationError m (Some f) d) /\
        (status response <> 200 -> f = "status") /\
        (status response = 200 -> f = "data"))
  /\
  (forall e, returned (BaseAPI.get c tr "/maxitem.json" None) = Throw e ->
             returned (HackerNewsClient.getMaxItemId c tr) = Throw e).
Proof.
  assert (Hon : forall response,
            returned (BaseAPI.get c tr "/maxitem.json" None) = Ok response ->
            returned (HackerNewsClient.getMaxItemId c tr)
            = bindR (BaseAPI.validateResponse response HackerNewsClient.ok200)
                (fun _ =>
                   bindR (BaseAPI.validateType
                            (HackerNewsClient.wrap (data response))
                            "data" "number")
                     (fun _ => Ok (data response)))).
  { intros response Hget. unfold HackerNewsClient.getMaxItemId.
    now rewrite (returned_bind _ _ _ Hget). }
  split; [| split].
  - intros v Hv.
    destruct (returned (BaseAPI.get c tr "/maxitem.json" None))
      as [response | e] eqn:Hget.
    + rewrite (Hon response eq_refl) in Hv.
      unfold BaseAPI.validateResponse, HackerNewsClient.ok200,
        BaseAPI.status_spec_truthy, ResponseValidator.validateStatus in Hv.
      cbn [negb Z.eqb existsb] in Hv. rewrite orb_false_r in Hv.
      destruct (status response =? 200) eqn:Est; cbn in Hv;
        [| discriminate Hv].
      apply Z.eqb_eq in Est.
      destruct (data response) as [| | b | n | s | l | l] eqn:Hd;
        cbn in Hv; try discriminate Hv.
      injection Hv as <-. exists n, response. now repeat split.
    + unfold HackerNewsClient.getMaxItemId in Hv.
      rewrite (returned_bind_throw _ _ _ Hget) in Hv. discriminate Hv.
  - intros response Hget Hbad. rewrite (Hon response Hget).
    unfold BaseAPI.validateResponse, HackerNewsClient.ok200,
      BaseAPI.status_spec_truthy, ResponseValidator.validateStatus.
    cbn [negb Z.eqb existsb]. rewrite orb_false_r.
    destruct (status response =? 200) eqn:Est; cbn [negb bindR].
    + apply Z.eqb_eq in Est.
      destruct Hbad as [Hst | Hnum]; [contradiction |].
      destruct (data response) as [| | b | n | s | l | l] eqn:Hd;
        try (exfalso; exact (Hnum n eq_refl));
        cbn; do 3 eexists; (split; [reflexivity |]);
        (split; [intros H; contradiction | reflexivity]).
    + apply Z.eqb_neq in Est. do 3 eexists. split; [reflexivity |].
      split; [reflexivity | intros H; contradiction].
  - intros e Hget. unfold HackerNewsClient.getMaxItemId.
    now rewrite (returned_bind_throw _ _ _ Hget).
Qed.

Lemma list_op_on_envelope (o : HackerNewsClient.list_op)
      (c : HackerNewsClient.t) (tr : transport) (limit : option Z)
      (response : HttpResponse) :
  returned (BaseAPI.get c tr (HackerNewsClient.endpoint_of o) None)
  = Ok response ->
  returned (HackerNewsClient.run_list_op o c tr limit)
  = bindR (BaseAPI.validateResponse response HackerNewsClient.ok200)
      (fun _ =>
         bindR (BaseAPI.validateType (HackerNewsClient.wrap (data response))
                                     "data" "array")
           (fun _ =>
              bindR (if HackerNewsClient.checks_not_empty o then
                       ResponseValidator.validateArrayNotEmpty get_prop
                         (HackerNewsClient.wrap (data response)) "data"
                     else Ok tt)
                (fun _ =>
                   HackerNewsClient.slice_data (data response)
                     (match limit with
                      | Some n => n
                      | None =>
                          match o with
                          | HackerNewsClient.TopStories => 500
                          | _ => 10
                          end
                      end)))).
Proof.
  intros Hget.
  destruct o; cbn [HackerNewsClient.run_list_op HackerNewsClient.endpoint_of
                   HackerNewsClient.checks_not_empty] in *;
    unfold HackerNewsClient.getTopStories, HackerNewsClient.getNewStories,
           HackerNewsClient.getBestStories, HackerNewsClient.getAskStories,
           HackerNewsClient.getShowStories, HackerNewsClient.getJobStories;
    rewrite (returned_bind _ _ _ Hget);
    unfold lift, returned, fst, HackerNewsClient.default_to;
    destruct limit; reflexivity.
Qed.

Lemma list_op_propagates (o : HackerNewsClient.list_op)
      (c : HackerNewsClient.t) (tr : transport) (limit : option Z)
      (e : js_error) :
  returned (BaseAPI.get c tr (HackerNewsClient.endpoint_of o) None) = Throw e ->
  returned (HackerNewsClient.run_list_op o c tr limit) = Throw e.
Proof.
  intros Hget.
  destruct o; cbn [HackerNewsClient.run_list_op HackerNewsClient.endpoint_of]
                in *;
    unfold HackerNewsClient.getTopStories, HackerNewsClient.getNewStories,
           HackerNewsClient.getBestStories, HackerNewsClient.getAskStories,
           HackerNewsClient.getShowStories, HackerNewsClient.getJobStories;
    now rewrite (returned_bind_throw _ _ _ Hget).
Qed.

Lemma validateResponse_200 (response : HttpResponse) :
  BaseAPI.validateResponse response HackerNewsClient.ok200
  = if status response =? 200 then Ok tt
    else Throw (ValidationError
                  ("Expected status 200, got "
                     ++ number_to_string (status response))
                  (Some "status")
                  (JObj [("expected", JArr [JNum 200]);
                         ("actual", JNum (status response))])).
Proof.
  unfold BaseAPI.validateResponse, HackerNewsClient.ok200,
    BaseAPI.status_spec_truthy, ResponseValidator.validateStatus.
  cbn [negb Z.eqb existsb]. rewrite orb_false_r.
  now destruct (status response =? 200).
Qed.

Lemma list_op_returns_prefix (o : HackerNewsClient.list_op)
        (c : HackerNewsClient.t) (tr : transport) (limit : option Z)
        (ys : list value) :
  returned (HackerNewsClient.run_list_op o c tr limit) = Ok ys ->
  exists response xs rest,
    returned (BaseAPI.get c tr (HackerNewsClient.endpoint_of o) None)
    = Ok response /\
    status response = 200 /\
    data response = JArr xs /\
    (HackerNewsClient.checks_not_empty o = true -> xs <> []) /\
    ys = slice xs 0 (match limit with
                     | Some n => n
                     | None => match o with
                               | HackerNewsClient.TopStories => 500
                               | _ => 10
                               end
                     end) /\
    xs = (ys ++ rest)%list.
Proof.
  intros Hys.
  destruct (returned (BaseAPI.get c tr (HackerNewsClient.endpoint_of o) None))
    as [response | e] eqn:Hget;
    [| rewrite (list_op_propagates o c tr limit e Hget) in Hys;
       discriminate Hys].
  rewrite (list_op_on_envelope o c tr limit response Hget) in Hys.
  rewrite validateResponse_200 in Hys.
  destruct (status response =? 200) eqn:Est; [| discriminate Hys].
  apply Z.eqb_eq in Est. cbn [bindR] in Hys.
  destruct (data response) as [| | b | n | s | xs | fields] eqn:Hd;
    try discriminate Hys.
  cbn in Hys.
  assert (Hguard : HackerNewsClient.checks_not_empty o = true -> xs <> []).
  { intros Hc. rewrite Hc in Hys. destruct xs; [discriminate Hys |].
    discriminate. }
  assert (Hslice : Ok (slice xs 0
                         (match limit with
                          | Some n => n
                          | None => match o with
                                    | HackerNewsClient.TopStories => 500
                                    | _ => 10
                                    end
                          end)) = Ok ys).
  { destruct (HackerNewsClient.checks_not_empty o); [| exact Hys].
    destruct xs; [discriminate Hys | exact Hys]. }
  injection Hslice as Hslice.
  exists response, xs.
  exists (skipn (Z.to_nat (relative_index (Z.of_nat (List.length xs))
                             (match limit with
                              | Some n => n
                              | None => match o with
                                        | HackerNewsClient.TopStories => 500
                                        | _ => 10
                                        end
                              end))) xs).
  repeat split; try assumption; try reflexivity.
  - now symmetry.
  - rewrite <- Hslice, slice_from_zero. symmetry. apply firstn_skipn.
Qed.

(** X19.  A story-id list operation returns a list only for a response
    with status exactly 200 whose body is an array (non-empty for top, new
    and best stories); the list is then a prefix of that array, cut by
    [slice(0, limit)] with the operation's default limit (500 for top
    stories, 10 for the others) when none is given. *)
Theorem list_op_success_inversion (o : HackerNewsClient.list_op)
        (c : HackerNewsClient.t) (tr : transport) (limit : option Z)
        (ys : list value) :
  returned (HackerNewsClient.run_list_op o c tr limit) = Ok ys ->
  exists response xs rest,
    returned (BaseAPI.get c tr (HackerNewsClient.endpoint_of o) None)
    = Ok response /\
    status response = 200 /\
    data response = JArr xs /\
    (HackerNewsClient.checks_not_empty o = true -> xs <> []) /\
    ys = slice xs 0 (match limit with
                     | Some n => n
                     | None => match o with
                               | HackerNewsClient.TopStories => 500
                               | _ => 10
                               end
                     end) /\
    xs = (ys ++ rest)%list.
Proof. exact (list_op_returns_prefix o c tr limit ys). Qed.

Lemma list_op_success_inversion_witness :
  returned (HackerNewsClient.getNewStories Fixtures.hn0
              (Fixtures.always 200 "OK" (JArr [JNum 5; JNum 4; JNum 3]))
              (Some 2))
  = Ok [JNum 5; JNum 4]
  /\
  exists response xs rest,
    returned (BaseAPI.get Fixtures.hn0
                (Fixtures.always 200 "OK" (JArr [JNum 5; JNum 4; JNum 3]))
                "/newstories.json" None) = Ok response /\
    status response = 200 /\
    data response = JArr xs /\
    xs = ([JNum 5; JNum 4] ++ rest)%list.
Proof.
  assert (H : returned (HackerNewsClient.run_list_op HackerNewsClient.NewStories
                          Fixtures.hn0
                          (Fixtures.always 200 "OK"
                             (JArr [JNum 5; JNum 4; JNum 3])) (Some 2))
              = Ok [JNum 5; JNum 4]) by (vm_compute; reflexivity).
  split; [exact H |].
  destruct (list_op_success_inversion _ _ _ _ _ H)
    as (response & xs & rest & Hget & Hst & Hd & _ & _ & Hpre).
  exists response, xs, rest. now repeat split.
Defined.

(** X20.  How a story-id list operation fails: an error of the transport
    is passed on unchanged; a 2xx response other than 200 is rejected with
    a [ValidationError] on [status]; and a 200 response whose body is not
    an array is rejected with a [ValidationError] on [data] that names the
    actual type ([object] for a [null] body). *)
Theorem list_op_rejections (o : HackerNewsClient.list_op)
        (c : HackerNewsClient.t) (tr : transport) (limit : option Z) :
  (forall e,
      returned (BaseAPI.get c tr (HackerNewsClient.endpoint_of o) None)
      = Throw e ->
      returned (HackerNewsClient.run_list_op o c tr limit) = Throw e)
  /\
  (forall response,
      returned (BaseAPI.get c tr (HackerNewsClient.endpoint_of o) None)
      = Ok response ->
      (status response <> 200 ->
       returned (HackerNewsClient.run_list_op o c tr limit)
       = Throw (ValidationError
                  ("Expected status 200, got "
                     ++ number_to_string (status response))
                  (Some "status")
                  (JObj [("expected", JArr [JNum 200]);
                         ("actual", JNum (status response))])))
      /\
      (status response = 200 -> isArray (data response) = false ->
       returned (HackerNewsClient.run_list_op o c tr limit)
       = Throw (ValidationError
                  ("Field 'data' should be of type 'array', got '"
                     ++ typeof (data response) ++ "'")
                  (Some "data")
                  (JObj [("expected", JStr "array");
                         ("actual", JStr (typeof (data response)));
                         ("value", data response)])))).
Proof.
  split; [intros e; apply list_op_propagates |].
  intros response Hget.
  rewrite (list_op_on_envelope o c tr limit response Hget).
  rewrite validateResponse_200. split.
  - intros Hst. apply Z.eqb_neq in Hst. now rewrite Hst.
  - intros Hst Harr. apply Z.eqb_eq in Hst. rewrite Hst. cbn [bindR].
    destruct (data response); try discriminate Harr; reflexivity.
Qed.

(** ** The top story with its first comment *)

Lemma returned_bind_cases {A B : Type} (m : M A) (f : A -> M B) :
  returned (bind m f)
  = match returned m with
    | Ok a => returned (f a)
    | Throw e => Throw e
    end.
Proof.
  destruct m as [[a | e] t]; cbn; [| reflexivity].
  unfold returned. now destruct (f a).
Qed.

Lemma getTopStories_one (c : HackerNewsClient.t) (tr : transport)
      (ids : list value) :
  returned (HackerNewsClient.getTopStories c tr (Some 1)) = Ok ids ->
  exists first, ids = [first].
Proof.
  intros H.
  destruct (list_op_returns_prefix HackerNewsClient.TopStories c tr (Some 1)
              ids H) as (response & xs & rest & _ & _ & _ & Hne & Hys & _).
  destruct xs as [| x xs]; [now specialize (Hne eq_refl) |].
  exists x. rewrite Hys, slice_nonneg_limit by lia.
  cbn [List.length]. rewrite Nat2Z.inj_succ.
  replace (Z.to_nat (Z.min 1 (Z.succ (Z.of_nat (List.length xs)))))
    with 1%nat by lia.
  reflexivity.
Qed.

Lemma getItemAt_outcome (c : HackerNewsClient.t) (tr : transport)
      (idText : string) (v : value) :
  returned (HackerNewsClient.getItemAt c tr idText) = Ok v ->
  v = JNull \/ (nullish v = false /\ nullish (get_prop v "id") = false).
Proof.
  unfold HackerNewsClient.getItemAt. rewrite fetch_and_require.
  destruct (returned (BaseAPI.get c tr _ None)) as [response | e];
    [| discriminate].
  destruct (value_eqb (data response) JNull);
    [intros H; injection H as <-; now left |].
  cbn [filter]. unfold ResponseValidator.is_missing,
    ResponseValidator.getNestedValue.
  cbn [split Ascii.eqb Bool.eqb fold_left].
  unfold ResponseValidator.optional_read.
  destruct (nullish (data response)) eqn:Hn; cbn [nullish];
    [discriminate |].
  destruct (nullish (get_prop (data response) "id")) eqn:Hid;
    [discriminate |].
  intros H. injection H as <-. right. now split.
Qed.

Lemma getItemAt_falsy (c : HackerNewsClient.t) (tr : transport)
      (idText : string) (v : value) :
  returned (HackerNewsClient.getItemAt c tr idText) = Ok v ->
  truthy v = false ->
  v = JNull.
Proof.
  intros Hv Hf.
  destruct (getItemAt_outcome c tr idText v Hv) as [-> | [Hn Hid]];
    [reflexivity |].
  destruct v as [| | b | n | s | l | l]; cbn in Hf, Hn, Hid;
    discriminate.
Qed.

(** X21.  With no top stories, [getTopStoryWithComment()] does not return
    [null]: its first step is [getTopStories(1)], whose non-empty-array
    check throws on the empty list, and that [ValidationError] is what the
    caller gets. *)
Theorem top_story_empty_list_throws (c : HackerNewsClient.t)
        (tr : transport) (response : HttpResponse) :
  returned (BaseAPI.get c tr "/topstories.json" None) = Ok response ->
  status response = 200 ->
  data response = JArr [] ->
  returned (HackerNewsClient.getTopStoryWithComment c tr)
  = Throw (ValidationError "Array field 'data' should not be empty"
             (Some "data") (JObj [("value", JArr [])])).
Proof.
  intros Hget Hst Hd.
  unfold HackerNewsClient.getTopStoryWithComment.
  rewrite returned_bind_cases.
  change (HackerNewsClient.getTopStories c tr (Some 1))
    with (HackerNewsClient.run_list_op HackerNewsClient.TopStories c tr
                                       (Some 1)).
  now rewrite (list_op_on_array HackerNewsClient.TopStories c tr (Some 1)
                 response [] Hget Hst Hd).
Qed.

Lemma top_story_empty_list_throws_witness :
  returned (BaseAPI.get Fixtures.hn0 (Fixtures.always 200 "OK" (JArr []))
                        "/topstories.json" None)
  = Ok (mkResponse 200 "OK" Fixtures.json_headers (JArr []) true)
  /\
  returned (HackerNewsClient.getTopStoryWithComment Fixtures.hn0
              (Fixtures.always 200 "OK" (JArr [])))
  = Throw (ValidationError "Array field 'data' should not be empty"
             (Some "data") (JObj [("value", JArr [])])).
Proof.
  assert (H : returned (BaseAPI.get Fixtures.hn0
                          (Fixtures.always 200 "OK" (JArr []))
                          "/topstories.json" None)
              = Ok (mkResponse 200 "OK" Fixtures.json_headers (JArr []) true))
    by (vm_compute; reflexivity).
  split; [exact H |].
  exact (top_story_empty_list_throws _ _ _ H eq_refl eq_refl).
Defined.

Lemma top_comment_cases (c : HackerNewsClient.t) (tr : transport)
      (story v : value) :
  returned
    (match get_prop story "kids" with
     | JArr (JUndefined :: _) =>
         ret (JObj (HackerNewsClient.story_summary story))
     | JArr (firstKid :: _) =>
         bind (HackerNewsClient.getItemAt c tr (to_string firstKid))
           (fun firstComment =>
              if truthy firstComment && truthy (get_prop firstComment "text")
              then ret (JObj (set_prop "top_comment"
                                (get_prop firstComment "text")
                                (HackerNewsClient.story_summary story)))
              else ret (JObj (HackerNewsClient.story_summary story)))
     | _ => ret (JObj (HackerNewsClient.story_summary story))
     end) = Ok v ->
  exists comment,
    v = JObj [("title", get_prop story "title");
              ("url", get_prop story "url");
              ("top_comment", comment)] /\
    (comment = JStr "No comments found." \/
     exists kid kids item,
       get_prop story "kids" = JArr (kid :: kids) /\
       returned (HackerNewsClient.getItemAt c tr (to_string kid)) = Ok item /\
       comment = get_prop item "text" /\ truthy comment = true).
Proof.
  assert (Hplain : forall w,
            returned (ret (JObj (HackerNewsClient.story_summary story))) = Ok w ->
            exists comment,
              w = JObj [("title", get_prop story "title");
                        ("url", get_prop story "url");
                        ("top_comment", comment)] /\
              (comment = JStr "No comments found." \/
               exists kid kids item,
                 get_prop story "kids" = JArr (kid :: kids) /\
                 returned (HackerNewsClient.getItemAt c tr (to_string kid))
                 = Ok item /\
                 comment = get_prop item "text" /\ truthy comment = true)).
  { intros w H. unfold returned, ret, fst in H. injection H as <-.
    exists (JStr "No comments found."). split; [reflexivity | now left]. }
  assert (Hfetch : forall kid kids,
            get_prop story "kids" = JArr (kid :: kids) ->
            returned
              (bind (HackerNewsClient.getItemAt c tr (to_string kid))
                 (fun firstComment =>
                    if truthy firstComment
                       && truthy (get_prop firstComment "text")
                    then ret (JObj (set_prop "top_comment"
                                      (get_prop firstComment "text")
                                      (HackerNewsClient.story_summary story)))
                    else ret (JObj (HackerNewsClient.story_summary story))))
            = Ok v ->
            exists comment,
              v = JObj [("title", get_prop story "title");
                        ("url", get_prop story "url");
                        ("top_comment", comment)] /\
              (comment = JStr "No comments found." \/
               exists kid kids item,
                 get_prop story "kids" = JArr (kid :: kids) /\
                 returned (HackerNewsClient.getItemAt c tr (to_string kid))
                 = Ok item /\
                 comment = get_prop item "text" /\ truthy comment = true)).
  { intros kid kids Hk H. rewrite returned_bind_cases in H.
    destruct (returned (HackerNewsClient.getItemAt c tr (to_string kid)))
      as [item | e] eqn:Hitem; [| discriminate H].
    destruct (truthy item && truthy (get_prop item "text")) eqn:Hboth.
    - unfold returned, ret, fst in H. injection H as <-.
      exists (get_prop item "text"). split; [reflexivity |].
      right. exists kid, kids, item. apply andb_true_iff in Hboth.
      now repeat split.
    - now apply Hplain. }
  destruct (get_prop story "kids") as [| | b | n | s | kidl | l] eqn:Hk;
    try (now apply Hplain).
  destruct kidl as [| kid kids]; [now apply Hplain |].
  destruct kid; try (now apply Hplain); now apply (Hfetch _ kids).
Qed.

(** X22.  What [getTopStoryWithComment()] returns.  It fetches the single
    id [getTopStories(1)] yields; the result is [null] only when that item
    comes back as [null]; otherwise it is an object with exactly the keys
    [title], [url] and [top_comment], where title and url are read from the
    story and [top_comment] is either the placeholder
    ['No comments found.'] or the non-empty [text] of the item fetched for
    the story's first kid. *)
Theorem top_story_result (c : HackerNewsClient.t) (tr : transport)
        (v : value) :
  returned (HackerNewsClient.getTopStoryWithComment c tr) = Ok v ->
  exists first,
    returned (HackerNewsClient.getTopStories c tr (Some 1)) = Ok [first] /\
    ((v = JNull /\
      (first = JUndefined \/
       returned (HackerNewsClient.getItemAt c tr (to_string first))
       = Ok JNull))
     \/
     (exists story comment,
        returned (HackerNewsClient.getItemAt c tr (to_string first))
        = Ok story /\
        truthy story = true /\
        v = JObj [("title", get_prop story "title");
                  ("url", get_prop story "url");
                  ("top_comment", comment)] /\
        (comment = JStr "No comments found." \/
         exists kid kids item,
           get_prop story "kids" = JArr (kid :: kids) /\
           returned (HackerNewsClient.getItemAt c tr (to_string kid))
           = Ok item /\
           comment = get_prop item "text" /\ truthy comment = true))).
Proof.
  unfold HackerNewsClient.getTopStoryWithComment.
  rewrite returned_bind_cases.
  destruct (returned (HackerNewsClient.getTopStories c tr (Some 1)))
    as [ids | e] eqn:Htop; [| discriminate].
  destruct (getTopStories_one c tr ids Htop) as [first ->].
  intros Hv. exists first. split; [reflexivity |].
  destruct (value_eqb first JUndefined) eqn:Hund.
  - left. destruct first; try discriminate Hund.
    unfold returned, ret, fst in Hv. injection Hv as <-.
    split; [reflexivity | now left].
  - assert (Hstory :
              returned
                (bind (HackerNewsClient.getItemAt c tr (to_string first))
                   (fun story =>
                      if negb (truthy story) then ret JNull
                      else
                        match get_prop story "kids" with
                        | JArr (JUndefined :: _) =>
                            ret (JObj (HackerNewsClient.story_summary story))
                        | JArr (firstKid :: _) =>
                            bind (HackerNewsClient.getItemAt c tr
                                    (to_string firstKid))
                              (fun firstComment =>
                                 if truthy firstComment
                                    && truthy (get_prop firstComment "text")
                                 then ret (JObj (set_prop "top_comment"
                                                   (get_prop firstComment
                                                             "text")
                                                   (HackerNewsClient.story_summary
                                                      story)))
                                 else ret (JObj
                                             (HackerNewsClient.story_summary
                                                story)))
                        | _ => ret (JObj (HackerNewsClient.story_summary
                                            story))
                        end)) = Ok v)
      by (destruct first; try exact Hv; discriminate Hund).
    clear Hv. rewrite returned_bind_cases in Hstory.
    destruct (returned (HackerNewsClient.getItemAt c tr (to_string first)))
      as [story | e] eqn:Hs; [| discriminate Hstory].
    destruct (truthy story) eqn:Ht; cbn [negb] in Hstory.
    + right. exists story.
      destruct (top_comment_cases c tr story v Hstory)
        as (comment & Hv & Hcomment).
      exists comment. now repeat split.
    + left. unfold returned, ret, fst in Hstory. injection Hstory as <-.
      split; [reflexivity |]. right.
      f_equal. exact (getItemAt_falsy _ _ _ _ Hs Ht).
Qed.

Lemma top_story_result_witness :
  returned
    (HackerNewsClient.getTopStoryWithComment Fixtures.hn0
       (fun call _ =>
          if String.eqb (fetchUrl call)
               "https://hacker-news.firebaseio.com/v0/topstories.json"
          then Resolves (Fixtures.json_response 200 "OK"
                           (JArr [JNum 8863; JNum 121003]))
          else if String.eqb (fetchUrl call)
                    "https://hacker-news.firebaseio.com/v0/item/8863.json"
          then Resolves (Fixtures.json_response 200 "OK"
                           (JObj [("id", JNum 8863);
                                  ("title", JStr "My YC app: Dropbox");
                                  ("kids", JArr [JNum 9224; JNum 8917])]))
          else Resolves (Fixtures.json_response 200 "OK"
                           (JObj [("id", JNum 9224);
                                  ("text", JStr "Nice demo")]))))
  = Ok (JObj [("title", JStr "My YC app: Dropbox");
              ("url", JUndefined);
              ("top_comment", JStr "Nice demo")])
  /\
  JObj [("title", JStr "My YC app: Dropbox");
        ("url", JUndefined);
        ("top_comment", JStr "Nice demo")] <> JNull.
Proof.
  split; [vm_compute; reflexivity |].
  destruct (top_story_result Fixtures.hn0
              (fun call _ =>
                 if String.eqb (fetchUrl call)
                      "https://hacker-news.firebaseio.com/v0/topstories.json"
                 then Resolves (Fixtures.json_response 200 "OK"
                                  (JArr [JNum 8863; JNum 121003]))
                 else if String.eqb (fetchUrl call)
                           "https://hacker-news.firebaseio.com/v0/item/8863.json"
                 then Resolves (Fixtures.json_response 200 "OK"
                                  (JObj [("id", JNum 8863);
                                         ("title", JStr "My YC app: Dropbox");
                                         ("kids", JArr [JNum 9224; JNum 8917])]))
                 else Resolves (Fixtures.json_response 200 "OK"
                                  (JObj [("id", JNum 9224);
                                         ("text", JStr "Nice demo")])))
              (JObj [("title", JStr "My YC app: Dropbox");
                     ("url", JUndefined);
                     ("top_comment", JStr "Nice demo")]))
    as (first & _ & [[Hnull _] | _]).
  - vm_compute; reflexivity.
  - discriminate Hnull.
  - discriminate.
Defined.

(** * Properties of the schema validator wrapper and of the user factory *)

(** X23.  [SchemaValidator.validate] returns its argument unchanged
    exactly when the validator accepts it, and throws a [ValidationError]
    without a field when the validator rejects it.
    [SchemaValidator.validateOrNull] never throws, not even when the
    validator itself does: it returns the data when the data is not
    [null] and the validator accepts it, and [null] in every other
    case. *)
Theorem schema_validator_wrapper (d : value)
        (v : SchemaValidator.validator) (schemaName : string) :
  (forall w, returned (SchemaValidator.validate d v schemaName) = Ok w <->
             SchemaValidator.accepts v d = Ok true /\ w = d)
  /\
  (SchemaValidator.accepts v d = Ok false ->
   returned (SchemaValidator.validate d v schemaName)
   = Throw (ValidationError ("Schema validation failed for " ++ schemaName)
              None
              (JObj [("errors", SchemaValidator.errors v d); ("data", d)])))
  /\
  returned (SchemaValidator.validateOrNull d v schemaName)
  = (if value_eqb d JNull then Ok JNull
     else match SchemaValidator.accepts v d with
          | Ok true => Ok d
          | _ => Ok JNull
          end)
  /\
  (forall (s : schema) (report : value -> value),
      returned (SchemaValidator.validateOrNull d
                  (SchemaValidator.of_schema s report) schemaName)
      = Ok (if validate s d then d else JNull)).
Proof.
  assert (Hnull : returned (SchemaValidator.validateOrNull d v schemaName)
                  = (if value_eqb d JNull then Ok JNull
                     else match SchemaValidator.accepts v d with
                          | Ok true => Ok d
                          | _ => Ok JNull
                          end)).
  { unfold SchemaValidator.validateOrNull, SchemaValidator.validate.
    destruct (value_eqb d JNull); [reflexivity |].
    destruct (SchemaValidator.accepts v d) as [[|] | e]; reflexivity. }
  split; [| split; [| split; [exact Hnull |]]].
  - intros w. unfold SchemaValidator.validate.
    destruct (SchemaValidator.accepts v d) as [[|] | e]; cbn; split;
      try discriminate; try (intros [H _]; discriminate H).
    + intros H. injection H as <-. now split.
    + intros [_ ->]. reflexivity.
  - intros Hrej. unfold SchemaValidator.validate. now rewrite Hrej.
  - intros s report.
    unfold SchemaValidator.validateOrNull, SchemaValidator.validate,
      SchemaValidator.of_schema.
    destruct (value_eqb d JNull) eqn:E.
    + apply value_eqb_null in E. subst d. now destruct (validate s JNull).
    + cbn [SchemaValidator.accepts]. now destruct (validate s d).
Qed.

Lemma one_to_numbers (n : Z) :
  forallb (validate (of_type "number")) (UserFactory.one_to n) = true.
Proof.
  unfold UserFactory.one_to. apply forallb_forall. intros x Hx.
  apply in_map_iff in Hx. destruct Hx as (i & <- & _).
  now rewrite validate_of_type.
Qed.

Lemma one_to_length (n : Z) :
  List.length (UserFactory.one_to n) = Z.to_nat n.
Proof. unfold UserFactory.one_to. now rewrite length_map, length_seq. Qed.

Ltac user_schema_check :=
  unfold Schemas.validateUser, UserFactory.createActiveUser,
         UserFactory.createNewUser, UserFactory.createHighKarmaUser,
         UserFactory.createUser;
  cbn [spread fold_left set_prop fst snd UserFactory.or_else lookup nullish
       String.eqb Ascii.eqb Bool.eqb];
  rewrite validate_object;
  cbn [Schemas.userSchema type enum const required additionalProperties
       properties];
  cbn [forallb defined lookup String.eqb Ascii.eqb Bool.eqb andb orb
       no_additional keys map fst snd existsb validate_properties
       validate_property];
  rewrite ?validate_of_type, ?validate_array;
  cbn [has_type array_of of_type type enum const items String.eqb Ascii.eqb
       Bool.eqb andb orb];
  rewrite ?one_to_numbers; reflexivity.

(** X24.  Every user the factory makes without caller overrides passes
    the user schema, whatever the clock and the random draws:
    [createUser()], [createHighKarmaUser(karma)], [createNewUser()] and
    [createActiveUser(n)]; the active user has [max n 0] submissions,
    numbered from 1, and karma [50 n]. *)
Theorem factory_users_valid (clock now rndId rndKarma : Z)
        (karma submissionCount : option Z) :
  Schemas.validateUser (UserFactory.createUser now rndId rndKarma []) = true
  /\
  Schemas.validateUser
    (UserFactory.createHighKarmaUser now rndId rndKarma karma) = true
  /\
  Schemas.validateUser
    (UserFactory.createNewUser clock now rndId rndKarma) = true
  /\
  Schemas.validateUser
    (UserFactory.createActiveUser now rndId rndKarma submissionCount) = true
  /\
  (let n := match submissionCount with Some n => n | None => 100 end in
   exists ids,
     get_prop (UserFactory.createActiveUser now rndId rndKarma submissionCount)
              "submitted" = JArr ids /\
     Z.of_nat (List.length ids) = Z.max n 0 /\
     (forall i, (i < List.length ids)%nat ->
                nth i ids JUndefined = JNum (Z.of_nat i + 1)) /\
     get_prop (UserFactory.createActiveUser now rndId rndKarma submissionCount)
              "karma" = JNum (n * 50)).
Proof.
  split; [user_schema_check |]. split; [user_schema_check |].
  split; [user_schema_check |]. split; [user_schema_check |].
  intros n. exists (UserFactory.one_to n).
  split; [reflexivity |]. split; [rewrite one_to_length; lia |].
  split; [| reflexivity].
  intros i Hi. rewrite one_to_length in Hi. unfold UserFactory.one_to.
  rewrite (nth_indep _ JUndefined (JNum (Z.of_nat 0 + 1)))
    by (rewrite length_map, length_seq; exact Hi).
  rewrite (map_nth (fun i => JNum (Z.of_nat i + 1))).
  now rewrite seq_nth.
Qed.

(** X25.  Overrides of [createUser].  Every key of the overrides object
    appears in the created user with the overriding value, even a [null]
    one, because the overrides are spread last; the defaults show only
    for keys the overrides do not have.  In particular a [null] override of
    a declared field yields a user that fails the user schema. *)
Theorem createUser_overrides (now rndId rndKarma : Z)
        (overrides : list (string * value)) :
  NoDup (keys overrides) ->
  (forall k v, lookup k overrides = Some v ->
               get_prop (UserFactory.createUser now rndId rndKarma overrides) k
               = v)
  /\
  (forall k, lookup k overrides = None ->
             get_prop (UserFactory.createUser now rndId rndKarma overrides) k
             = get_prop (UserFactory.createUser now rndId rndKarma []) k)
  /\
  (forall k, In k ["id"; "created"; "karma"; "about"; "submitted"] ->
             lookup k overrides = Some JNull ->
             Schemas.validateUser
               (UserFactory.createUser now rndId rndKarma overrides) = false).
Proof.
  intros Hnd.
  assert (Hwin : forall k v, lookup k overrides = Some v ->
            get_prop (UserFactory.createUser now rndId rndKarma overrides) k
            = v).
  { intros k v Hk. unfold UserFactory.createUser. cbn [get_prop].
    now rewrite (lookup_spread k overrides Hnd), Hk. }
  split; [exact Hwin |]. split.
  - intros k Hk. unfold UserFactory.createUser. cbn [get_prop].
    rewrite (lookup_spread k overrides Hnd), Hk.
    unfold UserFactory.or_else.
    cbn [spread fold_left lookup].
    destruct (String.eqb k "id") eqn:E1;
      [apply String.eqb_eq in E1; subst k; now rewrite Hk |].
    destruct (String.eqb k "created") eqn:E2;
      [apply String.eqb_eq in E2; subst k; now rewrite Hk |].
    destruct (String.eqb k "karma") eqn:E3;
      [apply String.eqb_eq in E3; subst k; now rewrite Hk |].
    destruct (String.eqb k "about") eqn:E4;
      [apply String.eqb_eq in E4; subst k; now rewrite Hk |].
    destruct (String.eqb k "submitted") eqn:E5;
      [apply String.eqb_eq in E5; subst k; now rewrite Hk |].
    reflexivity.
  - intros k Hk Hnull.
    destruct (Schemas.validateUser
                (UserFactory.createUser now rndId rndKarma overrides))
      eqn:Hv; [| reflexivity].
    exfalso.
    assert (Hfield : lookup k (spread
               [("id", UserFactory.or_else overrides "id"
                         (JStr ("testuser" ++ number_to_string rndId)));
                ("created", UserFactory.or_else overrides "created"
                              (JNum (now / 1000 - 86400 * 365)));
                ("karma", UserFactory.or_else overrides "karma"
                            (JNum rndKarma));
                ("about", UserFactory.or_else overrides "about"
                            (JStr "This is a test user bio"));
                ("submitted", UserFactory.or_else overrides "submitted"
                                (JArr [JNum 1; JNum 2; JNum 3; JNum 4;
                                       JNum 5]))]
               overrides) = Some JNull)
      by now rewrite (lookup_spread k overrides Hnd), Hnull.
    destruct (present_property_declared Schemas.userSchema _ k JNull
                eq_refl Hv Hfield ltac:(discriminate)) as (sub & Hsub & Hval).
    destruct Hk as [<- | [<- | [<- | [<- | [<- | []]]]]];
      cbn in Hsub; injection Hsub as <-; discriminate Hval.
Qed.

Lemma createUser_overrides_witness :
  NoDup (keys [("karma", JNull); ("id", JStr "pg")]) /\
  get_prop (UserFactory.createUser 1700000000000 7 42
              [("karma", JNull); ("id", JStr "pg")]) "karma" = JNull /\
  Schemas.validateUser
    (UserFactory.createUser 1700000000000 7 42
       [("karma", JNull); ("id", JStr "pg")]) = false.
Proof.
  assert (Hnd : NoDup (keys [("karma", JNull); ("id", JStr "pg")])).
  { cbn. repeat constructor; cbn; intuition discriminate. }
  destruct (createUser_overrides 1700000000000 7 42
              [("karma", JNull); ("id", JStr "pg")] Hnd)
    as (Hwin & _ & Hbad).
  split; [exact Hnd |]. split.
  - apply Hwin. reflexivity.
  - apply (Hbad "karma"); [cbn; tauto | reflexivity].
Defined.

(** * The console during a request *)

Lemma attempt_once_success_trace (tr : transport) (call : FetchCall)
      (a : Z) (r : HttpResponse) :
  returned (attempt_once tr call a) = Ok r ->
  attempt_once tr call a
  = (Ok r,
     [Fetch (fetchMethod call) (fetchUrl call) a;
      Log DEBUG (fetchMethod call ++ " " ++ fetchUrl call ++ " - "
                   ++ number_to_string (status r))]).
Proof.
  unfold attempt_once.
  destruct (tr call a) as [raw | n m]; cbn; [| discriminate].
  pose proof (decode_body_silent raw) as Hs.
  destruct (decode_body raw) as [[d | e] u]; cbn in Hs |- *; subst u;
    [| discriminate].
  destruct (rawOk raw); cbn; [| discriminate].
  intros H. injection H as <-. reflexivity.
Qed.

(** X26.  A request whose first attempt succeeds hands the logger two
    debug lines and nothing else, with one fetch between them; so under
    the default threshold INFO, and under any threshold that hides debug
    lines, it prints nothing. *)
Theorem request_quiet_on_success (c : t) (tr : transport)
        (config : HttpRequestConfig) (r : HttpResponse) :
  0 <= maxRetries c config ->
  returned (attempt_once tr (fetch_call c config) 0) = Ok r ->
  trace (request c tr config)
  = [Log DEBUG (method config ++ " " ++ buildUrl c (url config));
     Fetch (method config) (buildUrl c (url config)) 0;
     Log DEBUG (method config ++ " " ++ buildUrl c (url config) ++ " - "
                  ++ number_to_string (status r))]
  /\
  Logger.shown Logger.initial (trace (request c tr config)) = []
  /\
  (forall lg, Logger.shouldLog lg DEBUG = false ->
              Logger.shown lg (trace (request c tr config)) = []).
Proof.
  intros HR Hok.
  assert (Htrace : trace (request c tr config)
                   = [Log DEBUG (method config ++ " "
                                   ++ buildUrl c (url config));
                      Fetch (method config) (buildUrl c (url config)) 0;
                      Log DEBUG (method config ++ " "
                                   ++ buildUrl c (url config) ++ " - "
                                   ++ number_to_string (status r))]).
  { unfold request.
    destruct (Z.to_nat (maxRetries c config + 1)) as [| n] eqn:En; [lia |].
    rewrite attempts_S.
    rewrite (attempt_once_success_trace _ _ _ _ Hok). reflexivity. }
  rewrite Htrace. split; [reflexivity |]. split; [reflexivity |].
  intros lg Hlg. cbn [Logger.shown filter]. now rewrite Hlg.
Qed.

Lemma request_quiet_on_success_witness :
  0 <= maxRetries (BaseAPI.httpClient Fixtures.hn0)
                  (mkRequest "GET" "/maxitem.json" None None None None)
  /\
  Logger.shown Logger.initial
    (trace (request (BaseAPI.httpClient Fixtures.hn0)
                    (Fixtures.always 200 "OK" (JNum 41000000))
                    (mkRequest "GET" "/maxitem.json" None None None None)))
  = [].
Proof.
  split; [cbn; lia |].
  destruct (request_quiet_on_success (BaseAPI.httpClient Fixtures.hn0)
              (Fixtures.always 200 "OK" (JNum 41000000))
              (mkRequest "GET" "/maxitem.json" None None None None)
              (mkResponse 200 "OK" Fixtures.json_headers (JNum 41000000) true))
    as (_ & Hquiet & _); [cbn; lia | vm_compute; reflexivity |].
  exact Hquiet.
Defined.
